(** * next-git: the ingestion / synchronisation pipeline

    A shallow embedding of the synchronisation code of the repository:

    - [lib/github.js] and [lib/syncOrganizationRepos.js]
      (module [Sync]): the batch loop over an organisation's repositories
      and the per-repository transaction;
    - [app/api/fetch-package-json/route.ts] (module [Route]): the
      single-repository variant of the same transaction;
    - [lib/services/githubService.js] (module [GitHubService]): the
      recursive search for manifests;
    - [lib/services/packageAnalyzerService.js] (module [Analyzer]): the
      normalisation of a manifest into child rows and their replacement.

    Conventions.  JavaScript numbers that the code uses as integers
    (ids, HTTP statuses, counters, milliseconds) are [Z].  A table is the
    list of its rows, in insertion order.  Code that mutates variables and
    may throw is written in a state-and-exception monad in which the state
    survives a throw, as the variables of a JavaScript closure do. *)

From Stdlib Require Import ZArith List String Ascii Bool Lia DecimalString
  Permutation.
Import ListNotations.

Local Open Scope string_scope.
Local Open Scope list_scope.
Local Open Scope Z_scope.

Set Warnings "-register-all".

(** ** JavaScript values *)

(** The result of [JSON.parse]. Numbers are integers here; no claim below
    depends on fractional numbers. *)
Inductive JSON : Type :=
| JNull
| JBool (b : bool)
| JNum (n : Z)
| JStr (s : string)
| JArr (items : list JSON)
| JObj (members : list (string * JSON)).

(** A JavaScript value that may be [undefined]. *)
Definition JSValue := option JSON.

Definition undefined : JSValue := None.

(** ToBoolean. *)
Definition truthy (v : JSValue) : bool :=
  match v with
  | None => false
  | Some JNull => false
  | Some (JBool b) => b
  | Some (JNum n) => negb (n =? 0)
  | Some (JStr s) => negb (s =? "")%string
  | Some (JArr _) => true
  | Some (JObj _) => true
  end.

Fixpoint assoc {A : Type} (k : string) (l : list (string * A)) : option A :=
  match l with
  | [] => None
  | (k', v) :: l' => if (k' =? k)%string then Some v else assoc k l'
  end.

(** [o.k] for a parsed document [o] that is not [null]: own properties of
    objects, [undefined] otherwise. *)
Definition member (o : JSON) (k : string) : JSValue :=
  match o with
  | JObj ms => assoc k ms
  | _ => None
  end.

(** [v || d] *)
Definition or_else (v : JSValue) (d : JSON) : JSON :=
  match v with
  | Some j => if truthy v then j else d
  | None => d
  end.

(** ** Exceptions and the state-and-exception monad *)

Inductive Exn : Type :=
| ConstraintViolation (constraint : string)
| RecordNotFound
| TransactionExpired
| SyntaxError
| TypeError
| HttpError (status : option Z)
| OtherError (message : string).

Inductive Completion (A : Type) : Type :=
| Normal (a : A)
| Throw (e : Exn).
Arguments Normal {A} a.
Arguments Throw {A} e.

Definition M (S A : Type) : Type := S -> S * Completion A.

Definition ret {S A} (a : A) : M S A := fun s => (s, Normal a).

Definition bind {S A B} (m : M S A) (k : A -> M S B) : M S B :=
  fun s =>
    match m s with
    | (s', Normal a) => k a s'
    | (s', Throw e) => (s', Throw e)
    end.

Definition throw {S A} (e : Exn) : M S A := fun s => (s, Throw e).

(** [try { m } catch (e) { h e }]: the handler runs in the state the throw
    left behind. *)
Definition try_catch {S A} (m : M S A) (h : Exn -> M S A) : M S A :=
  fun s =>
    match m s with
    | (s', Normal a) => (s', Normal a)
    | (s', Throw e) => h e s'
    end.

Definition gets {S A} (f : S -> A) : M S A := fun s => (s, Normal (f s)).
Definition modify {S} (f : S -> S) : M S unit := fun s => (f s, Normal tt).

Declare Scope js_scope.
Delimit Scope js_scope with js.
Notation "x <- m ;; k" := (bind m (fun x => k))
  (at level 61, m at next level, right associativity) : js_scope.
Notation "m ;;; k" := (bind m (fun _ => k))
  (at level 61, right associativity) : js_scope.

(** [for (const x of xs) body x] *)
Fixpoint for_of {S A} (xs : list A) (body : A -> M S unit) : M S unit :=
  match xs with
  | [] => ret tt
  | x :: xs' => bind (body x) (fun _ => for_of xs' body)
  end.

(** [Array.prototype.slice(from, to)] for [0 <= from]. *)
Definition slice {A} (from to : nat) (l : list A) : list A :=
  firstn (to - from) (skipn from l).

(** The values [i] of [for (let i = start; i < stop; i += step)], for a
    body that does not assign [i].  [fuel] bounds the number of
    iterations; [range_step] supplies enough (see [range_from_enough]). *)
Fixpoint range_from (fuel i stop step : nat) : list nat :=
  match fuel with
  | O => []
  | S fuel' =>
      if (i <? stop)%nat then i :: range_from fuel' (i + step) stop step
      else []
  end.

Definition range_step (start stop step : nat) : list nat :=
  range_from stop start stop step.

(** * lib/github.js and lib/syncOrganizationRepos.js *)

Module Sync.

(** ** The store (Prisma models [organization], [repository],
    [packageJson]) *)

Record Organization := {
  org_id : Z;
  org_name : string
}.

Record Repository := {
  repo_id : Z;
  repo_organizationId : Z;
  repo_name : string;
  repo_fullName : string;
  repo_url : string;
  repo_defaultBranch : string;
  repo_description : option string;
  repo_githubId : option Z;
  repo_lastFetchedAt : option Z;
  repo_hasPackageJson : bool
}.

Record PackageJson := {
  pj_id : Z;
  pj_repositoryId : Z;
  pj_name : JSON;
  pj_version : JSON;
  pj_description : JSON;
  pj_author : JSON;
  pj_license : JSON;
  pj_dependencies : JSON;
  pj_devDependencies : JSON;
  pj_scripts : JSON;
  pj_fullContent : JSON;
  pj_fetchedAt : Z
}.

Record Database := {
  organizations : list Organization;
  repositories : list Repository;
  packageJsons : list PackageJson
}.

(** ** The remote API *)

(** One element of the listing of [octokit.repos.listForOrg]. *)
Record GithubRepo := {
  gh_id : Z;
  gh_name : string;
  gh_full_name : string;
  gh_html_url : string;
  gh_default_branch : option string;
  gh_description : option string;
  gh_owner_login : string
}.

(** How the promise of [octokit.repos.getContent] settles: resolved with
    [{data, status}], where [data.content] (given here already decoded) is
    missing when the path is not a file; or rejected with an error whose
    [status] may be missing. *)
Inductive OctokitResponse : Type :=
| Resolved (content : option string) (status : Z)
| Rejected (status : option Z).

(** How the iteration [octokit.paginate.iterator(listForOrg, {org})] goes:
    it yields all its pages, or it throws an error. *)
Inductive Listing : Type :=
| Pages (pages : list (list GithubRepo))
| ListingFails (error : Exn).

(** The remote state.  It does not change while the code runs: a request
    that is sent again gets the same answer. *)
Record GitHub := {
  paginate_listForOrg : string -> Listing;
  (** how the server answers [GET /repos/{owner}/{repo}/contents/{path}] *)
  repos_getContent : string -> string -> string -> OctokitResponse;
  (** the time, in milliseconds, until one attempt of that request
      settles *)
  repos_getContent_ms : string -> string -> string -> N
}.

(** ** Machine state of one call of [syncOrganizationRepos] *)

Inductive Event : Type :=
| LogBatch (number total size : Z)
| LogProcessed (full_name : string)
| LogNoPackageJson (full_name : string)
| LogErrorStatus (full_name : string) (status : Z)
| LogCritical (full_name : string) (e : Exn)
| LogFetchError (owner repo : string)
| Sleep (ms : Z).

Record Machine := {
  db : Database;
  clock : Z;
  console : list Event;
  successCount : Z;
  noPackageJsonCount : Z;
  errorCount : Z
}.

Definition set_db (d : Database) (s : Machine) : Machine :=
  {| db := d; clock := clock s; console := console s;
     successCount := successCount s;
     noPackageJsonCount := noPackageJsonCount s;
     errorCount := errorCount s |}.

Definition set_clock (c : Z) (s : Machine) : Machine :=
  {| db := db s; clock := c; console := console s;
     successCount := successCount s;
     noPackageJsonCount := noPackageJsonCount s;
     errorCount := errorCount s |}.

Definition emit (e : Event) : M Machine unit :=
  modify (fun s =>
    {| db := db s; clock := clock s; console := console s ++ [e];
       successCount := successCount s;
       noPackageJsonCount := noPackageJsonCount s;
       errorCount := errorCount s |}).

(** [successCount++] *)
Definition incr_successCount : M Machine unit :=
  modify (fun s =>
    {| db := db s; clock := clock s; console := console s;
       successCount := successCount s + 1;
       noPackageJsonCount := noPackageJsonCount s;
       errorCount := errorCount s |}).

(** [noPackageJsonCount++] *)
Definition incr_noPackageJsonCount : M Machine unit :=
  modify (fun s =>
    {| db := db s; clock := clock s; console := console s;
       successCount := successCount s;
       noPackageJsonCount := noPackageJsonCount s + 1;
       errorCount := errorCount s |}).

(** [errorCount++] *)
Definition incr_errorCount : M Machine unit :=
  modify (fun s =>
    {| db := db s; clock := clock s; console := console s;
       successCount := successCount s;
       noPackageJsonCount := noPackageJsonCount s;
       errorCount := errorCount s + 1 |}).

(** [new Date()]: reads the clock, which then moves on. *)
Definition new_Date : M Machine Z :=
  fun s => (set_clock (clock s + 1) s, Normal (clock s)).

(** [await new Promise(resolve => setTimeout(resolve, ms))] *)
Definition sleep (ms : Z) : M Machine unit :=
  fun s =>
    let s' := set_clock (clock s + ms) s in
    emit (Sleep ms) s'.

(** Time passes while a request or a delay is awaited. *)
Definition elapse (ms : Z) : M Machine unit :=
  modify (fun s => set_clock (clock s + ms) s).

(** ** Interactive transactions *)

(** [prisma.$transaction(fn)] is called without options, so the
    transaction has Prisma's default [timeout]: 5000 ms after it has
    started it is closed and rolled back. *)
Definition TRANSACTION_TIMEOUT : Z := 5000.

(** The handle [tx] that the callback receives. *)
Record Tx := {
  tx_expires : Z
}.

Definition expired (tx : Tx) (s : Machine) : bool :=
  tx_expires tx <=? clock s.

(** A query on [tx]: on a transaction that is closed it throws and does
    nothing. *)
Definition query {A} (tx : Tx) (q : M Machine A) : M Machine A :=
  fun s => if expired tx s then (s, Throw TransactionExpired) else q s.

(** [prisma.$transaction(fn)]: when [fn] throws, the writes it made to
    the store are rolled back and the error is rethrown; when [fn] returns
    the transaction is committed, which fails, with the same rollback, on
    a transaction that is closed by then.  Variables and the console are
    not part of the store. *)
Definition transaction {A} (fn : Tx -> M Machine A) : M Machine A :=
  fun s =>
    let tx := {| tx_expires := clock s + TRANSACTION_TIMEOUT |} in
    match fn tx s with
    | (s', Normal a) =>
        if expired tx s' then (set_db (db s) s', Throw TransactionExpired)
        else (s', Normal a)
    | (s', Throw e) => (set_db (db s) s', Throw e)
    end.

(** ** Promises *)

(** [insert_at k x l]: [x] put at place [k] of [l], at the end when [l]
    is shorter. *)
Fixpoint insert_at {A} (k : nat) (x : A) (l : list A) : list A :=
  match k, l with
  | S k', y :: l' => y :: insert_at k' x l'
  | _, _ => x :: l
  end.

(** A rearrangement of [l]: its last element first, every element before
    it is put at its place among the ones already there.  Without places
    the list stays as it is, and every order of [l] is [arrange places l]
    for some [places]. *)
Fixpoint arrange {A} (places : list nat) (l : list A) : list A :=
  match l with
  | [] => []
  | x :: l' => insert_at (hd 0%nat places) x (arrange (tl places) l')
  end.

(** The calls [f x] of [xs.map(async x => f x)], all of which start at
    the time [start] at which [map] is called.  What they do to the
    variables they share and to the store is done one call after the
    other, in the order of [xs]; a promise is represented by the time at
    which it settles, whether the call has returned or thrown. *)
Fixpoint start_all {A} (start : Z) (xs : list A) (f : A -> M Machine unit)
  : M Machine (list Z) :=
  match xs with
  | [] => ret []
  | x :: xs' =>
      (modify (set_clock start) ;;;
       try_catch (f x) (fun _ => ret tt) ;;;
       settles <- gets clock ;;
       promises <- start_all start xs' f ;;
       ret (settles :: promises))%js
  end.

(** [xs.map(async x => f x)], the calls taking effect in the order
    [arrange places xs]; [map] itself returns at once. *)
Definition map_async {A} (places : list nat) (xs : list A)
    (f : A -> M Machine unit) : M Machine (list Z) :=
  (start <- gets clock ;;
   promises <- start_all start (arrange places xs) f ;;
   modify (set_clock start) ;;;
   ret promises)%js.

(** [await Promise.allSettled(promises)]: resumes when the last of them
    has settled. *)
Definition Promise_allSettled (promises : list Z) : M Machine unit :=
  modify (fun s => set_clock (fold_right Z.max (clock s) promises) s).

(** ** Prisma operations *)

(** Modelled from the spec: the Prisma schema of the models [organization],
    [repository] and [packageJson] is not among the sources.  The code
    creates rows without an [id], so ids are generated by the database;
    here a new id is one more than the largest id of the table. *)
Definition next_id (ids : list Z) : Z := 1 + fold_right Z.max 0 ids.

(** Modelled from the spec: the default of [hasPackageJson] on creation
    (the code does not pass it to [create]) comes from the missing Prisma
    schema; a repository starts without a manifest. *)
Definition hasPackageJson_default : bool := false.

Definition set_organizations (l : list Organization) (d : Database) :=
  {| organizations := l; repositories := repositories d;
     packageJsons := packageJsons d |}.

Definition set_repositories (l : list Repository) (d : Database) :=
  {| organizations := organizations d; repositories := l;
     packageJsons := packageJsons d |}.

Definition set_packageJsons (l : list PackageJson) (d : Database) :=
  {| organizations := organizations d; repositories := repositories d;
     packageJsons := l |}.

(** [prisma.organization.upsert({where: {name}, update: {}, create: {name}})] *)
Definition organization_upsert (name : string) : M Machine Organization :=
  fun s =>
    let d := db s in
    match find (fun o => (org_name o =? name)%string) (organizations d) with
    | Some o => (s, Normal o)
    | None =>
        let o := {| org_id := next_id (map org_id (organizations d));
                    org_name := name |} in
        (set_db (set_organizations (organizations d ++ [o]) d) s, Normal o)
    end.

(** [commonRepoData] *)
Record RepoData := {
  d_organizationId : Z;
  d_name : string;
  d_fullName : string;
  d_url : string;
  d_defaultBranch : string;
  d_description : option string;
  d_githubId : Z;
  d_lastFetchedAt : Z
}.

Definition has_githubId (g : Z) (r : Repository) : bool :=
  match repo_githubId r with
  | Some g' => g' =? g
  | None => false
  end.

(** The unique indexes of table [repositories] ([full_name], [github_id]):
    the name of the index that a row with these values would violate,
    [self] being the id of the row that is being rewritten, if any. *)
Definition unique_conflict (self : option Z) (fullName : string) (g : Z)
    (rows : list Repository) : option string :=
  let other r :=
    match self with
    | Some i => negb (repo_id r =? i)
    | None => true
    end in
  if existsb (fun r => other r && (repo_fullName r =? fullName)%string) rows
  then Some "repositories_full_name_key"
  else if existsb (fun r => other r && has_githubId g r) rows
  then Some "repositories_github_id_key"
  else None.

Definition write_repo (data : RepoData) (r : Repository) : Repository :=
  {| repo_id := repo_id r;
     repo_organizationId := d_organizationId data;
     repo_name := d_name data;
     repo_fullName := d_fullName data;
     repo_url := d_url data;
     repo_defaultBranch := d_defaultBranch data;
     repo_description := d_description data;
     repo_githubId := Some (d_githubId data);
     repo_lastFetchedAt := Some (d_lastFetchedAt data);
     repo_hasPackageJson := repo_hasPackageJson r |}.

Definition new_repo (i : Z) (data : RepoData) : Repository :=
  {| repo_id := i;
     repo_organizationId := d_organizationId data;
     repo_name := d_name data;
     repo_fullName := d_fullName data;
     repo_url := d_url data;
     repo_defaultBranch := d_defaultBranch data;
     repo_description := d_description data;
     repo_githubId := Some (d_githubId data);
     repo_lastFetchedAt := Some (d_lastFetchedAt data);
     repo_hasPackageJson := hasPackageJson_default |}.

(** The effect of [upsert] on the rows of [repositories]: the violated
    index, or the new rows and the row that was written. *)
Definition upsert_repository_rows (githubId : Z) (update create : RepoData)
    (rows : list Repository) : string + list Repository * Repository :=
  match find (has_githubId githubId) rows with
  | Some r =>
      match unique_conflict (Some (repo_id r)) (d_fullName update)
              (d_githubId update) rows with
      | Some c => inl c
      | None =>
          inr (map (fun x => if repo_id x =? repo_id r
                             then write_repo update x else x) rows,
               write_repo update r)
      end
  | None =>
      match unique_conflict None (d_fullName create) (d_githubId create)
              rows with
      | Some c => inl c
      | None =>
          let r := new_repo (next_id (map repo_id rows)) create in
          inr (rows ++ [r], r)
      end
  end.

(** [tx.repository.upsert({where: {githubId}, update, create})] *)
Definition repository_upsert (tx : Tx) (githubId : Z)
    (update create : RepoData) : M Machine Repository :=
  query tx (fun s =>
    match upsert_repository_rows githubId update create
            (repositories (db s)) with
    | inl c => (s, Throw (ConstraintViolation c))
    | inr (rows', r) =>
        (set_db (set_repositories rows' (db s)) s, Normal r)
    end).

Definition set_hasPackageJson (b : bool) (r : Repository) : Repository :=
  {| repo_id := repo_id r;
     repo_organizationId := repo_organizationId r;
     repo_name := repo_name r;
     repo_fullName := repo_fullName r;
     repo_url := repo_url r;
     repo_defaultBranch := repo_defaultBranch r;
     repo_description := repo_description r;
     repo_githubId := repo_githubId r;
     repo_lastFetchedAt := repo_lastFetchedAt r;
     repo_hasPackageJson := b |}.

(** The effect of [update] on the rows of [repositories]; [None] when no
    row has the id. *)
Definition update_hasPackageJson_rows (id : Z) (b : bool)
    (rows : list Repository) : option (list Repository) :=
  if existsb (fun r => repo_id r =? id) rows then
    Some (map (fun x => if repo_id x =? id then set_hasPackageJson b x
                        else x) rows)
  else None.

(** [tx.repository.update({where: {id}, data: {hasPackageJson}})] *)
Definition repository_update_hasPackageJson (tx : Tx) (id : Z) (b : bool)
  : M Machine unit :=
  query tx (fun s =>
    match update_hasPackageJson_rows id b (repositories (db s)) with
    | Some rows' => (set_db (set_repositories rows' (db s)) s, Normal tt)
    | None => (s, Throw RecordNotFound)
    end).

(** The [update] and [create] arguments of [tx.packageJson.upsert]; a
    field that is [undefined] is left alone by an update and is NULL in a
    created row. *)
Record PackageJsonData := {
  d_pj_name : JSValue;
  d_pj_version : JSValue;
  d_pj_description : JSValue;
  d_pj_author : JSValue;
  d_pj_license : JSValue;
  d_pj_dependencies : JSON;
  d_pj_devDependencies : JSON;
  d_pj_scripts : JSON;
  d_pj_fullContent : JSON;
  d_pj_fetchedAt : Z
}.

Definition assign (v : JSValue) (old : JSON) : JSON :=
  match v with
  | Some j => j
  | None => old
  end.

Definition write_packageJson (data : PackageJsonData) (p : PackageJson)
  : PackageJson :=
  {| pj_id := pj_id p;
     pj_repositoryId := pj_repositoryId p;
     pj_name := assign (d_pj_name data) (pj_name p);
     pj_version := assign (d_pj_version data) (pj_version p);
     pj_description := assign (d_pj_description data) (pj_description p);
     pj_author := assign (d_pj_author data) (pj_author p);
     pj_license := assign (d_pj_license data) (pj_license p);
     pj_dependencies := d_pj_dependencies data;
     pj_devDependencies := d_pj_devDependencies data;
     pj_scripts := d_pj_scripts data;
     pj_fullContent := d_pj_fullContent data;
     pj_fetchedAt := d_pj_fetchedAt data |}.

Definition new_packageJson (i repositoryId : Z) (data : PackageJsonData)
  : PackageJson :=
  {| pj_id := i;
     pj_repositoryId := repositoryId;
     pj_name := assign (d_pj_name data) JNull;
     pj_version := assign (d_pj_version data) JNull;
     pj_description := assign (d_pj_description data) JNull;
     pj_author := assign (d_pj_author data) JNull;
     pj_license := assign (d_pj_license data) JNull;
     pj_dependencies := d_pj_dependencies data;
     pj_devDependencies := d_pj_devDependencies data;
     pj_scripts := d_pj_scripts data;
     pj_fullContent := d_pj_fullContent data;
     pj_fetchedAt := d_pj_fetchedAt data |}.

(** The effect of [upsert] on the rows of [packageJson]. *)
Definition upsert_packageJson_rows (repositoryId : Z)
    (update create : PackageJsonData) (rows : list PackageJson)
  : list PackageJson :=
  if existsb (fun p => pj_repositoryId p =? repositoryId) rows then
    map (fun p => if pj_repositoryId p =? repositoryId
                  then write_packageJson update p else p) rows
  else
    rows ++ [new_packageJson (next_id (map pj_id rows)) repositoryId create].

(** [tx.packageJson.upsert({where: {repositoryId}, update, create})] *)
Definition packageJson_upsert (tx : Tx) (repositoryId : Z)
    (update create : PackageJsonData) : M Machine unit :=
  query tx (modify (fun s =>
    set_db (set_packageJsons
              (upsert_packageJson_rows repositoryId update create
                 (packageJsons (db s))) (db s)) s)).

(** The effect of [deleteMany] on the rows of [packageJson]. *)
Definition delete_packageJson_rows (repositoryId : Z)
    (rows : list PackageJson) : list PackageJson :=
  filter (fun p => negb (pj_repositoryId p =? repositoryId)) rows.

(** [tx.packageJson.deleteMany({where: {repositoryId}})] *)
Definition packageJson_deleteMany (tx : Tx) (repositoryId : Z)
  : M Machine unit :=
  query tx (modify (fun s =>
    set_db (set_packageJsons
              (delete_packageJson_rows repositoryId (packageJsons (db s)))
              (db s)) s)).

(** ** lib/github.js *)

(** [retry: { doNotRetry: ["429"] }]: the option replaces the list of
    statuses that the retry plug-in leaves alone. *)
Definition doNotRetry : list JSON := [JStr "429"].

(** [doNotRetry.includes(error.status)] for a status that is a number:
    [includes] compares without conversion. *)
Definition includes (l : list JSON) (status : Z) : bool :=
  existsb (fun v => match v with JNum n => n =? status | _ => false end) l.

(** The plug-in's own settings, which the configuration leaves alone: a
    request is sent again at most 3 times, after 1, 4 and 9 seconds. *)
Definition retries : nat := 3.

Definition retryAfter (retryCount : Z) : Z :=
  (retryCount + 1) * (retryCount + 1) * 1000.

(** A request through the retry plug-in: an attempt that is rejected with
    a status of 400 or more that is not in [doNotRetry] is repeated while
    retries are left; [ms] is the time one attempt takes and [response]
    the server's answer. *)
Fixpoint request (retries_left : nat) (retryCount : Z) (ms : Z)
    (response : OctokitResponse) : M Machine OctokitResponse :=
  (elapse ms ;;;
   match response, retries_left with
   | Rejected (Some status), S retries_left' =>
       if (400 <=? status) && negb (includes doNotRetry status) then
         elapse (retryAfter retryCount) ;;;
         request retries_left' (retryCount + 1) ms response
       else ret response
   | _, _ => ret response
   end)%js.

Section Program.

(** The remote state, and [JSON.parse] ([None] when it throws a
    [SyntaxError]). *)
Variable github : GitHub.
Variable JSON_parse : string -> option JSON.

(** The serial order in which the database takes the transactions of a
    batch, which start together: for the batch with this number, the place
    at which each of its members is put among the members after it (see
    [arrange]). *)
Variable schedule : Z -> list nat.

(** The [message] of an error that a library has thrown; these texts are
    not in the sources. *)
Variable error_text : Exn -> string.

(** [octokit.repos.getContent({owner, repo, path})] *)
Definition octokit_repos_getContent (owner repo path : string)
  : M Machine OctokitResponse :=
  request retries 0 (Z.of_N (repos_getContent_ms github owner repo path))
    (repos_getContent github owner repo path).

(** [getPackageJsonContent(owner, repo)]: the [content] and [status] of
    the object it returns. *)
Definition getPackageJsonContent (owner repo : string)
  : M Machine (option string * Z) :=
  (response <- octokit_repos_getContent owner repo "package.json" ;;
   match response with
   | Resolved (Some content) status => ret (Some content, status)
   | Resolved None status =>
       (* [Buffer.from(undefined, 'base64')] throws a TypeError, which has
          no [status] *)
       emit (LogFetchError owner repo) ;;;
       ret (None, 500)
   | Rejected status =>
       if match status with Some 404 => true | _ => false end
       then ret (None, 404)
       else
         emit (LogFetchError owner repo) ;;;
         ret (None,
              match status with
              | Some st => if st =? 0 then 500 else st
              | None => 500
              end)
   end)%js.

(** ** lib/syncOrganizationRepos.js *)

Definition BATCH_SIZE : nat := 10.
Definition DELAY_BETWEEN_BATCHES : Z := 2000.

Definition string_truthy (s : option string) : bool :=
  match s with
  | Some s => negb (s =? "")%string
  | None => false
  end.

Definition string_or (s : option string) (d : string) : string :=
  if string_truthy s then match s with Some x => x | None => d end else d.

Definition packageJsonData (packageJson : JSON) (fetchedAt : Z)
  : PackageJsonData :=
  {| d_pj_name := member packageJson "name";
     d_pj_version := member packageJson "version";
     d_pj_description := member packageJson "description";
     d_pj_author := member packageJson "author";
     d_pj_license := member packageJson "license";
     d_pj_dependencies :=
       or_else (member packageJson "dependencies") (JObj []);
     d_pj_devDependencies :=
       or_else (member packageJson "devDependencies") (JObj []);
     d_pj_scripts := or_else (member packageJson "scripts") (JObj []);
     d_pj_fullContent := packageJson;
     d_pj_fetchedAt := fetchedAt |}.

(** The object [commonRepoData], [now] being its [new Date()]. *)
Definition commonRepoData (organization : Organization)
    (githubRepo : GithubRepo) (now : Z) : RepoData :=
  {| d_organizationId := org_id organization;
     d_name := gh_name githubRepo;
     d_fullName := gh_full_name githubRepo;
     d_url := gh_html_url githubRepo;
     d_defaultBranch := string_or (gh_default_branch githubRepo) "main";
     d_description := gh_description githubRepo;
     d_githubId := gh_id githubRepo;
     d_lastFetchedAt := now |}.

(** The callback [async (tx) => { ... }] given to [prisma.$transaction]. *)
Definition repo_transaction_body (organization : Organization)
    (githubRepo : GithubRepo) (tx : Tx) : M Machine unit :=
  (now <- new_Date ;;
   let commonRepoData := commonRepoData organization githubRepo now in
   repository <- repository_upsert tx (gh_id githubRepo)
                   commonRepoData commonRepoData ;;
   fetched <- getPackageJsonContent (gh_owner_login githubRepo)
                (gh_name githubRepo) ;;
   let packageJsonContent := fst fetched in
   let status := snd fetched in
   if (status =? 200) && string_truthy packageJsonContent then
     packageJson <-
       match JSON_parse (string_or packageJsonContent "") with
       | Some j => ret j
       | None => throw SyntaxError
       end ;;
     (* [packageJson.name] of [null] throws *)
     match packageJson with JNull => throw TypeError | _ => ret tt end ;;;
     fetchedAt_update <- new_Date ;;
     fetchedAt_create <- new_Date ;;
     packageJson_upsert tx (repo_id repository)
       (packageJsonData packageJson fetchedAt_update)
       (packageJsonData packageJson fetchedAt_create) ;;;
     repository_update_hasPackageJson tx (repo_id repository) true ;;;
     incr_successCount ;;;
     emit (LogProcessed (gh_full_name githubRepo))
   else if status =? 404 then
     packageJson_deleteMany tx (repo_id repository) ;;;
     repository_update_hasPackageJson tx (repo_id repository) false ;;;
     incr_noPackageJsonCount ;;;
     emit (LogNoPackageJson (gh_full_name githubRepo))
   else
     emit (LogErrorStatus (gh_full_name githubRepo) status) ;;;
     incr_errorCount)%js.

(** The callback of [batch.map]: one repository's unit of work. *)
Definition process_repo (organization : Organization)
    (githubRepo : GithubRepo) : M Machine unit :=
  try_catch
    (transaction (repo_transaction_body organization githubRepo))
    (fun repoError =>
       (emit (LogCritical (gh_full_name githubRepo) repoError) ;;;
        incr_errorCount)%js).

(** One iteration of the loop over [i]. *)
Definition process_batch (organization : Organization)
    (allRepos : list GithubRepo) (i : nat) : M Machine unit :=
  (let batch := slice i (i + BATCH_SIZE) allRepos in
   let number := Z.of_nat (i / BATCH_SIZE) + 1 in
   emit (LogBatch number
           (Z.of_nat ((List.length allRepos + BATCH_SIZE - 1) / BATCH_SIZE))
           (Z.of_nat (List.length batch))) ;;;
   batchPromises <- map_async (schedule number) batch
                      (process_repo organization) ;;
   Promise_allSettled batchPromises ;;;
   if (i + BATCH_SIZE <? List.length allRepos)%nat
   then sleep DELAY_BETWEEN_BATCHES
   else ret tt)%js.

(** [error.message]: the text given to [new Error], or the text of the
    library that threw the error. *)
Definition message_of (e : Exn) : string :=
  match e with
  | OtherError m => m
  | _ => error_text e
  end.

(** [syncOrganizationRepos(orgName)], started with the three counters
    at 0 (see [start]). *)
Definition syncOrganizationRepos (orgName : string) : M Machine JSON :=
  try_catch
    (organization <- organization_upsert orgName ;;
     allRepos <-
       match paginate_listForOrg github orgName with
       | Pages pages => ret (List.concat pages)
       | ListingFails error => throw error
       end ;;
     for_of (range_step 0 (List.length allRepos) BATCH_SIZE)
       (process_batch organization allRepos) ;;;
     s <- gets (fun s => s) ;;
     ret (JObj [("success", JBool true);
                ("message", JStr "Sync complete.");
                ("successCount", JNum (successCount s));
                ("noPackageJsonCount", JNum (noPackageJsonCount s));
                ("errorCount", JNum (errorCount s))]))%js
    (fun error =>
       ret (JObj [("success", JBool false);
                  ("message",
                   JStr ("Failed to sync organization: "
                         ++ message_of error)%string)])).

End Program.

(** The state in which a call starts: [let successCount = 0] etc. *)
Definition start (d : Database) (time : Z) : Machine :=
  {| db := d; clock := time; console := [];
     successCount := 0; noPackageJsonCount := 0; errorCount := 0 |}.

End Sync.

(** * lib/services/githubService.js *)

Module GitHubService.

(** What [octokit.repos.getContent({owner, repo, path})] answers for a
    path of one repository, and, for each directory it lists, what it
    answers for that directory's path in turn.  A repository is a finite
    tree, so the answers form one. *)
Inductive Content : Type :=
| Failure (status : option Z)             (* the request is rejected *)
| Listing (items : list Item)             (* [response.data] is an array *)
| Single (item : Item)                    (* [response.data] is one object *)
with Item : Type :=
| ItemFile (name path : string)                     (* type 'file' *)
| ItemDir (name path : string) (content : Content)  (* type 'dir' *)
| ItemOther (type name path : string).              (* symlink, submodule *)

Inductive LogLine : Type :=
| LogSearchFailed (path : string) (status : option Z).

(** The local variable [packageJsons] and the console. *)
Record Frame := {
  packageJsons : list string;
  console : list LogLine
}.

Definition push (paths : list string) : M Frame unit :=
  modify (fun f => {| packageJsons := packageJsons f ++ paths;
                      console := console f |}).

Definition console_error (l : LogLine) : M Frame unit :=
  modify (fun f => {| packageJsons := packageJsons f;
                      console := console f ++ [l] |}).

Definition skipDirs : list string :=
  ["node_modules"; ".git"; ".github"; "dist"; "build"; "coverage"; "docs";
   ".vscode"; ".idea"; "test"; "tests"; "__tests__"].

(** [shouldSkipDirectory(dirName)] *)
Definition shouldSkipDirectory (dirName : string) : bool :=
  existsb (fun d => (d =? dirName)%string) skipDirs
  || String.prefix "." dirName.

Definition path_of (i : Item) : string :=
  match i with
  | ItemFile _ p => p
  | ItemDir _ p _ => p
  | ItemOther _ _ p => p
  end.

Section Loop.

(** The recursive call [this.findAllPackageJsons(owner, repo, item.path)],
    given the answer for that path. *)
Variable recurse : string -> Content -> M (list LogLine) (list string).

(** One iteration of [for (const item of contents)]. *)
Definition visit (item : Item) : M Frame unit :=
  match item with
  | ItemFile name p =>
      if (name =? "package.json")%string then push [p] else ret tt
  | ItemDir name p content =>
      if negb (shouldSkipDirectory name) then
        fun f =>
          match recurse p content (console f) with
          | (log', Normal subPackageJsons) =>
              push subPackageJsons
                {| packageJsons := packageJsons f; console := log' |}
          | (log', Throw e) =>
              ({| packageJsons := packageJsons f; console := log' |},
               Throw e)
          end
      else ret tt
  | ItemOther _ _ _ => ret tt
  end.

(** [for (const item of contents) { ... }] *)
Fixpoint search (contents : list Item) : M Frame unit :=
  match contents with
  | [] => ret tt
  | item :: rest => bind (visit item) (fun _ => search rest)
  end.

End Loop.

(** The [catch] block. *)
Definition handler (path : string) (error : Exn) : M Frame unit :=
  match error with
  | HttpError (Some 404) => ret tt
  | HttpError status => console_error (LogSearchFailed path status)
  | _ => console_error (LogSearchFailed path None)
  end.

(** [findAllPackageJsons(owner, repo, path)], given the answer for [path].
    The console is passed in and out; the local array [packageJsons]
    starts empty and is what the call returns. *)
Fixpoint findAllPackageJsons (path : string) (response : Content)
  : M (list LogLine) (list string) :=
  fun log =>
    let body : M Frame unit :=
      match response with
      | Failure status => throw (HttpError status)
      | Listing items => search findAllPackageJsons items
      | Single item => search findAllPackageJsons [item]
      end in
    match try_catch body (handler path)
            {| packageJsons := []; console := log |} with
    | (f, Normal _) => (console f, Normal (packageJsons f))
    | (f, Throw e) => (console f, Throw e)
    end.

End GitHubService.

(** * lib/services/packageAnalyzerService.js *)

(** Decimal numerals, for [String(n)] and array indices as keys. *)
Definition decimal (n : Z) : string :=
  NilZero.string_of_int (Z.to_int n).

(** [String(v)] for a parsed JSON value. *)
Fixpoint js_String (j : JSON) : string :=
  match j with
  | JNull => "null"
  | JBool true => "true"
  | JBool false => "false"
  | JNum n => decimal n
  | JStr s => s
  | JArr items =>
      String.concat ","
        (map (fun x => match x with JNull => "" | _ => js_String x end) items)
  | JObj _ => "[object Object]"
  end.

(** [`${v}`] for a value that may be [undefined]. *)
Definition template (v : JSValue) : string :=
  match v with
  | Some j => js_String j
  | None => "undefined"
  end.

(** [typeof v === 'object'] *)
Definition typeof_object (v : JSValue) : bool :=
  match v with
  | Some JNull | Some (JArr _) | Some (JObj _) => true
  | _ => false
  end.

Fixpoint indexed {A} (i : nat) (l : list A) : list (string * A) :=
  match l with
  | [] => []
  | x :: l' => (decimal (Z.of_nat i), x) :: indexed (S i) l'
  end.

(** [Object.entries(v)] for an object or an array. *)
Definition Object_entries (j : JSON) : list (string * JSON) :=
  match j with
  | JObj members => members
  | JArr items => indexed 0 items
  | _ => []
  end.

Definition is_whitespace (c : ascii) : bool :=
  match nat_of_ascii c with
  | 9%nat | 10%nat | 11%nat | 12%nat | 13%nat | 32%nat => true
  | _ => false
  end.

Fixpoint drop_whitespace (l : list ascii) : list ascii :=
  match l with
  | c :: l' => if is_whitespace c then drop_whitespace l' else l
  | [] => []
  end.

(** [s.trim()] *)
Definition trim (s : string) : string :=
  string_of_list_ascii
    (rev (drop_whitespace (rev (drop_whitespace (list_ascii_of_string s))))).

Module Analyzer.

Inductive DependencyType : Type :=
| PRODUCTION | DEVELOPMENT | PEER | OPTIONAL | BUNDLED.

Inductive Role : Type := AUTHOR | CONTRIBUTOR | MAINTAINER.

(** Rows of the child tables.  The Prisma schema is not among the
    sources; the rows carry the columns the code writes. *)
Record ProjectDependency := {
  dep_projectId : Z;
  dep_packageName : string;
  dep_version : string;
  dep_dependencyType : DependencyType
}.

Record ProjectScript := {
  script_projectId : Z;
  script_scriptName : string;
  script_command : string
}.

Record ProjectKeyword := {
  keyword_projectId : Z;
  keyword_keyword : string
}.

Record ProjectPerson := {
  person_projectId : Z;
  person_name : string;
  person_email : option string;
  person_url : option string;
  person_role : Role
}.

(** The columns of [project] that [processBatch] writes on update.  The
    other columns come from helpers that are not among the sources
    ([extractLicense], [detectProjectType], ...) and play no part in the
    child rows. *)
Record Project := {
  project_id : Z;
  project_name : string;
  project_version : JSON;
  project_description : JSON;
  project_packageJsonHash : string;
  project_lastAnalyzedAt : Z
}.

Record Database := {
  projects : list Project;
  projectDependencies : list ProjectDependency;
  projectScripts : list ProjectScript;
  projectKeywords : list ProjectKeyword;
  projectPeople : list ProjectPerson
}.

Record Machine := {
  db : Database;
  clock : Z
}.

Definition new_Date : M Machine Z :=
  fun s => ({| db := db s; clock := clock s + 1 |}, Normal (clock s)).

Definition update_db (f : Database -> Database) : M Machine unit :=
  modify (fun s => {| db := f (db s); clock := clock s |}).

Definition transaction {A} (body : M Machine A) : M Machine A :=
  fun s =>
    match body s with
    | (s', Normal a) => (s', Normal a)
    | (s', Throw e) => ({| db := db s; clock := clock s' |}, Throw e)
    end.

Definition set_projects l d :=
  {| projects := l; projectDependencies := projectDependencies d;
     projectScripts := projectScripts d;
     projectKeywords := projectKeywords d;
     projectPeople := projectPeople d |}.

Definition set_projectDependencies l d :=
  {| projects := projects d; projectDependencies := l;
     projectScripts := projectScripts d;
     projectKeywords := projectKeywords d;
     projectPeople := projectPeople d |}.

Definition set_projectScripts l d :=
  {| projects := projects d;
     projectDependencies := projectDependencies d;
     projectScripts := l;
     projectKeywords := projectKeywords d;
     projectPeople := projectPeople d |}.

Definition set_projectKeywords l d :=
  {| projects := projects d;
     projectDependencies := projectDependencies d;
     projectScripts := projectScripts d;
     projectKeywords := l;
     projectPeople := projectPeople d |}.

Definition set_projectPeople l d :=
  {| projects := projects d;
     projectDependencies := projectDependencies d;
     projectScripts := projectScripts d;
     projectKeywords := projectKeywords d;
     projectPeople := l |}.

(** [tx.projectDependency.deleteMany({where: {projectId}})] and its
    siblings *)
Definition projectDependency_deleteMany (projectId : Z) : M Machine unit :=
  update_db (fun d =>
    set_projectDependencies
      (filter (fun r => negb (dep_projectId r =? projectId))
              (projectDependencies d)) d).

Definition projectScript_deleteMany (projectId : Z) : M Machine unit :=
  update_db (fun d =>
    set_projectScripts
      (filter (fun r => negb (script_projectId r =? projectId))
              (projectScripts d)) d).

Definition projectKeyword_deleteMany (projectId : Z) : M Machine unit :=
  update_db (fun d =>
    set_projectKeywords
      (filter (fun r => negb (keyword_projectId r =? projectId))
              (projectKeywords d)) d).

Definition projectPerson_deleteMany (projectId : Z) : M Machine unit :=
  update_db (fun d =>
    set_projectPeople
      (filter (fun r => negb (person_projectId r =? projectId))
              (projectPeople d)) d).

(** [tx.projectDependency.createMany({data})] and its siblings *)
Definition projectDependency_createMany (data : list ProjectDependency)
  : M Machine unit :=
  update_db (fun d =>
    set_projectDependencies (projectDependencies d ++ data) d).

Definition projectScript_createMany (data : list ProjectScript)
  : M Machine unit :=
  update_db (fun d => set_projectScripts (projectScripts d ++ data) d).

Definition projectKeyword_createMany (data : list ProjectKeyword)
  : M Machine unit :=
  update_db (fun d => set_projectKeywords (projectKeywords d ++ data) d).

Definition projectPerson_createMany (data : list ProjectPerson)
  : M Machine unit :=
  update_db (fun d => set_projectPeople (projectPeople d ++ data) d).

Definition is_empty {A} (l : list A) : bool :=
  match l with [] => true | _ => false end.

(** In the functions below [pkg] is not [null]: the project data, which
    reads [pkg.name], is prepared before any of them is called. *)

Definition depTypes : list (string * DependencyType) :=
  [("dependencies", PRODUCTION);
   ("devDependencies", DEVELOPMENT);
   ("peerDependencies", PEER);
   ("optionalDependencies", OPTIONAL);
   ("bundledDependencies", BUNDLED);
   ("bundleDependencies", BUNDLED)].

(** [prepareDependenciesData(projectId, pkg)] *)
Definition prepareDependenciesData (projectId : Z) (pkg : JSON)
  : list ProjectDependency :=
  flat_map
    (fun kt : string * DependencyType =>
       let v := member pkg (fst kt) in
       if truthy v && typeof_object v then
         map (fun nv : string * JSON =>
                {| dep_projectId := projectId;
                   dep_packageName := fst nv;
                   dep_version := js_String (snd nv);
                   dep_dependencyType := snd kt |})
             (Object_entries (or_else v JNull))
       else [])
    depTypes.

(** [saveDependencies(tx, projectId, pkg)] *)
Definition saveDependencies (projectId : Z) (pkg : JSON) : M Machine unit :=
  (projectDependency_deleteMany projectId ;;;
   let dependencies := prepareDependenciesData projectId pkg in
   if negb (is_empty dependencies)
   then projectDependency_createMany dependencies
   else ret tt)%js.

(** [prepareScriptsData(projectId, pkg)] *)
Definition prepareScriptsData (projectId : Z) (pkg : JSON)
  : list ProjectScript :=
  let v := member pkg "scripts" in
  if truthy v && typeof_object v then
    map (fun nc : string * JSON =>
           {| script_projectId := projectId;
              script_scriptName := fst nc;
              script_command := js_String (snd nc) |})
        (Object_entries (or_else v JNull))
  else [].

(** [saveScripts(tx, projectId, pkg)] *)
Definition saveScripts (projectId : Z) (pkg : JSON) : M Machine unit :=
  (projectScript_deleteMany projectId ;;;
   let scripts := prepareScriptsData projectId pkg in
   if negb (is_empty scripts)
   then projectScript_createMany scripts
   else ret tt)%js.

(** [prepareKeywordsData(projectId, pkg)] *)
Definition prepareKeywordsData (projectId : Z) (pkg : JSON)
  : list ProjectKeyword :=
  match member pkg "keywords" with
  | Some (JArr items) =>
      flat_map
        (fun keyword =>
           match keyword with
           | JStr s =>
               if negb (s =? "")%string
               then [{| keyword_projectId := projectId;
                        keyword_keyword := trim s |}]
               else []
           | _ => []
           end)
        items
  | _ => []
  end.

(** [saveKeywords(tx, projectId, pkg)] *)
Definition saveKeywords (projectId : Z) (pkg : JSON) : M Machine unit :=
  (projectKeyword_deleteMany projectId ;;;
   let keywords := prepareKeywordsData projectId pkg in
   if negb (is_empty keywords)
   then projectKeyword_createMany keywords
   else ret tt)%js.

(** The object that [parsePersonString] returns. *)
Record Person := {
  p_name : option string;
  p_email : option string;
  p_url : option string
}.

Fixpoint split_on (c : ascii) (l : list ascii)
  : option (list ascii * list ascii) :=
  match l with
  | [] => None
  | x :: l' =>
      if Ascii.eqb x c then Some ([], l')
      else match split_on c l' with
           | Some (before, after) => Some (x :: before, after)
           | None => None
           end
  end.

(** The first span [open ... close] of a text: what precedes it, what it
    encloses, what follows it. *)
Definition first_span (open close : ascii) (l : list ascii)
  : option (list ascii * list ascii * list ascii) :=
  match split_on open l with
  | Some (before, rest) =>
      match split_on close rest with
      | Some (inside, after) => Some (before, inside, after)
      | None => None
      end
  | None => None
  end.

Definition span_content (open close : ascii) (l : list ascii)
  : option string :=
  match first_span open close l with
  | Some (_, inside, _) => Some (string_of_list_ascii inside)
  | None => None
  end.

Definition without_span (open close : ascii) (l : list ascii)
  : list ascii :=
  match first_span open close l with
  | Some (before, _, after) => before ++ after
  | None => l
  end.

Definition string_member (o : JSON) (k : string) : option string :=
  match member o k with
  | Some (JStr s) => Some s
  | _ => None
  end.

(** Modelled from the spec: [parsePersonString] is called by
    [preparePeopleData] but is not among the sources.  The spec: the field
    "may appear as either a single free-text "Name <email> (url)" string or
    a structured object"; the parser "extracts email from the first <...>
    span and URL from the first (...) span, remaining text trimmed to
    name". *)
Definition parsePersonString (person : JSON) : Person :=
  match person with
  | JStr s =>
      let text := list_ascii_of_string s in
      {| p_name :=
           Some (trim (string_of_list_ascii
                         (without_span "(" ")" (without_span "<" ">" text))));
         p_email := span_content "<" ">" text;
         p_url := span_content "(" ")" text |}
  | JObj _ =>
      {| p_name := string_member person "name";
         p_email := string_member person "email";
         p_url := string_member person "url" |}
  | _ => {| p_name := None; p_email := None; p_url := None |}
  end.

(** [person.name] as a condition *)
Definition has_name (p : Person) : bool :=
  match p_name p with
  | Some s => negb (s =? "")%string
  | None => false
  end.

Definition person_row (projectId : Z) (role : Role) (p : Person)
  : list ProjectPerson :=
  match p_name p with
  | Some name =>
      if has_name p
      then [{| person_projectId := projectId;
               person_name := name;
               person_email := p_email p;
               person_url := p_url p;
               person_role := role |}]
      else []
  | None => []
  end.

(** [pkg.contributors && Array.isArray(pkg.contributors)]: the elements to
    loop over *)
Definition array_items (v : JSValue) : list JSON :=
  match v with
  | Some (JArr items) => items
  | _ => []
  end.

(** [preparePeopleData(projectId, pkg)] *)
Definition preparePeopleData (projectId : Z) (pkg : JSON)
  : list ProjectPerson :=
  (if truthy (member pkg "author")
   then person_row projectId AUTHOR
          (parsePersonString (or_else (member pkg "author") JNull))
   else [])
  ++ flat_map (fun contributor =>
                 person_row projectId CONTRIBUTOR
                   (parsePersonString contributor))
       (array_items (member pkg "contributors"))
  ++ flat_map (fun maintainer =>
                 person_row projectId MAINTAINER
                   (parsePersonString maintainer))
       (array_items (member pkg "maintainers")).

(** [savePeople(tx, projectId, pkg)] *)
Definition savePeople (projectId : Z) (pkg : JSON) : M Machine unit :=
  (projectPerson_deleteMany projectId ;;;
   let people := preparePeopleData projectId pkg in
   if negb (is_empty people)
   then projectPerson_createMany people
   else ret tt)%js.

(** The fields of [gitInfo] that name a project. *)
Record GitInfo := {
  git_owner : option string;
  git_repo : option string;
  git_path : option string
}.

Definition opt_template (s : option string) : string :=
  match s with
  | Some x => x
  | None => "undefined"
  end.

Definition is_string (s : string) (v : option string) : bool :=
  match v with
  | Some x => (x =? s)%string
  | None => false
  end.

(** [generateUniqueName(packageName, gitInfo)] *)
Definition generateUniqueName (packageName : JSValue) (gitInfo : GitInfo)
  : JSON :=
  if negb (truthy packageName)
     || match packageName with
        | Some (JStr s) => (s =? "unknown")%string
        | _ => false
        end
  then
    JStr (opt_template (git_owner gitInfo) ++ "/"
          ++ opt_template (git_repo gitInfo)
          ++ (if negb (is_string "package.json" (git_path gitInfo))
              then "/" ++ opt_template (git_path gitInfo)
              else ""))%string
  else if Sync.string_truthy (git_path gitInfo)
          && negb (is_string "package.json" (git_path gitInfo))
  then
    JStr (template packageName ++ "@" ++ opt_template (git_owner gitInfo)
          ++ "/" ++ opt_template (git_repo gitInfo) ++ "/"
          ++ opt_template (git_path gitInfo))%string
  else or_else packageName JNull.

Section Program.

(** [crypto.createHash('sha256').update(JSON.stringify(v)).digest('hex')] *)
Variable sha256_hex : JSON -> string.

(** The part of [projectData] that [processBatch] uses. *)
Record ProjectData := {
  data_name : JSON;
  data_version : JSON;
  data_description : JSON;
  data_packageJsonHash : string;
  data_lastAnalyzedAt : Z
}.

(** [prepareProjectData(pkg, gitInfo, packageHash)]; reading [pkg.name]
    throws when [pkg] is [null]. *)
Definition prepareProjectData (pkg : JSON) (gitInfo : GitInfo)
    (packageHash : string) : M Machine ProjectData :=
  match pkg with
  | JNull => throw TypeError
  | _ =>
      (now <- new_Date ;;
       ret {| data_name := generateUniqueName (member pkg "name") gitInfo;
              data_version := or_else (member pkg "version") (JStr "0.0.0");
              data_description := or_else (member pkg "description") JNull;
              data_packageJsonHash := packageHash;
              data_lastAnalyzedAt := now |})%js
  end.

(** [tx.project.upsert({where: {name}, update: {version, description,
    packageJsonHash, lastAnalyzedAt: new Date()}, create: projectData})],
    as [processBatch] calls it.  A [name] that is not a string is refused
    by the client; the types of the other columns are not checked here. *)
Definition project_upsert (projectData : ProjectData) : M Machine Project :=
  match data_name projectData with
  | JStr name =>
      (now <- new_Date ;;
       fun s =>
         let d := db s in
         match find (fun p => (project_name p =? name)%string) (projects d)
         with
         | Some p =>
             let p' :=
               {| project_id := project_id p;
                  project_name := project_name p;
                  project_version := data_version projectData;
                  project_description := data_description projectData;
                  project_packageJsonHash :=
                    data_packageJsonHash projectData;
                  project_lastAnalyzedAt := now |} in
             ({| db := set_projects
                         (map (fun x => if project_id x =? project_id p
                                        then p' else x) (projects d)) d;
                 clock := clock s |}, Normal p')
         | None =>
             let p' :=
               {| project_id := Sync.next_id (map project_id (projects d));
                  project_name := name;
                  project_version := data_version projectData;
                  project_description := data_description projectData;
                  project_packageJsonHash :=
                    data_packageJsonHash projectData;
                  project_lastAnalyzedAt := data_lastAnalyzedAt projectData
               |} in
             ({| db := set_projects (projects d ++ [p']) d;
                 clock := clock s |}, Normal p')
         end)%js
  | _ => throw (OtherError "Invalid value provided. Expected String.")
  end.

(** [for ... of] that collects what the body pushes onto an array. *)
Fixpoint for_push {S A B} (xs : list A) (body : A -> M S B) : M S (list B) :=
  match xs with
  | [] => ret []
  | x :: xs' =>
      (y <- body x ;;
       ys <- for_push xs' body ;;
       ret (y :: ys))%js
  end.

(** The arrays [allDependencies], [allScripts], [allKeywords] and
    [allPeople] of [processBatch]. *)
Record Pending := {
  allDependencies : list ProjectDependency;
  allScripts : list ProjectScript;
  allKeywords : list ProjectKeyword;
  allPeople : list ProjectPerson
}.

(** The loop [for (let i = 0; i < batch.length; i++)] of [processBatch]
    over [batch[i]] and [projects[i]]: the old rows of the project are
    deleted, the new ones are appended to the pending arrays. *)
Fixpoint clean_and_collect (items : list (JSON * Project)) (acc : Pending)
  : M Machine Pending :=
  match items with
  | [] => ret acc
  | (packageJson, project) :: rest =>
      (projectDependency_deleteMany (project_id project) ;;;
       projectScript_deleteMany (project_id project) ;;;
       projectKeyword_deleteMany (project_id project) ;;;
       projectPerson_deleteMany (project_id project) ;;;
       clean_and_collect rest
         {| allDependencies :=
              allDependencies acc
              ++ prepareDependenciesData (project_id project) packageJson;
            allScripts :=
              allScripts acc
              ++ prepareScriptsData (project_id project) packageJson;
            allKeywords :=
              allKeywords acc
              ++ prepareKeywordsData (project_id project) packageJson;
            allPeople :=
              allPeople acc
              ++ preparePeopleData (project_id project) packageJson |})%js
  end.

(** [processBatch(batch)] *)
Definition processBatch (batch : list (JSON * GitInfo)) : M Machine unit :=
  (projectsData <-
     for_push batch
       (fun item =>
          prepareProjectData (fst item) (snd item)
            (sha256_hex (fst item))) ;;
   transaction
     (projects <- for_push projectsData project_upsert ;;
      pending <-
        clean_and_collect (combine (map fst batch) projects)
          {| allDependencies := []; allScripts := [];
             allKeywords := []; allPeople := [] |} ;;
      (if negb (is_empty (allDependencies pending))
       then projectDependency_createMany (allDependencies pending)
       else ret tt) ;;;
      (if negb (is_empty (allScripts pending))
       then projectScript_createMany (allScripts pending)
       else ret tt) ;;;
      (if negb (is_empty (allKeywords pending))
       then projectKeyword_createMany (allKeywords pending)
       else ret tt) ;;;
      (if negb (is_empty (allPeople pending))
       then projectPerson_createMany (allPeople pending)
       else ret tt)))%js.

End Program.

End Analyzer.

(** * app/api/fetch-package-json/route.ts *)

Module Route.

(** The tables [organizations], [repositories] and [package_jsons] have
    the columns of the models of [Sync] ([full_name] is [repo_fullName],
    [has_package_json] is [repo_hasPackageJson], and so on), so the row
    types are shared. *)
Import Sync.

Record Machine := {
  db : Database;
  clock : Z
}.

Definition new_Date : M Machine Z :=
  fun s => ({| db := db s; clock := clock s + 1 |}, Normal (clock s)).

(** Time passes while a request is awaited. *)
Definition elapse (ms : Z) : M Machine unit :=
  modify (fun s => {| db := db s; clock := clock s + ms |}).

Definition expired (tx : Tx) (s : Machine) : bool :=
  tx_expires tx <=? clock s.

(** A query on the handle [tx] of a transaction. *)
Definition query {A} (tx : Tx) (q : M Machine A) : M Machine A :=
  fun s => if expired tx s then (s, Throw TransactionExpired) else q s.

(** [prisma.$transaction(fn)], called without options here too (see
    [Sync.transaction]). *)
Definition transaction {A} (fn : Tx -> M Machine A) : M Machine A :=
  fun s =>
    let tx := {| tx_expires := clock s + TRANSACTION_TIMEOUT |} in
    match fn tx s with
    | (s', Normal a) =>
        if expired tx s'
        then ({| db := db s; clock := clock s' |}, Throw TransactionExpired)
        else (s', Normal a)
    | (s', Throw e) => ({| db := db s; clock := clock s' |}, Throw e)
    end.

Definition update_db (f : Database -> Database) : M Machine unit :=
  modify (fun s => {| db := f (db s); clock := clock s |}).

(** The answers of the remote API for one repository. *)
Record RepoDetails := {
  details_id : Z;
  details_description : option string;
  details_html_url : string;
  details_default_branch : string
}.

Inductive Settled (A : Type) : Type :=
| Fulfilled (a : A)
| RejectedWith (status : option Z).
Arguments Fulfilled {A} a.
Arguments RejectedWith {A} status.

Record GitHub := {
  (** [octokit.repos.get({owner, repo})] *)
  repos_get : string -> string -> Settled RepoDetails;
  (** [octokit.repos.getContent({owner, repo, path: 'package.json'})]:
      the decoded [data.content], [None] when [data] has no [content] *)
  repos_getContent : string -> string -> Settled (option string);
  (** the time, in milliseconds, until each of the two requests settles;
      this client has no retry plug-in *)
  repos_get_ms : string -> string -> N;
  repos_getContent_ms : string -> string -> N
}.

Section Program.

Variable github : GitHub.
Variable JSON_parse : string -> option JSON.
Variable JSON_stringify : JSON -> string.
(** [Math.floor(Math.random() * 1000000)] *)
Variable random_id : Z.
(** The [message] of an error that a library has thrown. *)
Variable error_text : Exn -> string.

Definition is_404 (status : option Z) : bool :=
  match status with
  | Some 404 => true
  | _ => false
  end.

(** [getRepositoryDetails(orgName, repoName)] *)
Definition getRepositoryDetails (orgName repoName : string)
  : M Machine RepoDetails :=
  (elapse (Z.of_N (repos_get_ms github orgName repoName)) ;;;
   match repos_get github orgName repoName with
   | Fulfilled data => ret data
   | RejectedWith status =>
       if is_404 status then throw (OtherError "Repository not found")
       else throw (HttpError status)
   end)%js.

(** [getPackageJsonContent(orgName, repoName)]; [None] is [null]. *)
Definition getPackageJsonContent (orgName repoName : string)
  : M Machine (option string) :=
  (elapse (Z.of_N (repos_getContent_ms github orgName repoName)) ;;;
   match repos_getContent github orgName repoName with
   | Fulfilled (Some content) => ret (Some content)
   | Fulfilled None => throw (OtherError "Invalid package.json content")
   | RejectedWith status =>
       if is_404 status then ret None else throw (HttpError status)
   end)%js.

(** [tx.organizations.upsert({where: {name}, update: {},
    create: {name, id: 0}})] *)
Definition organizations_upsert (tx : Tx) (name : string)
  : M Machine Organization :=
  query tx (fun s =>
    let d := db s in
    match find (fun o => (org_name o =? name)%string) (organizations d) with
    | Some o => (s, Normal o)
    | None =>
        if existsb (fun o => org_id o =? 0) (organizations d)
        then (s, Throw (ConstraintViolation "organizations_pkey"))
        else
          let o := {| org_id := 0; org_name := name |} in
          ({| db := set_organizations (organizations d ++ [o]) d;
              clock := clock s |}, Normal o)
    end).

(** The [update] argument of [tx.repositories.upsert] *)
Definition write_details (name : string) (details : RepoDetails) (now : Z)
    (r : Repository) : Repository :=
  {| repo_id := repo_id r;
     repo_organizationId := repo_organizationId r;
     repo_name := name;
     repo_fullName := repo_fullName r;
     repo_url := details_html_url details;
     repo_defaultBranch := details_default_branch details;
     repo_description := details_description details;
     repo_githubId := Some (details_id details);
     repo_lastFetchedAt := Some now;
     repo_hasPackageJson := repo_hasPackageJson r |}.

(** The effect of [tx.repositories.upsert] on the rows of
    [repositories]. *)
Definition upsert_by_full_name_rows (organization : Organization)
    (orgName repoName : string) (details : RepoDetails)
    (now_update now_create : Z) (rows : list Repository)
  : string + list Repository * Repository :=
  let full_name := (orgName ++ "/" ++ repoName)%string in
  match find (fun r => (repo_fullName r =? full_name)%string) rows with
  | Some r =>
      if existsb (fun x => negb (repo_id x =? repo_id r)
                           && has_githubId (details_id details) x) rows
      then inl "repositories_github_id_key"
      else
        inr (map (fun x => if repo_id x =? repo_id r
                           then write_details repoName details now_update x
                           else x) rows,
             write_details repoName details now_update r)
  | None =>
      if existsb (fun x => repo_id x =? random_id) rows
      then inl "repositories_pkey"
      else if existsb (has_githubId (details_id details)) rows
      then inl "repositories_github_id_key"
      else
        let r :=
          {| repo_id := random_id;
             repo_organizationId := org_id organization;
             repo_name := repoName;
             repo_fullName := full_name;
             repo_url := details_html_url details;
             repo_defaultBranch := details_default_branch details;
             repo_description := details_description details;
             repo_githubId := Some (details_id details);
             repo_lastFetchedAt := Some now_create;
             repo_hasPackageJson := false |} in
        inr (rows ++ [r], r)
  end.

(** [tx.repositories.upsert({where: {full_name}, update, create})] *)
Definition repositories_upsert (tx : Tx) (organization : Organization)
    (orgName repoName : string) (details : RepoDetails)
    (now_update now_create : Z) : M Machine Repository :=
  query tx (fun s =>
    match upsert_by_full_name_rows organization orgName repoName details
            now_update now_create (repositories (db s)) with
    | inl c => (s, Throw (ConstraintViolation c))
    | inr (rows', r) =>
        ({| db := set_repositories rows' (db s); clock := clock s |},
         Normal r)
    end).

(** [tx.package_jsons.deleteMany({where: {repository_id}})] *)
Definition package_jsons_deleteMany (tx : Tx) (repository_id : Z)
  : M Machine unit :=
  query tx (update_db (fun d =>
    set_packageJsons
      (delete_packageJson_rows repository_id (packageJsons d)) d)).

(** [tx.repositories.update({where: {id}, data: {has_package_json}})] *)
Definition repositories_update_has_package_json (tx : Tx) (id : Z)
    (b : bool) : M Machine unit :=
  query tx (fun s =>
    match update_hasPackageJson_rows id b (repositories (db s)) with
    | Some rows' =>
        ({| db := set_repositories rows' (db s); clock := clock s |},
         Normal tt)
    | None => (s, Throw RecordNotFound)
    end).

(** [tx.package_jsons.upsert({where: {repository_id}, update, create})] *)
Definition package_jsons_upsert (tx : Tx) (repository_id : Z)
    (update create : PackageJsonData) : M Machine unit :=
  query tx (update_db (fun d =>
    set_packageJsons
      (upsert_packageJson_rows repository_id update create (packageJsons d))
      d)).

(** [typeof author === 'string' ? author : JSON.stringify(author)] *)
Definition author_column (author : JSValue) : JSValue :=
  match author with
  | Some (JStr s) => Some (JStr s)
  | Some j => Some (JStr (JSON_stringify j))
  | None => None
  end.

Definition package_json_data (packageJson : JSON)
    (packageJsonContent : string) (fetched_at : Z) : PackageJsonData :=
  {| d_pj_name := member packageJson "name";
     d_pj_version := member packageJson "version";
     d_pj_description := member packageJson "description";
     d_pj_author := author_column (member packageJson "author");
     d_pj_license := member packageJson "license";
     d_pj_dependencies :=
       JStr (JSON_stringify
               (or_else (member packageJson "dependencies") (JObj [])));
     d_pj_devDependencies :=
       JStr (JSON_stringify
               (or_else (member packageJson "devDependencies") (JObj [])));
     d_pj_scripts :=
       JStr (JSON_stringify
               (or_else (member packageJson "scripts") (JObj [])));
     d_pj_fullContent := JStr packageJsonContent;
     d_pj_fetchedAt := fetched_at |}.

(** The callback given to [prisma.$transaction]; the result is the
    [message] of the object it returns. *)
Definition transaction_body (orgName repoName : string) (tx : Tx)
  : M Machine string :=
  (organization <- organizations_upsert tx orgName ;;
   repoDetails <- getRepositoryDetails orgName repoName ;;
   now_update <- new_Date ;;
   now_create <- new_Date ;;
   repository <- repositories_upsert tx organization orgName repoName
                   repoDetails now_update now_create ;;
   packageJsonContent <- getPackageJsonContent orgName repoName ;;
   if negb (string_truthy packageJsonContent) then
     package_jsons_deleteMany tx (repo_id repository) ;;;
     repositories_update_has_package_json tx (repo_id repository) false ;;;
     ret ("No package.json found for " ++ repoName)%string
   else
     let content := string_or packageJsonContent "" in
     packageJson <-
       match JSON_parse content with
       | Some j => ret j
       | None => throw SyntaxError
       end ;;
     repositories_update_has_package_json tx (repo_id repository) true ;;;
     match packageJson with JNull => throw TypeError | _ => ret tt end ;;;
     fetched_at_update <- new_Date ;;
     fetched_at_create <- new_Date ;;
     package_jsons_upsert tx (repo_id repository)
       (package_json_data packageJson content fetched_at_update)
       (package_json_data packageJson content fetched_at_create) ;;;
     ret ("Successfully processed package.json for " ++ repoName)%string)%js.

(** [POST(request)] for a request whose body is [{organization, repoName}],
    with [GITHUB_TOKEN] configured: the status and the body of the
    response. *)
Definition POST (orgName repoName : string) : M Machine (Z * JSON) :=
  if (orgName =? "")%string || (repoName =? "")%string then
    ret (400, JObj [("success", JBool false);
                    ("message",
                     JStr "Organization and repository name are required")])
  else
    try_catch
      (message <- transaction (transaction_body orgName repoName) ;;
       ret (200, JObj [("success", JBool true); ("message", JStr message)]))%js
      (fun error =>
         let not_found :=
           (message_of error_text error =? "Repository not found")%string in
         ret (if not_found then 404 else 500,
              JObj [("success", JBool false);
                    ("message",
                     JStr (if not_found then "Repository not found"
                           else "Failed to process package.json"));
                    ("error", JStr (message_of error_text error))])).

End Program.

End Route.

(** * Specification-side definitions *)

(** ** Batching *)

(** The partition of a list into consecutive batches of [size] elements,
    the last one possibly shorter, following the words of the
    specification rather than the index arithmetic of the loop. *)
Fixpoint chunks_fuel {A} (fuel size : nat) (l : list A) : list (list A) :=
  match fuel with
  | O => []
  | S fuel' =>
      match l with
      | [] => []
      | _ :: _ => firstn size l :: chunks_fuel fuel' size (skipn size l)
      end
  end.

Definition chunks {A} (size : nat) (l : list A) : list (list A) :=
  chunks_fuel (List.length l) size l.


Section Schedule.

Variable github : Sync.GitHub.
Variable JSON_parse : string -> option JSON.
Variable schedule : Z -> list nat.
Variable organization : Sync.Organization.

(** All the repositories of a batch processed concurrently, in the words
    of the specification: every unit of work starts at the instant
    [start] at which the batch starts, whatever the time the units taken
    before it have needed, and the batch is over at the instant at which
    the last of its units is over ([latest] is the latest end so far).
    [order] is the order in which the store takes the transactions. *)
Fixpoint concurrently (start latest : Z) (order : list Sync.GithubRepo)
  : M Sync.Machine unit :=
  match order with
  | [] => modify (Sync.set_clock latest)
  | r :: rest =>
      (modify (Sync.set_clock start) ;;;
       Sync.process_repo github JSON_parse organization r ;;;
       over <- gets Sync.clock ;;
       concurrently start (Z.max latest over) rest)%js
  end.

(** The schedule in the words of the specification: the batches one after
    the other, the repositories of a batch concurrently, every one of them
    done before the next batch starts, and a pause of
    [DELAY_BETWEEN_BATCHES] after every batch that has a successor.
    [number] and [total] feed the log line. *)
Fixpoint run_batches (number total : Z) (batches : list (list Sync.GithubRepo))
  : M Sync.Machine unit :=
  match batches with
  | [] => ret tt
  | batch :: rest =>
      (Sync.emit (Sync.LogBatch number total (Z.of_nat (List.length batch))) ;;;
       start <- gets Sync.clock ;;
       concurrently start start (Sync.arrange (schedule number) batch) ;;;
       match rest with
       | [] => ret tt
       | _ :: _ => Sync.sleep Sync.DELAY_BETWEEN_BATCHES
       end ;;;
       run_batches (number + 1) total rest)%js
  end.

(** The repositories of a schedule in the order in which the store takes
    their transactions. *)
Fixpoint scheduled (number : Z) (batches : list (list Sync.GithubRepo))
  : list Sync.GithubRepo :=
  match batches with
  | [] => []
  | batch :: rest =>
      Sync.arrange (schedule number) batch ++ scheduled (number + 1) rest
  end.

End Schedule.


(** ** Pauses in the console *)



(** ** The effect of one unit of work *)

(** How a unit of work ends: in one of the three branches of the
    transaction, committed; in the [catch] around it, rolled back; or in
    the third branch and then in the [catch], when the commit fails. *)
Inductive Outcome : Type :=
| Processed
| NoPackageJson
| ErrorStatus (status : Z)
| Critical (e : Exn)
| ErrorThenCritical (status : Z) (e : Exn).

(** What a unit of work does to the machine, as a function of the store
    and the time at which it starts. *)
Record Effect := {
  outcome : Outcome;
  database : Sync.Database;
  fetch_log : list Sync.Event;
  elapsed : Z
}.

(** Whether the retry plug-in sends a request with this answer again. *)
Definition retried (response : Sync.OctokitResponse) : bool :=
  match response with
  | Sync.Rejected (Some status) =>
      (400 <=? status) && negb (Sync.includes Sync.doNotRetry status)
  | _ => false
  end.

(** The time after which a request settles of which one attempt takes
    [ms]: four attempts and the waits of 1, 4 and 9 seconds between them
    when it is retried. *)
Definition duration (ms : Z) (response : Sync.OctokitResponse) : Z :=
  if retried response then 4 * ms + 14000 else ms.

Section UnitOfWork.

Variable github : Sync.GitHub.
Variable JSON_parse : string -> option JSON.

(** The [content] and [status] that [getPackageJsonContent] returns. *)
Definition fetched (owner repo : string) : option string * Z :=
  match Sync.repos_getContent github owner repo "package.json" with
  | Sync.Resolved (Some content) status => (Some content, status)
  | Sync.Resolved None _ => (None, 500)
  | Sync.Rejected (Some status) => (None, if status =? 0 then 500 else status)
  | Sync.Rejected None => (None, 500)
  end.

(** What [getPackageJsonContent] writes to the console. *)
Definition fetch_events (owner repo : string) : list Sync.Event :=
  match Sync.repos_getContent github owner repo "package.json" with
  | Sync.Resolved (Some _) _ => []
  | Sync.Resolved None _ => [Sync.LogFetchError owner repo]
  | Sync.Rejected (Some 404) => []
  | Sync.Rejected _ => [Sync.LogFetchError owner repo]
  end.

(** The time that [getPackageJsonContent] takes. *)
Definition fetch_time (owner repo : string) : Z :=
  duration (Z.of_N (Sync.repos_getContent_ms github owner repo "package.json"))
    (Sync.repos_getContent github owner repo "package.json").

Definition unit_of_work (organization : Sync.Organization)
    (githubRepo : Sync.GithubRepo) (now : Z) (d : Sync.Database) : Effect :=
  let data := Sync.commonRepoData organization githubRepo now in
  match Sync.upsert_repository_rows (Sync.gh_id githubRepo) data data
          (Sync.repositories d) with
  | inl c =>
      {| outcome := Critical (ConstraintViolation c); database := d;
         fetch_log := []; elapsed := 1 |}
  | inr (rows1, repository) =>
      let d1 := Sync.set_repositories rows1 d in
      let owner := Sync.gh_owner_login githubRepo in
      let name := Sync.gh_name githubRepo in
      let content := fst (fetched owner name) in
      let status := snd (fetched owner name) in
      let log := fetch_events owner name in
      let t := 1 + fetch_time owner name in
      if (status =? 200) && Sync.string_truthy content then
        match JSON_parse (Sync.string_or content "") with
        | None =>
            {| outcome := Critical SyntaxError; database := d;
               fetch_log := log; elapsed := t |}
        | Some JNull =>
            {| outcome := Critical TypeError; database := d;
               fetch_log := log; elapsed := t |}
        | Some packageJson =>
            if Sync.TRANSACTION_TIMEOUT <=? t + 2 then
              {| outcome := Critical TransactionExpired; database := d;
                 fetch_log := log; elapsed := t + 2 |}
            else
              let d2 :=
                Sync.set_packageJsons
                  (Sync.upsert_packageJson_rows (Sync.repo_id repository)
                     (Sync.packageJsonData packageJson (now + t))
                     (Sync.packageJsonData packageJson (now + t + 1))
                     (Sync.packageJsons d1)) d1 in
              match Sync.update_hasPackageJson_rows (Sync.repo_id repository)
                      true (Sync.repositories d2) with
              | Some rows3 =>
                  {| outcome := Processed;
                     database := Sync.set_repositories rows3 d2;
                     fetch_log := log; elapsed := t + 2 |}
              | None =>
                  {| outcome := Critical RecordNotFound; database := d;
                     fetch_log := log; elapsed := t + 2 |}
              end
        end
      else if status =? 404 then
        if Sync.TRANSACTION_TIMEOUT <=? t then
          {| outcome := Critical TransactionExpired; database := d;
             fetch_log := log; elapsed := t |}
        else
          let d2 :=
            Sync.set_packageJsons
              (Sync.delete_packageJson_rows (Sync.repo_id repository)
                 (Sync.packageJsons d1)) d1 in
          match Sync.update_hasPackageJson_rows (Sync.repo_id repository)
                  false (Sync.repositories d2) with
          | Some rows3 =>
              {| outcome := NoPackageJson;
                 database := Sync.set_repositories rows3 d2;
                 fetch_log := log; elapsed := t |}
          | None =>
              {| outcome := Critical RecordNotFound; database := d;
                 fetch_log := log; elapsed := t |}
          end
      else if Sync.TRANSACTION_TIMEOUT <=? t then
        {| outcome := ErrorThenCritical status TransactionExpired;
           database := d; fetch_log := log; elapsed := t |}
      else
        {| outcome := ErrorStatus status; database := d1;
           fetch_log := log; elapsed := t |}
  end.

End UnitOfWork.

(** The lines that a unit of work writes when it ends. *)
Definition events_of (githubRepo : Sync.GithubRepo) (o : Outcome)
  : list Sync.Event :=
  match o with
  | Processed => [Sync.LogProcessed (Sync.gh_full_name githubRepo)]
  | NoPackageJson => [Sync.LogNoPackageJson (Sync.gh_full_name githubRepo)]
  | ErrorStatus status =>
      [Sync.LogErrorStatus (Sync.gh_full_name githubRepo) status]
  | Critical e => [Sync.LogCritical (Sync.gh_full_name githubRepo) e]
  | ErrorThenCritical status e =>
      [Sync.LogErrorStatus (Sync.gh_full_name githubRepo) status;
       Sync.LogCritical (Sync.gh_full_name githubRepo) e]
  end.

Definition is_processed (o : Outcome) : bool :=
  match o with Processed => true | _ => false end.

Definition is_noPackageJson (o : Outcome) : bool :=
  match o with NoPackageJson => true | _ => false end.

Definition is_error (o : Outcome) : bool :=
  match o with
  | ErrorStatus _ | Critical _ | ErrorThenCritical _ _ => true
  | _ => false
  end.

Definition Z_of_bool (b : bool) : Z := if b then 1 else 0.

(** How often a unit of work with this outcome runs [errorCount++]. *)
Definition errors_of (o : Outcome) : Z :=
  match o with
  | Processed | NoPackageJson => 0
  | ErrorStatus _ | Critical _ => 1
  | ErrorThenCritical _ _ => 2
  end.

(** The machine after a unit of work with the given effect. *)
Definition after (githubRepo : Sync.GithubRepo) (e : Effect)
    (s : Sync.Machine) : Sync.Machine :=
  {| Sync.db := database e;
     Sync.clock := Sync.clock s + elapsed e;
     Sync.console :=
       Sync.console s ++ fetch_log e ++ events_of githubRepo (outcome e);
     Sync.successCount :=
       Sync.successCount s + Z_of_bool (is_processed (outcome e));
     Sync.noPackageJsonCount :=
       Sync.noPackageJsonCount s + Z_of_bool (is_noPackageJson (outcome e));
     Sync.errorCount := Sync.errorCount s + errors_of (outcome e) |}.

(** ** Counting *)

(** The sum of the three counters. *)
Definition counted (s : Sync.Machine) : Z :=
  Sync.successCount s + Sync.noPackageJsonCount s + Sync.errorCount s.

Definition is_error_line (e : Sync.Event) : bool :=
  match e with
  | Sync.LogErrorStatus _ _ | Sync.LogCritical _ _ => true
  | _ => false
  end.

(** The number of per-repository errors written to the console. *)
Definition error_lines (l : list Sync.Event) : Z :=
  Z.of_nat (List.length (filter is_error_line l)).

(** A small remote state and parser for examples: repository [a] has a
    manifest, [b] has none, [c] cannot be fetched; every attempt of a
    request takes 120 ms. *)
Definition example_repo (i : Z) (name : string) : Sync.GithubRepo :=
  {| Sync.gh_id := i; Sync.gh_name := name;
     Sync.gh_full_name := ("o/" ++ name)%string;
     Sync.gh_html_url := ("https://github.com/o/" ++ name)%string;
     Sync.gh_default_branch := None;
     Sync.gh_description := None; Sync.gh_owner_login := "o" |}.

Definition example_github : Sync.GitHub :=
  {| Sync.paginate_listForOrg :=
       fun _ => Sync.Pages [[example_repo 1 "a"; example_repo 2 "b";
                             example_repo 3 "c"]];
     Sync.repos_getContent :=
       fun _ repo _ =>
         if (repo =? "a")%string then Sync.Resolved (Some "{}") 200
         else if (repo =? "b")%string then Sync.Rejected (Some 404)
         else Sync.Rejected (Some 502);
     Sync.repos_getContent_ms := fun _ _ _ => 120%N |}.

Definition example_parse (text : string) : option JSON :=
  if (text =? "{}")%string then Some (JObj []) else None.

Definition empty_database : Sync.Database :=
  {| Sync.organizations := []; Sync.repositories := [];
     Sync.packageJsons := [] |}.

(** ** The has-manifest invariant *)

(** Whether a manifest row exists for the repository with this id. *)
Definition has_manifest_row (id : Z) (d : Sync.Database) : bool :=
  existsb (fun p => Sync.pj_repositoryId p =? id) (Sync.packageJsons d).

(** [hasPackageJson] is true exactly for the repositories that have a
    manifest row. *)
Definition has_manifest_invariant (d : Sync.Database) : Prop :=
  forall r, In r (Sync.repositories d) ->
            Sync.repo_hasPackageJson r = has_manifest_row (Sync.repo_id r) d.

(** Referential integrity of [packageJson.repositoryId], which the
    database enforces. *)
Definition foreign_keys (d : Sync.Database) : Prop :=
  forall p, In p (Sync.packageJsons d) ->
            existsb (fun r => Sync.repo_id r =? Sync.pj_repositoryId p)
                    (Sync.repositories d) = true.

(** The invariant together with referential integrity. *)
Definition consistent (d : Sync.Database) : Prop :=
  has_manifest_invariant d /\ foreign_keys d.


(** Rows of [repositories] after an upsert: old rows keep id and flag, a
    new row has an unused id and no manifest, and no id disappears. *)
Definition extends (rows rows' : list Sync.Repository) : Prop :=
  (forall r', In r' rows' ->
     (exists r0, In r0 rows /\ Sync.repo_id r' = Sync.repo_id r0
                 /\ Sync.repo_hasPackageJson r'
                    = Sync.repo_hasPackageJson r0)
     \/ (~ In (Sync.repo_id r') (map Sync.repo_id rows)
         /\ Sync.repo_hasPackageJson r' = false))
  /\ (forall i, In i (map Sync.repo_id rows) ->
                In i (map Sync.repo_id rows')).

(** A store for examples: repository [b] (remote id 2) with a manifest. *)
Definition example_database : Sync.Database :=
  {| Sync.organizations := [{| Sync.org_id := 1; Sync.org_name := "o" |}];
     Sync.repositories :=
       [{| Sync.repo_id := 7; Sync.repo_organizationId := 1;
           Sync.repo_name := "b"; Sync.repo_fullName := "o/b";
           Sync.repo_url := "https://github.com/o/b";
           Sync.repo_defaultBranch := "main";
           Sync.repo_description := None;
           Sync.repo_githubId := Some 2;
           Sync.repo_lastFetchedAt := Some 50;
           Sync.repo_hasPackageJson := true |}];
     Sync.packageJsons :=
       [{| Sync.pj_id := 1; Sync.pj_repositoryId := 7;
           Sync.pj_name := JStr "b"; Sync.pj_version := JStr "1.0.0";
           Sync.pj_description := JNull; Sync.pj_author := JNull;
           Sync.pj_license := JNull;
           Sync.pj_dependencies := JObj [("x", JStr "^1.0.0")];
           Sync.pj_devDependencies := JObj [];
           Sync.pj_scripts := JObj [];
           Sync.pj_fullContent :=
             JObj [("name", JStr "b"); ("version", JStr "1.0.0");
                   ("dependencies", JObj [("x", JStr "^1.0.0")])];
           Sync.pj_fetchedAt := 51 |}] |}.

Definition example_route_github : Route.GitHub :=
  {| Route.repos_get :=
       fun _ _ =>
         Route.Fulfilled
           {| Route.details_id := 2; Route.details_description := None;
              Route.details_html_url := "https://github.com/o/b";
              Route.details_default_branch := "main" |};
     Route.repos_getContent := fun _ _ => Route.RejectedWith (Some 404);
     Route.repos_get_ms := fun _ _ => 120%N;
     Route.repos_getContent_ms := fun _ _ => 120%N |}.

(** A remote state in which the manifest of [b] cannot be fetched: the
    server answers 502. *)
Definition example_github_unreachable : Sync.GitHub :=
  {| Sync.paginate_listForOrg := fun _ => Sync.Pages [[example_repo 2 "b"]];
     Sync.repos_getContent := fun _ _ _ => Sync.Rejected (Some 502);
     Sync.repos_getContent_ms := fun _ _ _ => 120%N |}.

(** A remote state in which [package.json] of [b] is a directory: the
    answer has no [content]. *)
Definition example_github_directory : Sync.GitHub :=
  {| Sync.paginate_listForOrg := fun _ => Sync.Pages [[example_repo 2 "b"]];
     Sync.repos_getContent := fun _ _ _ => Sync.Resolved None 200;
     Sync.repos_getContent_ms := fun _ _ _ => 120%N |}.

(** The database takes the transactions of a batch in the order of the
    batch. *)
Definition in_order : Z -> list nat := fun _ => [].

(** Texts for the errors of the libraries. *)
Definition example_text (e : Exn) : string :=
  match e with
  | ConstraintViolation c => "Unique constraint failed: " ++ c
  | RecordNotFound => "Record to update not found."
  | TransactionExpired => "Transaction already closed"
  | SyntaxError => "Unexpected token in JSON"
  | TypeError => "Cannot read properties of null"
  | HttpError _ => "Not Found"
  | OtherError m => m
  end%string.

(** ** The manifests of a repository tree *)

Section ManifestsOfTree.

Import GitHubService.

(** The manifest paths below an answer, in listing order: those in the
    directories that are not skipped and whose listing succeeds. *)
Fixpoint manifests (response : Content) : list string :=
  match response with
  | Failure _ => []
  | Listing items => flat_map item_manifests items
  | Single item => item_manifests item
  end
with item_manifests (item : Item) : list string :=
  match item with
  | ItemFile name p => if (name =? "package.json")%string then [p] else []
  | ItemDir name _ content =>
      if negb (shouldSkipDirectory name) then manifests content else []
  | ItemOther _ _ _ => []
  end.

(** The lines that the search writes to the console: one for every
    listing that fails with a status other than 404. *)
Fixpoint search_log (path : string) (response : Content) : list LogLine :=
  match response with
  | Failure (Some 404) => []
  | Failure status => [LogSearchFailed path status]
  | Listing items => flat_map item_log items
  | Single item => item_log item
  end
with item_log (item : Item) : list LogLine :=
  match item with
  | ItemDir name p content =>
      if negb (shouldSkipDirectory name) then search_log p content else []
  | _ => []
  end.

End ManifestsOfTree.

(** An example tree: a manifest at the root, a package directory that
    cannot be listed, and a second package with a manifest. *)
Definition example_tree : GitHubService.Content :=
  GitHubService.Listing
    [GitHubService.ItemFile "package.json" "package.json";
     GitHubService.ItemDir "broken" "broken"
       (GitHubService.Failure (Some 500));
     GitHubService.ItemDir "node_modules" "node_modules"
       (GitHubService.Listing
          [GitHubService.ItemFile "package.json"
             "node_modules/package.json"]);
     GitHubService.ItemDir "web" "web"
       (GitHubService.Listing
          [GitHubService.ItemFile "package.json" "web/package.json"])].

(** What one iteration of the loop of [findAllPackageJsons] does to the
    local array and the console. *)
Definition visit_spec (item : GitHubService.Item) : Prop :=
  forall f,
    GitHubService.visit GitHubService.findAllPackageJsons item f
    = ({| GitHubService.packageJsons :=
            GitHubService.packageJsons f ++ item_manifests item;
          GitHubService.console :=
            GitHubService.console f ++ item_log item |}, Normal tt).

(** ** Two versions of one manifest *)

(** Version 1 of package [a] depends on [x]; version 2 has dropped [x] and
    depends on [y]. *)
Definition manifest_v1 : JSON :=
  JObj [("name", JStr "a");
        ("dependencies", JObj [("x", JStr "^1.0.0")])].

Definition manifest_v2 : JSON :=
  JObj [("name", JStr "a");
        ("dependencies", JObj [("y", JStr "^2.0.0")])].

Definition example_gitInfo : Analyzer.GitInfo :=
  {| Analyzer.git_owner := Some "o"; Analyzer.git_repo := Some "a";
     Analyzer.git_path := Some "package.json" |}.

Definition empty_projects : Analyzer.Database :=
  {| Analyzer.projects := []; Analyzer.projectDependencies := [];
     Analyzer.projectScripts := []; Analyzer.projectKeywords := [];
     Analyzer.projectPeople := [] |}.

Definition dependency_names (d : Analyzer.Database) : list string :=
  map Analyzer.dep_packageName (Analyzer.projectDependencies d).

(** ** Idempotence *)






Section Classes.

Variable github : Sync.GitHub.
Variable JSON_parse : string -> option JSON.

(** What the remote state says about the manifest of a repository, and
    whether it says so in time: a manifest that is there, that is not
    there, or that cannot be had, each known while the transaction is
    open; a manifest or an answer on which the transaction fails; and a
    manifest that cannot be had, known when the transaction is closed. *)
Inductive Class : Type :=
| Present (packageJson : JSON)
| Absent
| Unavailable (status : Z)
| Malformed (e : Exn)
| Overdue (status : Z).

Definition class_of (githubRepo : Sync.GithubRepo) : Class :=
  let owner := Sync.gh_owner_login githubRepo in
  let name := Sync.gh_name githubRepo in
  let content := fst (fetched github owner name) in
  let status := snd (fetched github owner name) in
  let t := 1 + fetch_time github owner name in
  if (status =? 200) && Sync.string_truthy content then
    match JSON_parse (Sync.string_or content "") with
    | None => Malformed SyntaxError
    | Some JNull => Malformed TypeError
    | Some packageJson =>
        if Sync.TRANSACTION_TIMEOUT <=? t + 2
        then Malformed TransactionExpired
        else Present packageJson
    end
  else if status =? 404 then
    if Sync.TRANSACTION_TIMEOUT <=? t then Malformed TransactionExpired
    else Absent
  else if Sync.TRANSACTION_TIMEOUT <=? t then Overdue status
  else Unavailable status.

(** The outcome of a unit of work whose upsert succeeds. *)
Definition expected (c : Class) : Outcome :=
  match c with
  | Present _ => Processed
  | Absent => NoPackageJson
  | Unavailable status => ErrorStatus status
  | Malformed e => Critical e
  | Overdue status => ErrorThenCritical status TransactionExpired
  end.





End Classes.

(** Whether the error of a repository is known only when the transaction
    is closed. *)
Definition overdue (github : Sync.GitHub) (JSON_parse : string -> option JSON)
    (githubRepo : Sync.GithubRepo) : bool :=
  match class_of github JSON_parse githubRepo with
  | Overdue _ => true
  | _ => false
  end.

Definition count_overdue (github : Sync.GitHub)
    (JSON_parse : string -> option JSON) (l : list Sync.GithubRepo) : Z :=
  Z.of_nat (List.length (filter (overdue github JSON_parse) l)).

(** The console says how the unit of work of the repository with this
    full name has ended. *)
Definition accounted (full_name : string) (console : list Sync.Event)
  : Prop :=
  In (Sync.LogProcessed full_name) console
  \/ In (Sync.LogNoPackageJson full_name) console
  \/ (exists status, In (Sync.LogErrorStatus full_name status) console)
  \/ (exists e, In (Sync.LogCritical full_name e) console).

(** The full name on a line about a repository. *)
Definition line_about (e : Sync.Event) : option string :=
  match e with
  | Sync.LogProcessed n | Sync.LogNoPackageJson n
  | Sync.LogErrorStatus n _ | Sync.LogCritical n _ => Some n
  | _ => None
  end.

Definition is_processed_line (e : Sync.Event) : bool :=
  match e with Sync.LogProcessed _ => true | _ => false end.

Definition is_noPackageJson_line (e : Sync.Event) : bool :=
  match e with Sync.LogNoPackageJson _ => true | _ => false end.

Definition count_lines (f : Sync.Event -> bool) (l : list Sync.Event) : Z :=
  Z.of_nat (List.length (filter f l)).

(** The counters and the console go together: a unit of work writes an
    error line whenever it counts an error, and a line for each of the
    other two counters. *)
Record counters_logged (s : Sync.Machine) : Prop := {
  errors_logged : Sync.errorCount s = error_lines (Sync.console s);
  successes_logged :
    Sync.successCount s = count_lines is_processed_line (Sync.console s);
  absences_logged :
    Sync.noPackageJsonCount s
    = count_lines is_noPackageJson_line (Sync.console s)
}.








Section Runs.

Variable github : Sync.GitHub.
Variable JSON_parse : string -> option JSON.
Variable organization : Sync.Organization.
(** The machine in which the schedule starts. *)
Variable s0 : Sync.Machine.






End Runs.

(** * Properties *)

(** ** The monad *)

Lemma bind_ret_r {S A} (m : M S A) (s : S) : bind m ret s = m s.
Proof. unfold bind, ret. destruct (m s) as [s' [a|e]]; reflexivity. Qed.

Lemma bind_unit_ret {S} (m : M S unit) (s : S) :
  bind m (fun _ => ret tt) s = m s.
Proof. unfold bind, ret. destruct (m s) as [s' [[]|e]]; reflexivity. Qed.

Lemma bind_assoc {S A B C} (m : M S A) (f : A -> M S B) (g : B -> M S C) s :
  bind (bind m f) g s = bind m (fun a => bind (f a) g) s.
Proof. unfold bind. destruct (m s) as [s' [a|e]]; reflexivity. Qed.

Lemma bind_ext {S A B} (m : M S A) (f g : A -> M S B) s :
  (forall a s', f a s' = g a s') -> bind m f s = bind m g s.
Proof.
  intros H. unfold bind. destruct (m s) as [s' [a|e]]; [apply H | reflexivity].
Qed.

Lemma range_from_enough fuel i stop step :
  (0 < step)%nat -> (stop - i <= fuel)%nat ->
  forall extra, range_from (fuel + extra) i stop step = range_from fuel i stop step.
Proof.
  intros Hstep. revert i.
  induction fuel as [|fuel IH]; intros i Hle extra.
  - destruct extra as [|extra]; simpl; [reflexivity|].
    destruct (Nat.ltb_spec i stop); [lia | reflexivity].
  - simpl. destruct (Nat.ltb_spec i stop); [|reflexivity].
    f_equal. apply IH. lia.
Qed.

Lemma skipn_skipn_add {A} (n m : nat) (l : list A) :
  skipn n (skipn m l) = skipn (m + n) l.
Proof.
  revert l. induction m as [|m IH]; intros l; simpl; [reflexivity|].
  destruct l; [now rewrite skipn_nil | apply IH].
Qed.

Lemma set_clock_set_clock c c' s :
  Sync.set_clock c (Sync.set_clock c' s) = Sync.set_clock c s.
Proof. reflexivity. Qed.

Lemma set_clock_same s : Sync.set_clock (Sync.clock s) s = s.
Proof. destruct s; reflexivity. Qed.

(** ** A unit of work never throws *)

Lemma process_repo_normal github JSON_parse organization githubRepo s :
  exists s',
    Sync.process_repo github JSON_parse organization githubRepo s
    = (s', Normal tt).
Proof.
  unfold Sync.process_repo, try_catch.
  destruct (Sync.transaction _ s) as [s1 [[]|e]]; [eauto|].
  unfold bind, Sync.emit, Sync.incr_errorCount, modify. eauto.
Qed.

Lemma for_of_normal {S A} (body : A -> M S unit) :
  (forall a s, exists s', body a s = (s', Normal tt)) ->
  forall l s, exists s', for_of l body s = (s', Normal tt).
Proof.
  intros Hb. induction l as [|x l IH]; intros s; simpl.
  - unfold ret. eauto.
  - unfold bind. destruct (Hb x s) as [s1 ->]. apply IH.
Qed.

(** ** The promises of a batch *)

Lemma fold_max_acc (ts : list Z) (a t : Z) :
  fold_right Z.max (Z.max a t) ts = Z.max t (fold_right Z.max a ts).
Proof.
  induction ts as [|x ts IH]; cbn [fold_right]; [lia|].
  rewrite IH. lia.
Qed.

(** The calls that [map] starts, followed by [Promise.allSettled], are the
    units of work of the batch run concurrently. *)
Lemma start_all_concurrently github JSON_parse organization :
  forall order start latest s,
  exists s' promises,
    Sync.start_all start order
      (Sync.process_repo github JSON_parse organization) s
    = (s', Normal promises)
    /\ concurrently github JSON_parse organization start latest order s
       = (Sync.set_clock (fold_right Z.max latest promises) s', Normal tt).
Proof.
  induction order as [|r rest IH]; intros start latest s.
  - exists s, []. split; reflexivity.
  - cbn [Sync.start_all concurrently].
    destruct (process_repo_normal github JSON_parse organization r
                (Sync.set_clock start s)) as [s1 E1].
    destruct (IH start (Z.max latest (Sync.clock s1)) s1)
      as [s' [promises [Estart Econc]]].
    exists s', (Sync.clock s1 :: promises).
    unfold bind, modify, try_catch, gets, ret.
    rewrite E1, Estart, Econc. split; [reflexivity|].
    cbn [fold_right]. rewrite fold_max_acc. reflexivity.
Qed.

Lemma batch_is_concurrently github JSON_parse organization places batch s :
  bind (Sync.map_async places batch
          (Sync.process_repo github JSON_parse organization))
       Sync.Promise_allSettled s
  = bind (gets Sync.clock)
      (fun start =>
         concurrently github JSON_parse organization start start
           (Sync.arrange places batch)) s.
Proof.
  unfold Sync.map_async.
  destruct (start_all_concurrently github JSON_parse organization
              (Sync.arrange places batch) (Sync.clock s) (Sync.clock s) s)
    as [s' [promises [Estart Econc]]].
  unfold bind, modify, ret, gets, Sync.Promise_allSettled.
  rewrite Econc, Estart. cbn.
  reflexivity.
Qed.

Lemma loop_is_run_batches github JSON_parse schedule organization allRepos :
  forall fuel i s,
    (List.length allRepos - i <= fuel)%nat ->
    for_of (range_from fuel i (List.length allRepos) Sync.BATCH_SIZE)
      (Sync.process_batch github JSON_parse schedule organization allRepos) s
    = run_batches github JSON_parse schedule organization
        (Z.of_nat (i / Sync.BATCH_SIZE) + 1)
        (Z.of_nat ((List.length allRepos + Sync.BATCH_SIZE - 1)
                   / Sync.BATCH_SIZE))
        (chunks_fuel fuel Sync.BATCH_SIZE (skipn i allRepos)) s.
Proof.
  induction fuel as [|fuel IH]; intros i s Hle; [reflexivity|].
  cbn [range_from chunks_fuel].
  destruct (Nat.ltb_spec i (List.length allRepos)) as [Hlt|Hge].
  - assert (Hne : skipn i allRepos <> []).
    { intros E. apply (f_equal (@List.length _)) in E.
      rewrite length_skipn in E. simpl in E. lia. }
    destruct (skipn i allRepos) as [|x rest] eqn:Eskip; [congruence|].
    rewrite <- Eskip.
    cbn [for_of run_batches].
    unfold Sync.process_batch at 1. unfold slice.
    replace (i + Sync.BATCH_SIZE - i)%nat with Sync.BATCH_SIZE by lia.
    rewrite !bind_assoc. apply bind_ext. intros [] s1.
    destruct (start_all_concurrently github JSON_parse organization
                (Sync.arrange (schedule (Z.of_nat (i / Sync.BATCH_SIZE) + 1))
                   (firstn Sync.BATCH_SIZE (skipn i allRepos)))
                (Sync.clock s1) (Sync.clock s1) s1)
      as [s' [promises [Estart Econc]]].
    unfold Sync.map_async, Sync.Promise_allSettled.
    unfold bind, gets, modify, ret.
    rewrite Estart, Econc. cbn [Sync.clock Sync.set_clock].
    rewrite skipn_skipn_add.
    assert (Hnum : Z.of_nat ((i + Sync.BATCH_SIZE) / Sync.BATCH_SIZE) + 1
                   = Z.of_nat (i / Sync.BATCH_SIZE) + 1 + 1).
    { unfold Sync.BATCH_SIZE.
      replace (i + 10)%nat with (i + 1 * 10)%nat by lia.
      rewrite Nat.div_add by lia. lia. }
    destruct (Nat.ltb_spec (i + Sync.BATCH_SIZE) (List.length allRepos)) as [Hlt'|Hge'].
    + assert (Hne' : skipn (i + Sync.BATCH_SIZE) allRepos <> []).
      { intros E. apply (f_equal (@List.length _)) in E.
        rewrite length_skipn in E. simpl in E. lia. }
      destruct fuel as [|fuel'].
      { unfold Sync.BATCH_SIZE in *. lia. }
      cbn [chunks_fuel].
      destruct (skipn (i + Sync.BATCH_SIZE) allRepos) as [|y rest'] eqn:Eskip';
        [congruence|].
      rewrite <- Eskip'.
      destruct (Sync.sleep _ _) as [s3 [[]|e]]; [|reflexivity].
      rewrite IH by (unfold Sync.BATCH_SIZE in *; lia).
      rewrite Hnum. cbn [chunks_fuel]. rewrite Eskip'. reflexivity.
    + assert (Hnil : skipn (i + Sync.BATCH_SIZE) allRepos = []).
      { apply skipn_all2. exact Hge'. }
      rewrite Hnil.
      assert (Hc : chunks_fuel fuel Sync.BATCH_SIZE (@nil Sync.GithubRepo) = []).
      { destruct fuel; reflexivity. }
      rewrite Hc.
      rewrite IH by (unfold Sync.BATCH_SIZE in *; lia).
      rewrite Hnil, Hc. reflexivity.
  - rewrite skipn_all2 by exact Hge. reflexivity.
Qed.


Lemma concat_chunks_fuel {A} (size : nat) :
  (0 < size)%nat ->
  forall fuel (l : list A),
    (List.length l <= fuel)%nat ->
    List.concat (chunks_fuel fuel size l) = l.
Proof.
  intros Hsize. induction fuel as [|fuel IH]; intros l Hle.
  - destruct l; [reflexivity | simpl in Hle; lia].
  - destruct l as [|x l']; [reflexivity|].
    cbn [chunks_fuel List.concat].
    rewrite IH.
    + apply firstn_skipn.
    + rewrite length_skipn. cbn [List.length] in *. lia.
Qed.







(** ** The unit of work as a function of the store *)

Lemma machine_eq d d' c c' l l' a a' b b' e e' :
  d = d' -> c = c' -> l = l' -> a = a' -> b = b' -> e = e' ->
  {| Sync.db := d; Sync.clock := c; Sync.console := l;
     Sync.successCount := a; Sync.noPackageJsonCount := b;
     Sync.errorCount := e |}
  = {| Sync.db := d'; Sync.clock := c'; Sync.console := l';
       Sync.successCount := a'; Sync.noPackageJsonCount := b';
       Sync.errorCount := e' |}.
Proof. intros; subst; reflexivity. Qed.

Lemma includes_doNotRetry status :
  Sync.includes Sync.doNotRetry status = false.
Proof. reflexivity. Qed.

(** A request through the retry plug-in answers as the server does, after
    the time [duration]. *)
Lemma request_effect ms response s :
  Sync.request Sync.retries 0 ms response s
  = (Sync.set_clock (Sync.clock s + duration ms response) s, Normal response).
Proof.
  unfold duration, retried.
  destruct response as [content status|[status|]]; try reflexivity.
  rewrite includes_doNotRetry. cbn [negb]. rewrite andb_true_r.
  unfold Sync.retries. cbn [Sync.request].
  rewrite includes_doNotRetry. cbn [negb]. rewrite andb_true_r.
  destruct (400 <=? status); [|reflexivity].
  unfold bind, Sync.elapse, modify, ret, Sync.retryAfter. cbn.
  f_equal. destruct s. unfold Sync.set_clock. cbn.
  apply machine_eq; try reflexivity. destruct ms; lia.
Qed.

Lemma duration_nonneg ms response : 0 <= ms -> ms <= duration ms response.
Proof.
  unfold duration. destruct (retried response); lia.
Qed.

Lemma duration_retried ms status :
  0 <= ms -> 400 <= status ->
  14000 <= duration ms (Sync.Rejected (Some status)).
Proof.
  intros Hms Hst. unfold duration, retried.
  rewrite includes_doNotRetry.
  destruct (Z.leb_spec 400 status); [cbn [andb negb]; lia | lia].
Qed.

Lemma getPackageJsonContent_effect github owner repo s :
  Sync.getPackageJsonContent github owner repo s
  = ({| Sync.db := Sync.db s;
        Sync.clock := Sync.clock s + fetch_time github owner repo;
        Sync.console := Sync.console s ++ fetch_events github owner repo;
        Sync.successCount := Sync.successCount s;
        Sync.noPackageJsonCount := Sync.noPackageJsonCount s;
        Sync.errorCount := Sync.errorCount s |},
     Normal (fetched github owner repo)).
Proof.
  unfold Sync.getPackageJsonContent, Sync.octokit_repos_getContent,
    fetched, fetch_events, fetch_time.
  unfold bind at 1. rewrite request_effect.
  destruct s as [d c l n1 n2 n3]; cbn [Sync.db Sync.clock Sync.console
    Sync.successCount Sync.noPackageJsonCount Sync.errorCount Sync.set_clock].
  destruct (Sync.repos_getContent github owner repo "package.json")
    as [[content|] status|[status|]];
    unfold bind, ret, Sync.emit, modify; cbn;
    rewrite ?app_nil_r; try reflexivity.
  destruct (Z.eqb_spec status 404) as [->|Hne].
  - cbn. rewrite app_nil_r. reflexivity.
  - assert (E : match status with 404 => true | _ => false end = false).
    { destruct status as [|p|p]; try reflexivity.
      do 9 (destruct p as [p|p|]; try reflexivity). congruence. }
    rewrite E.
    assert (E' : match status with
                 | 404 => @nil Sync.Event
                 | _ => [Sync.LogFetchError owner repo]
                 end = [Sync.LogFetchError owner repo]).
    { destruct status as [|p|p]; try reflexivity.
      do 9 (destruct p as [p|p|]; try reflexivity). congruence. }
    rewrite E'. reflexivity.
Qed.

Ltac machine :=
  unfold bind, ret, throw, Sync.emit, Sync.incr_errorCount,
    Sync.incr_successCount, Sync.incr_noPackageJsonCount, modify;
  cbn -[Z.add Z.mul Z.leb]; f_equal; apply machine_eq;
  cbn -[Z.add Z.mul Z.leb];
  rewrite <- ?app_assoc, ?app_nil_r, ?Z.add_0_r;
  try reflexivity; try lia.

Lemma query_open {A} (tx : Sync.Tx) (q : M Sync.Machine A) s :
  Sync.clock s < Sync.tx_expires tx -> Sync.query tx q s = q s.
Proof.
  intros H. unfold Sync.query, Sync.expired.
  destruct (Z.leb_spec (Sync.tx_expires tx) (Sync.clock s)); [lia|reflexivity].
Qed.

Lemma query_closed {A} (tx : Sync.Tx) (q : M Sync.Machine A) s :
  Sync.tx_expires tx <= Sync.clock s ->
  Sync.query tx q s = (s, Throw TransactionExpired).
Proof.
  intros H. unfold Sync.query, Sync.expired.
  destruct (Z.leb_spec (Sync.tx_expires tx) (Sync.clock s)); [reflexivity|lia].
Qed.

Lemma fetch_time_nonneg github owner repo : 0 <= fetch_time github owner repo.
Proof.
  unfold fetch_time.
  pose proof (duration_nonneg
                (Z.of_N (Sync.repos_getContent_ms github owner repo
                           "package.json"))
                (Sync.repos_getContent github owner repo "package.json")).
  lia.
Qed.

(** A unit of work is the function [unit_of_work] of the store and of the
    time at which it starts; it always completes normally. *)
Lemma process_repo_effect github JSON_parse organization githubRepo s :
  Sync.process_repo github JSON_parse organization githubRepo s
  = (after githubRepo
       (unit_of_work github JSON_parse organization githubRepo
          (Sync.clock s) (Sync.db s)) s,
     Normal tt).
Proof.
  pose proof (fetch_time_nonneg github (Sync.gh_owner_login githubRepo)
                (Sync.gh_name githubRepo)) as HF.
  unfold Sync.process_repo, Sync.repo_transaction_body, unit_of_work, after.
  unfold Sync.commonRepoData.
  unfold try_catch, Sync.transaction.
  set (tx := {| Sync.tx_expires := Sync.clock s + Sync.TRANSACTION_TIMEOUT |}).
  unfold bind at 1. cbn [Sync.new_Date].
  unfold bind at 1. unfold Sync.repository_upsert at 1.
  rewrite query_open by (cbn; unfold Sync.TRANSACTION_TIMEOUT; lia).
  cbn [Sync.db Sync.set_clock].
  destruct (Sync.upsert_repository_rows _ _ _ _) as [c|[rows1 repository]].
  { machine. }
  unfold bind at 1. rewrite getPackageJsonContent_effect.
  destruct (fetched github (Sync.gh_owner_login githubRepo)
              (Sync.gh_name githubRepo)) as [content status].
  cbn [fst snd].
  set (F := fetch_time github (Sync.gh_owner_login githubRepo)
              (Sync.gh_name githubRepo)) in *.
  destruct ((status =? 200) && Sync.string_truthy content).
  - unfold bind at 1.
    destruct (JSON_parse (Sync.string_or content "")) as [packageJson|].
    2:{ machine. }
    unfold ret at 1. unfold bind at 1.
    assert (Hopen : forall s' : Sync.Machine,
               Sync.clock s' < Sync.clock s + Sync.TRANSACTION_TIMEOUT ->
               Sync.expired tx s' = false).
    { intros s' H. unfold Sync.expired. subst tx. cbn [Sync.tx_expires].
      destruct (Z.leb_spec (Sync.clock s + Sync.TRANSACTION_TIMEOUT)
                  (Sync.clock s')); [lia | reflexivity]. }
    destruct packageJson;
      try (machine; fail);
      unfold ret at 1;
      unfold bind at 1; cbn [Sync.new_Date];
      unfold bind at 1; cbn [Sync.new_Date];
      unfold bind at 1; unfold Sync.packageJson_upsert at 1;
      cbn [Sync.db Sync.set_db Sync.set_clock Sync.clock];
      replace (Sync.clock s + 1 + F + 1 + 1) with (Sync.clock s + (1 + F + 2))
        by lia;
      replace (Sync.clock s + 1 + F + 1) with (Sync.clock s + (1 + F) + 1)
        by lia;
      replace (Sync.clock s + 1 + F) with (Sync.clock s + (1 + F)) by lia;
      (destruct (Z.leb_spec Sync.TRANSACTION_TIMEOUT (1 + F + 2)) as [Hlate|Hearly];
       [ rewrite query_closed by (subst tx; cbn [Sync.tx_expires Sync.clock Sync.set_clock Sync.set_db]; lia);
         machine
       | rewrite query_open by (subst tx; cbn [Sync.tx_expires Sync.clock Sync.set_clock Sync.set_db]; lia);
         cbn [modify];
         unfold bind at 1; unfold Sync.repository_update_hasPackageJson at 1;
         rewrite query_open by (subst tx; cbn [Sync.tx_expires Sync.clock Sync.set_clock Sync.set_db]; lia);
         cbn [Sync.db Sync.set_db Sync.set_clock Sync.clock
              Sync.set_packageJsons Sync.repositories Sync.packageJsons];
         match goal with
         | |- context [Sync.update_hasPackageJson_rows ?i ?b ?r] =>
             destruct (Sync.update_hasPackageJson_rows i b r)
         end;
         [ unfold bind, Sync.incr_successCount, Sync.emit, modify;
           rewrite Hopen by (cbn -[Z.add Z.lt]; lia); machine
         | machine ] ]).
  - assert (Hopen : forall s' : Sync.Machine,
               Sync.clock s' < Sync.clock s + Sync.TRANSACTION_TIMEOUT ->
               Sync.expired tx s' = false).
    { intros s' H. unfold Sync.expired. subst tx. cbn [Sync.tx_expires].
      destruct (Z.leb_spec (Sync.clock s + Sync.TRANSACTION_TIMEOUT)
                  (Sync.clock s')); [lia | reflexivity]. }
    assert (Hclosed : forall s' : Sync.Machine,
               Sync.clock s + Sync.TRANSACTION_TIMEOUT <= Sync.clock s' ->
               Sync.expired tx s' = true).
    { intros s' H. unfold Sync.expired. subst tx. cbn [Sync.tx_expires].
      destruct (Z.leb_spec (Sync.clock s + Sync.TRANSACTION_TIMEOUT)
                  (Sync.clock s')); [reflexivity | lia]. }
    cbn [Sync.db Sync.set_db Sync.set_clock Sync.clock Sync.console
         Sync.successCount Sync.noPackageJsonCount Sync.errorCount].
    replace (Sync.clock s + 1 + F) with (Sync.clock s + (1 + F)) by lia.
    destruct (Z.leb_spec Sync.TRANSACTION_TIMEOUT (1 + F)) as [Hlate|Hearly];
      destruct (status =? 404).
    + unfold bind at 1. unfold Sync.packageJson_deleteMany at 1.
      rewrite query_closed
        by (subst tx; cbn [Sync.tx_expires Sync.clock]; lia).
      machine.
    + unfold bind, Sync.incr_errorCount, Sync.emit, modify.
      rewrite Hclosed by (cbn -[Z.add Z.le]; lia). machine.
    + unfold bind at 1. unfold Sync.packageJson_deleteMany at 1.
      rewrite query_open
        by (subst tx; cbn [Sync.tx_expires Sync.clock]; lia).
      cbn [modify].
      unfold bind at 1. unfold Sync.repository_update_hasPackageJson at 1.
      rewrite query_open
        by (subst tx; cbn [Sync.tx_expires Sync.clock Sync.set_db]; lia).
      cbn [Sync.db Sync.set_db Sync.set_clock Sync.clock
           Sync.set_packageJsons Sync.repositories Sync.packageJsons].
      match goal with
      | |- context [Sync.update_hasPackageJson_rows ?i ?b ?r] =>
          destruct (Sync.update_hasPackageJson_rows i b r)
      end;
      [ unfold bind, Sync.incr_noPackageJsonCount, Sync.emit, modify;
        rewrite Hopen by (cbn -[Z.add Z.lt]; lia); machine
      | machine ].
    + unfold bind, Sync.incr_errorCount, Sync.emit, modify.
      rewrite Hopen by (cbn -[Z.add Z.lt]; lia). machine.
Qed.

(** ** The whole run *)

Lemma insert_at_Permutation {A} (x : A) :
  forall k l, Permutation (Sync.insert_at k x l) (x :: l).
Proof.
  induction k as [|k IH]; intros l; [destruct l; reflexivity|].
  destruct l as [|y l]; [reflexivity|].
  cbn [Sync.insert_at]. rewrite IH. apply perm_swap.
Qed.

(** A rearrangement of a batch has the members of the batch, each as
    often as the batch has it. *)
Lemma arrange_Permutation {A} :
  forall (l : list A) places, Permutation (Sync.arrange places l) l.
Proof.
  induction l as [|x l IH]; intros places; [reflexivity|].
  cbn [Sync.arrange]. rewrite insert_at_Permutation.
  apply perm_skip. apply IH.
Qed.

Lemma scheduled_Permutation schedule :
  forall batches number,
    Permutation (scheduled schedule number batches) (List.concat batches).
Proof.
  induction batches as [|batch rest IH]; intros number; [reflexivity|].
  cbn [scheduled List.concat].
  apply Permutation_app; [apply arrange_Permutation | apply IH].
Qed.

(** Without places the batch stays in its order. *)
Lemma arrange_in_order {A} (l : list A) : Sync.arrange [] l = l.
Proof.
  induction l as [|x l IH]; [reflexivity|].
  cbn [Sync.arrange hd tl Sync.insert_at]. rewrite IH. reflexivity.
Qed.

Lemma concurrently_ind_on github JSON_parse organization
    (On : Sync.GithubRepo -> Prop)
    (Inv : list Sync.GithubRepo -> Sync.Machine -> Prop) :
  (forall done c s, Inv done s -> Inv done (Sync.set_clock c s)) ->
  (forall done r s,
      On r ->
      Inv done s ->
      Inv (done ++ [r])
        (after r (unit_of_work github JSON_parse organization r
                    (Sync.clock s) (Sync.db s)) s)) ->
  forall order done start latest s,
    Forall On order ->
    Inv done s ->
    exists s',
      concurrently github JSON_parse organization start latest order s
      = (s', Normal tt)
      /\ Inv (done ++ order) s'.
Proof.
  intros Hclock Hstep. induction order as [|r order IH];
    intros done start latest s Hon HI.
  - exists (Sync.set_clock latest s). rewrite app_nil_r.
    split; [reflexivity | apply Hclock; exact HI].
  - cbn [concurrently]. unfold bind, modify, gets.
    rewrite process_repo_effect.
    inversion Hon as [|? ? Hr Horder]; subst.
    match goal with
    | |- context [concurrently _ _ _ _ ?l order ?s1] =>
        destruct (IH (done ++ [r]) start l s1 Horder) as [s' [E HI']]
    end.
    { apply Hstep; [exact Hr|]. apply Hclock. exact HI. }
    exists s'. rewrite <- app_assoc in HI'. split; assumption.
Qed.

(** Induction over a run: a property of the machine, indexed by the
    repositories processed so far, that does not depend on the clock and
    survives a line on the console, a pause and a unit of work for any of
    the repositories of the schedule, holds at the end of the schedule,
    which completes normally. *)
Lemma run_batches_ind_on github JSON_parse schedule organization total
    (On : Sync.GithubRepo -> Prop)
    (Inv : list Sync.GithubRepo -> Sync.Machine -> Prop) :
  (forall done number total size s,
      Inv done s ->
      Inv done (fst (Sync.emit (Sync.LogBatch number total size) s))) ->
  (forall done ms s, Inv done s -> Inv done (fst (Sync.sleep ms s))) ->
  (forall done c s, Inv done s -> Inv done (Sync.set_clock c s)) ->
  (forall done r s,
      On r ->
      Inv done s ->
      Inv (done ++ [r])
        (after r (unit_of_work github JSON_parse organization r
                    (Sync.clock s) (Sync.db s)) s)) ->
  forall batches number done s,
    Forall On (List.concat batches) ->
    Inv done s ->
    exists s',
      run_batches github JSON_parse schedule organization number total
        batches s
      = (s', Normal tt)
      /\ Inv (done ++ scheduled schedule number batches) s'.
Proof.
  intros Hemit Hsleep Hclock Hstep.
  induction batches as [|batch rest IH]; intros number done s Hon HI.
  - exists s. cbn. rewrite app_nil_r. split; [reflexivity | exact HI].
  - cbn [run_batches List.concat scheduled] in *.
    apply Forall_app in Hon. destruct Hon as [Hbatch Hrest].
    unfold bind at 1.
    pose proof (Hemit done number total
                  (Z.of_nat (List.length batch)) s HI) as HI1.
    destruct (Sync.emit _ s) as [s1 c1] eqn:E1.
    assert (c1 = Normal tt) by (unfold Sync.emit, modify in E1; congruence).
    subst c1. cbn [fst] in HI1.
    unfold bind at 1. unfold bind at 1. cbn [gets].
    assert (Harranged : Forall On (Sync.arrange (schedule number) batch)).
    { apply Forall_forall. intros r Hr.
      apply (Permutation_in _ (arrange_Permutation batch (schedule number)))
        in Hr.
      revert r Hr. apply Forall_forall. exact Hbatch. }
    destruct (concurrently_ind_on github JSON_parse organization
                On Inv Hclock Hstep _ done (Sync.clock s1) (Sync.clock s1)
                s1 Harranged HI1) as [s2 [E2 HI2]].
    rewrite E2.
    unfold bind at 1.
    assert (Hpause :
      exists s3,
        match rest with
        | [] => ret tt
        | _ :: _ => Sync.sleep Sync.DELAY_BETWEEN_BATCHES
        end s2 = (s3, Normal tt)
        /\ Inv (done ++ Sync.arrange (schedule number) batch) s3).
    { destruct rest.
      - exists s2. split; [reflexivity | exact HI2].
      - pose proof (Hsleep _ Sync.DELAY_BETWEEN_BATCHES s2 HI2) as H3.
        destruct (Sync.sleep _ s2) as [s3 c3] eqn:E3.
        assert (c3 = Normal tt)
          by (unfold Sync.sleep, Sync.emit, modify in E3; congruence).
        subst c3. exists s3. split; [reflexivity | exact H3]. }
    destruct Hpause as [s3 [E3 HI3]]. rewrite E3.
    destruct (IH (number + 1) _ s3 Hrest HI3) as [s' [E' HI']].
    exists s'. rewrite app_assoc. split; assumption.
Qed.

Lemma run_batches_ind github JSON_parse schedule organization total
    (Inv : list Sync.GithubRepo -> Sync.Machine -> Prop) :
  (forall done number total size s,
      Inv done s ->
      Inv done (fst (Sync.emit (Sync.LogBatch number total size) s))) ->
  (forall done ms s, Inv done s -> Inv done (fst (Sync.sleep ms s))) ->
  (forall done c s, Inv done s -> Inv done (Sync.set_clock c s)) ->
  (forall done r s,
      Inv done s ->
      Inv (done ++ [r])
        (after r (unit_of_work github JSON_parse organization r
                    (Sync.clock s) (Sync.db s)) s)) ->
  forall batches number done s,
    Inv done s ->
    exists s',
      run_batches github JSON_parse schedule organization number total
        batches s
      = (s', Normal tt)
      /\ Inv (done ++ scheduled schedule number batches) s'.
Proof.
  intros Hemit Hsleep Hclock Hstep batches number done s HI.
  apply (run_batches_ind_on github JSON_parse schedule organization total
           (fun _ => True) Inv Hemit Hsleep Hclock
           (fun done r s _ => Hstep done r s)); [|exact HI].
  apply Forall_forall. intros; exact I.
Qed.

Lemma loop_as_run_batches github JSON_parse schedule organization allRepos s :
  for_of (range_step 0 (List.length allRepos) Sync.BATCH_SIZE)
    (Sync.process_batch github JSON_parse schedule organization allRepos) s
  = run_batches github JSON_parse schedule organization 1
      (Z.of_nat ((List.length allRepos + Sync.BATCH_SIZE - 1)
                 / Sync.BATCH_SIZE))
      (chunks Sync.BATCH_SIZE allRepos) s.
Proof.
  unfold range_step, chunks.
  pose proof (loop_is_run_batches github JSON_parse schedule organization
                allRepos (List.length allRepos) 0 s) as H.
  cbn [skipn] in H. apply H. lia.
Qed.

(** The repositories of a run in the order in which the store takes
    their transactions. *)
Lemma run_order_Permutation schedule (allRepos : list Sync.GithubRepo) :
  Permutation (scheduled schedule 1 (chunks Sync.BATCH_SIZE allRepos))
    allRepos.
Proof.
  rewrite scheduled_Permutation. unfold chunks.
  rewrite concat_chunks_fuel by (unfold Sync.BATCH_SIZE; lia).
  reflexivity.
Qed.

Lemma organization_upsert_normal orgName s :
  exists s1 organization,
    Sync.organization_upsert orgName s = (s1, Normal organization)
    /\ Sync.repositories (Sync.db s1) = Sync.repositories (Sync.db s)
    /\ Sync.packageJsons (Sync.db s1) = Sync.packageJsons (Sync.db s)
    /\ Sync.clock s1 = Sync.clock s
    /\ Sync.console s1 = Sync.console s
    /\ Sync.successCount s1 = Sync.successCount s
    /\ Sync.noPackageJsonCount s1 = Sync.noPackageJsonCount s
    /\ Sync.errorCount s1 = Sync.errorCount s.
Proof.
  unfold Sync.organization_upsert.
  destruct (find _ _) as [o|]; eexists; eexists;
    (split; [reflexivity|]); cbn; repeat split; reflexivity.
Qed.

(** The object that [syncOrganizationRepos] returns when the listing
    succeeds: the three counters as the schedule left them. *)
Lemma syncOrganizationRepos_success github JSON_parse schedule error_text
    orgName s pages s1 organization :
  Sync.paginate_listForOrg github orgName = Sync.Pages pages ->
  Sync.organization_upsert orgName s = (s1, Normal organization) ->
  exists s',
    run_batches github JSON_parse schedule organization 1
      (Z.of_nat ((List.length (List.concat pages) + Sync.BATCH_SIZE - 1)
                 / Sync.BATCH_SIZE))
      (chunks Sync.BATCH_SIZE (List.concat pages)) s1 = (s', Normal tt)
    /\ Sync.syncOrganizationRepos github JSON_parse schedule error_text
         orgName s
       = (s', Normal
            (JObj [("success", JBool true);
                   ("message", JStr "Sync complete.");
                   ("successCount", JNum (Sync.successCount s'));
                   ("noPackageJsonCount",
                    JNum (Sync.noPackageJsonCount s'));
                   ("errorCount", JNum (Sync.errorCount s'))])).
Proof.
  intros Hpages Horg.
  destruct (run_batches_ind github JSON_parse schedule organization
              (Z.of_nat ((List.length (List.concat pages)
                          + Sync.BATCH_SIZE - 1) / Sync.BATCH_SIZE))
              (fun _ _ => True)
              (fun _ _ _ _ _ _ => I) (fun _ _ _ _ => I) (fun _ _ _ _ => I)
              (fun _ _ _ _ => I)
              (chunks Sync.BATCH_SIZE (List.concat pages)) 1 [] s1 I)
    as [s' [E' _]].
  exists s'. split; [exact E'|].
  unfold Sync.syncOrganizationRepos, try_catch.
  unfold bind at 1. rewrite Horg, Hpages.
  unfold bind at 1. unfold ret at 1.
  unfold bind at 1. rewrite loop_as_run_batches, E'.
  reflexivity.
Qed.

(** ... and when the listing fails: the [message] is that of the error
    that the listing has thrown. *)
Lemma syncOrganizationRepos_failure github JSON_parse schedule error_text
    orgName s error s1 organization :
  Sync.paginate_listForOrg github orgName = Sync.ListingFails error ->
  Sync.organization_upsert orgName s = (s1, Normal organization) ->
  Sync.syncOrganizationRepos github JSON_parse schedule error_text orgName s
  = (s1, Normal
       (JObj [("success", JBool false);
              ("message",
               JStr ("Failed to sync organization: "
                     ++ Sync.message_of error_text error)%string)])).
Proof.
  intros Hpages Horg.
  unfold Sync.syncOrganizationRepos, try_catch.
  unfold bind at 1. rewrite Horg, Hpages. reflexivity.
Qed.

(** ** C9: the three counters and the number of repositories *)

Lemma unit_counts githubRepo e s :
  counted (after githubRepo e s)
  = counted s + 1 + match outcome e with ErrorThenCritical _ _ => 1 | _ => 0 end.
Proof.
  unfold counted, after. cbn.
  destruct (outcome e); cbn; lia.
Qed.

Lemma unit_counts_one_or_two githubRepo e s :
  let s' := after githubRepo e s in
  (Sync.successCount s' = Sync.successCount s + 1
   /\ Sync.noPackageJsonCount s' = Sync.noPackageJsonCount s
   /\ Sync.errorCount s' = Sync.errorCount s)
  \/ (Sync.successCount s' = Sync.successCount s
      /\ Sync.noPackageJsonCount s' = Sync.noPackageJsonCount s + 1
      /\ Sync.errorCount s' = Sync.errorCount s)
  \/ (Sync.successCount s' = Sync.successCount s
      /\ Sync.noPackageJsonCount s' = Sync.noPackageJsonCount s
      /\ (Sync.errorCount s' = Sync.errorCount s + 1
          \/ Sync.errorCount s' = Sync.errorCount s + 2)).
Proof.
  unfold after. cbn. destruct (outcome e); cbn.
  - left. lia.
  - right. left. lia.
  - right. right. lia.
  - right. right. lia.
  - right. right. lia.
Qed.

(** Only a repository whose error is overdue is counted twice. *)
Lemma twice_is_overdue github JSON_parse organization r now d status e :
  outcome (unit_of_work github JSON_parse organization r now d)
  = ErrorThenCritical status e ->
  class_of github JSON_parse r = Overdue status /\ e = TransactionExpired.
Proof.
  unfold unit_of_work, class_of.
  destruct (Sync.upsert_repository_rows _ _ _ _) as [c|[rows1 repository]];
    [discriminate|].
  destruct (_ && _).
  - destruct (JSON_parse _) as [packageJson|]; [|discriminate].
    destruct packageJson; try discriminate;
      destruct (_ <=? _); try discriminate;
      destruct (Sync.update_hasPackageJson_rows _ _ _); discriminate.
  - destruct (_ =? 404).
    + destruct (_ <=? _); [discriminate|].
      destruct (Sync.update_hasPackageJson_rows _ _ _); discriminate.
    + destruct (_ <=? _); [|discriminate].
      cbn [outcome]. intros [= <- <-]. split; reflexivity.
Qed.

(** The outcome of a unit of work whose upsert succeeds is the one that
    the remote state makes expect. *)
Lemma outcome_expected github JSON_parse organization r now d rows1 repository :
  Sync.upsert_repository_rows (Sync.gh_id r)
    (Sync.commonRepoData organization r now)
    (Sync.commonRepoData organization r now) (Sync.repositories d)
  = inr (rows1, repository) ->
  outcome (unit_of_work github JSON_parse organization r now d)
  = expected (class_of github JSON_parse r)
  \/ outcome (unit_of_work github JSON_parse organization r now d)
     = Critical RecordNotFound.
Proof.
  intros Hupsert. unfold unit_of_work, class_of. rewrite Hupsert.
  destruct (_ && _).
  - destruct (JSON_parse _) as [packageJson|]; [|left; reflexivity].
    destruct packageJson; try (left; reflexivity);
      destruct (_ <=? _); try (left; reflexivity);
      destruct (Sync.update_hasPackageJson_rows _ _ _);
      [left|right|left|right|left|right|left|right|left|right]; reflexivity.
  - destruct (_ =? 404).
    + destruct (_ <=? _); [left; reflexivity|].
      destruct (Sync.update_hasPackageJson_rows _ _ _);
        [left|right]; reflexivity.
    + destruct (_ <=? _); left; reflexivity.
Qed.

Lemma filter_length_Permutation {A} (f : A -> bool) (l l' : list A) :
  Permutation l l' ->
  List.length (filter f l) = List.length (filter f l').
Proof.
  induction 1 as [|x l l' _ IH|x y l|l l' l'' _ IH1 _ IH2].
  - reflexivity.
  - cbn. destruct (f x); cbn; rewrite IH; reflexivity.
  - cbn. destruct (f x), (f y); reflexivity.
  - congruence.
Qed.

Lemma count_overdue_snoc github JSON_parse l r :
  count_overdue github JSON_parse (l ++ [r])
  = count_overdue github JSON_parse l
    + Z_of_bool (overdue github JSON_parse r).
Proof.
  unfold count_overdue. rewrite filter_app, length_app. cbn [filter].
  destruct (overdue github JSON_parse r); cbn; lia.
Qed.

(** A unit of work whose row can be upserted and whose error is overdue:
    the error is logged and counted in the callback, and the failure of
    the commit in the [catch]; the store is rolled back. *)
Lemma overdue_effect github JSON_parse organization r now d status
    rows1 repository :
  class_of github JSON_parse r = Overdue status ->
  Sync.upsert_repository_rows (Sync.gh_id r)
    (Sync.commonRepoData organization r now)
    (Sync.commonRepoData organization r now) (Sync.repositories d)
  = inr (rows1, repository) ->
  unit_of_work github JSON_parse organization r now d
  = {| outcome := ErrorThenCritical status TransactionExpired;
       database := d;
       fetch_log :=
         fetch_events github (Sync.gh_owner_login r) (Sync.gh_name r);
       elapsed :=
         1 + fetch_time github (Sync.gh_owner_login r) (Sync.gh_name r) |}.
Proof.
  intros Hclass Hupsert. unfold unit_of_work. rewrite Hupsert.
  revert Hclass. unfold class_of.
  destruct (_ && _).
  - destruct (JSON_parse _) as [[]|]; try discriminate;
      destruct (_ <=? _); discriminate.
  - destruct (_ =? 404); [destruct (_ <=? _); discriminate|].
    destruct (_ <=? _); [|discriminate]. intros [= ->]. reflexivity.
Qed.

(** C9, against the code.  A run whose listing succeeds reaches the
    success return, but the three counters it returns need not add up to
    the number [n] of listed repositories: their sum is at least [n] and
    at most [n] plus the number of repositories whose error is overdue.
    A unit of work adds one to exactly one counter, or two to
    [errorCount]; it adds two when its row can be upserted and the fetch
    of the manifest ends in the third branch ("other error") after the
    transaction has been closed: the branch counts the error, the commit
    fails, and the [catch] counts it again, while the store is left as it
    was.  So it is for the one repository of [example_github_unreachable],
    whose manifest is answered with 502: the run returns the counters 0, 0
    and 2. *)
Theorem overdue_error_is_counted_twice :
  forall github JSON_parse schedule error_text orgName d time pages,
    Sync.paginate_listForOrg github orgName = Sync.Pages pages ->
    let n := Z.of_nat (List.length (List.concat pages)) in
    (exists s' a b c,
        Sync.syncOrganizationRepos github JSON_parse schedule error_text
          orgName (Sync.start d time)
        = (s', Normal
             (JObj [("success", JBool true);
                    ("message", JStr "Sync complete.");
                    ("successCount", JNum a);
                    ("noPackageJsonCount", JNum b);
                    ("errorCount", JNum c)]))
        /\ n <= a + b + c
        /\ a + b + c <= n + count_overdue github JSON_parse (List.concat pages))
    /\ (forall organization githubRepo s,
           let s' :=
             fst (Sync.process_repo github JSON_parse organization
                    githubRepo s) in
           (Sync.successCount s' = Sync.successCount s + 1
            /\ Sync.noPackageJsonCount s' = Sync.noPackageJsonCount s
            /\ Sync.errorCount s' = Sync.errorCount s)
           \/ (Sync.successCount s' = Sync.successCount s
               /\ Sync.noPackageJsonCount s' = Sync.noPackageJsonCount s + 1
               /\ Sync.errorCount s' = Sync.errorCount s)
           \/ (Sync.successCount s' = Sync.successCount s
               /\ Sync.noPackageJsonCount s' = Sync.noPackageJsonCount s
               /\ (Sync.errorCount s' = Sync.errorCount s + 1
                   \/ Sync.errorCount s' = Sync.errorCount s + 2)))
    /\ (forall organization githubRepo s status rows1 repository,
           class_of github JSON_parse githubRepo = Overdue status ->
           Sync.upsert_repository_rows (Sync.gh_id githubRepo)
             (Sync.commonRepoData organization githubRepo (Sync.clock s))
             (Sync.commonRepoData organization githubRepo (Sync.clock s))
             (Sync.repositories (Sync.db s)) = inr (rows1, repository) ->
           let s' :=
             fst (Sync.process_repo github JSON_parse organization
                    githubRepo s) in
           Sync.errorCount s' = Sync.errorCount s + 2
           /\ Sync.successCount s' = Sync.successCount s
           /\ Sync.noPackageJsonCount s' = Sync.noPackageJsonCount s
           /\ Sync.db s' = Sync.db s)
    /\ Sync.paginate_listForOrg example_github_unreachable "o"
       = Sync.Pages [[example_repo 2 "b"]]
    /\ snd (Sync.syncOrganizationRepos example_github_unreachable
              example_parse in_order example_text "o"
              (Sync.start empty_database 100))
       = Normal (JObj [("success", JBool true);
                       ("message", JStr "Sync complete.");
                       ("successCount", JNum 0);
                       ("noPackageJsonCount", JNum 0);
                       ("errorCount", JNum 2)]).
Proof.
  intros github JSON_parse schedule error_text orgName d time pages Hpages n.
  split; [|split; [|split; [|split]]].
  - destruct (organization_upsert_normal orgName (Sync.start d time))
      as [s1 [organization [Horg [_ [_ [_ [_ [H1 [H2 H3]]]]]]]]].
    destruct (syncOrganizationRepos_success github JSON_parse schedule
                error_text orgName _ pages s1 organization Hpages Horg)
      as [s' [Hrun Hsync]].
    exists s', (Sync.successCount s'), (Sync.noPackageJsonCount s'),
      (Sync.errorCount s').
    split; [exact Hsync|].
    destruct (run_batches_ind github JSON_parse schedule organization
                (Z.of_nat ((List.length (List.concat pages)
                            + Sync.BATCH_SIZE - 1) / Sync.BATCH_SIZE))
                (fun done s =>
                   Z.of_nat (List.length done) <= counted s
                   /\ counted s
                      <= Z.of_nat (List.length done)
                         + count_overdue github JSON_parse done)) with
      (batches := chunks Sync.BATCH_SIZE (List.concat pages))
      (number := 1) (done := @nil Sync.GithubRepo) (s := s1)
      as [s2 [E2 Hfinal]].
    + intros done number total size s H. exact H.
    + intros done ms s H. exact H.
    + intros done c s H. exact H.
    + intros done r s [Hlow Hhigh].
      rewrite unit_counts, count_overdue_snoc, length_app. cbn [List.length].
      destruct (outcome _) eqn:Ho;
        try (destruct (overdue github JSON_parse r); cbn [Z_of_bool]; lia).
      apply twice_is_overdue in Ho. destruct Ho as [Hclass _].
      unfold overdue. rewrite Hclass. cbn [Z_of_bool]. lia.
    + unfold counted, count_overdue. rewrite H1, H2, H3. cbn. lia.
    + rewrite Hrun in E2. injection E2 as <-.
      cbn [app] in Hfinal.
      pose proof (run_order_Permutation schedule (List.concat pages)) as HP.
      unfold count_overdue in Hfinal.
      rewrite (filter_length_Permutation _ _ _ HP) in Hfinal.
      rewrite (Permutation_length HP) in Hfinal.
      unfold counted in Hfinal. unfold count_overdue. subst n. lia.
  - intros organization githubRepo s. rewrite process_repo_effect.
    apply unit_counts_one_or_two.
  - intros organization githubRepo s status rows1 repository Hclass Hupsert.
    rewrite process_repo_effect. cbn [fst].
    rewrite (overdue_effect _ _ _ _ _ _ _ _ _ Hclass Hupsert).
    unfold after. cbn. repeat split; lia.
  - reflexivity.
  - vm_compute. reflexivity.
Qed.

Lemma overdue_error_is_counted_twice_witness :
  exists s' a b c,
    Sync.syncOrganizationRepos example_github_unreachable example_parse
      in_order example_text "o" (Sync.start empty_database 100)
    = (s', Normal
         (JObj [("success", JBool true);
                ("message", JStr "Sync complete.");
                ("successCount", JNum a);
                ("noPackageJsonCount", JNum b);
                ("errorCount", JNum c)]))
    /\ 1 <= a + b + c
    /\ a + b + c
       <= 1 + count_overdue example_github_unreachable example_parse
                [example_repo 2 "b"].
Proof.
  exact (proj1 (overdue_error_is_counted_twice example_github_unreachable
                  example_parse in_order example_text "o" empty_database 100
                  [[example_repo 2 "b"]] eq_refl)).
Defined.

(** ** C1: per-repository errors are caught and counted, not listed *)

Lemma error_lines_app l1 l2 :
  error_lines (l1 ++ l2) = error_lines l1 + error_lines l2.
Proof.
  unfold error_lines. rewrite filter_app, length_app. lia.
Qed.

Lemma count_lines_app f l1 l2 :
  count_lines f (l1 ++ l2) = count_lines f l1 + count_lines f l2.
Proof.
  unfold count_lines. rewrite filter_app, length_app. lia.
Qed.

(** [getPackageJsonContent] writes lines of its own kind only. *)
Lemma fetch_events_lines github owner repo line :
  In line (fetch_events github owner repo) ->
  line = Sync.LogFetchError owner repo.
Proof.
  unfold fetch_events.
  destruct (Sync.repos_getContent github owner repo "package.json")
    as [[c|] st|[st|]]; cbn; try tauto; try (intros [<-|[]]; reflexivity).
  destruct st as [|p|p]; cbn; try (intros [<-|[]]; reflexivity).
  do 9 (destruct p as [p|p|]; cbn; try (intros [<-|[]]; reflexivity)).
  tauto.
Qed.

Lemma fetch_log_lines github JSON_parse organization r now d line :
  In line (fetch_log (unit_of_work github JSON_parse organization r now d)) ->
  line = Sync.LogFetchError (Sync.gh_owner_login r) (Sync.gh_name r).
Proof.
  unfold unit_of_work.
  repeat match goal with
         | |- context [match ?x with _ => _ end] =>
             destruct x; cbn [fetch_log]
         end;
    try (intros []); apply fetch_events_lines.
Qed.

Lemma filter_none {A} (f : A -> bool) (l : list A) :
  (forall x, In x l -> f x = false) -> filter f l = [].
Proof.
  induction l as [|x l IH]; intros H; [reflexivity|].
  cbn. rewrite (H x (or_introl eq_refl)). apply IH.
  intros y Hy. apply H. now right.
Qed.

Lemma fetch_log_counts github JSON_parse organization r now d f :
  (forall owner repo, f (Sync.LogFetchError owner repo) = false) ->
  count_lines f
    (fetch_log (unit_of_work github JSON_parse organization r now d)) = 0.
Proof.
  intros Hf. unfold count_lines. rewrite filter_none; [reflexivity|].
  intros line Hline. apply fetch_log_lines in Hline. subst line. apply Hf.
Qed.

Lemma unit_counters_logged github JSON_parse organization r s :
  counters_logged s ->
  counters_logged
    (after r (unit_of_work github JSON_parse organization r
                (Sync.clock s) (Sync.db s)) s).
Proof.
  intros [He Hs Ha].
  pose proof (fetch_log_counts github JSON_parse organization r
                (Sync.clock s) (Sync.db s)) as Hlog.
  split; cbn [after Sync.errorCount Sync.successCount
              Sync.noPackageJsonCount Sync.console].
  - change error_lines with (count_lines is_error_line) in *.
    rewrite !count_lines_app, <- He, Hlog by reflexivity.
    destruct (outcome _); reflexivity.
  - rewrite !count_lines_app, <- Hs, Hlog by reflexivity.
    destruct (outcome _); reflexivity.
  - rewrite !count_lines_app, <- Ha, Hlog by reflexivity.
    destruct (outcome _); reflexivity.
Qed.

(** A unit of work says on the console how it has ended. *)
Lemma unit_accounted github JSON_parse organization r s :
  accounted (Sync.gh_full_name r)
    (Sync.console
       (after r (unit_of_work github JSON_parse organization r
                   (Sync.clock s) (Sync.db s)) s)).
Proof.
  unfold accounted. cbn [after Sync.console].
  destruct (outcome _) eqn:Ho; cbn [events_of].
  - left. apply in_or_app. right. apply in_or_app. right. now left.
  - right. left. apply in_or_app. right. apply in_or_app. right. now left.
  - right. right. left. exists status.
    apply in_or_app. right. apply in_or_app. right. now left.
  - right. right. right. exists e.
    apply in_or_app. right. apply in_or_app. right. now left.
  - right. right. left. exists status.
    apply in_or_app. right. apply in_or_app. right. now left.
Qed.

Lemma accounted_app full_name l1 l2 :
  accounted full_name l1 -> accounted full_name (l1 ++ l2).
Proof.
  unfold accounted.
  intros [H|[H|[[st H]|[e H]]]].
  - left. apply in_or_app. now left.
  - right. left. apply in_or_app. now left.
  - right. right. left. exists st. apply in_or_app. now left.
  - right. right. right. exists e. apply in_or_app. now left.
Qed.

(** The lines that a unit of work writes about a repository are about its
    own. *)
Lemma unit_lines_about github JSON_parse organization r s line name :
  In line
    (Sync.console
       (after r (unit_of_work github JSON_parse organization r
                   (Sync.clock s) (Sync.db s)) s)) ->
  line_about line = Some name ->
  (In line (Sync.console s) \/ name = Sync.gh_full_name r).
Proof.
  cbn [after Sync.console]. intros Hin Habout.
  apply in_app_iff in Hin. destruct Hin as [Hin|Hin]; [now left|].
  apply in_app_iff in Hin. destruct Hin as [Hin|Hin].
  - apply fetch_log_lines in Hin. subst line. discriminate.
  - right. destruct (outcome _); cbn [events_of] in Hin;
      repeat (destruct Hin as [<-|Hin]; [cbn in Habout; congruence|]);
      destruct Hin.
Qed.

(** A unit of work whose fetch answers neither 404 nor 200 with content
    writes an error about its repository to the console. *)
Lemma unit_reports_failure github JSON_parse organization r s :
  let answer :=
    fetched github (Sync.gh_owner_login r) (Sync.gh_name r) in
  (snd answer =? 404) = false ->
  (snd answer =? 200) && Sync.string_truthy (fst answer) = false ->
  exists line,
    In line
      (Sync.console
         (after r (unit_of_work github JSON_parse organization r
                     (Sync.clock s) (Sync.db s)) s))
    /\ is_error_line line = true
    /\ line_about line = Some (Sync.gh_full_name r).
Proof.
  intros answer H404 H200. subst answer.
  unfold unit_of_work. rewrite H200, H404.
  destruct (Sync.upsert_repository_rows _ _ _ _) as [c|[rows1 repository]];
    [|destruct (_ <=? _)];
    cbn [after outcome fetch_log Sync.console events_of];
    eexists; (split; [apply in_or_app; right; apply in_or_app; right;
                      left; reflexivity | split; reflexivity]).
Qed.

Lemma run_reports_failures github JSON_parse schedule organization total
    batches number s r :
  let answer :=
    fetched github (Sync.gh_owner_login r) (Sync.gh_name r) in
  In r (scheduled schedule number batches) ->
  (snd answer =? 404) = false ->
  (snd answer =? 200) && Sync.string_truthy (fst answer) = false ->
  exists line,
    In line
      (Sync.console
         (fst (run_batches github JSON_parse schedule organization number
                 total batches s)))
    /\ is_error_line line = true
    /\ line_about line = Some (Sync.gh_full_name r).
Proof.
  intros answer Hr H404 H200. subst answer.
  destruct (run_batches_ind github JSON_parse schedule organization total
              (fun done s =>
                 In r done ->
                 exists line,
                   In line (Sync.console s)
                   /\ is_error_line line = true
                   /\ line_about line = Some (Sync.gh_full_name r))) with
    (batches := batches) (number := number) (done := @nil Sync.GithubRepo)
    (s := s) as [s' [E H]].
  - intros done n t size s0 H Hdone.
    destruct (H Hdone) as [line [Hin Hline]]. exists line.
    split; [|exact Hline]. cbn. apply in_or_app. now left.
  - intros done ms s0 H Hdone.
    destruct (H Hdone) as [line [Hin Hline]]. exists line.
    split; [|exact Hline]. cbn. apply in_or_app. now left.
  - intros done c s0 H. exact H.
  - intros done r' s0 H Hdone. apply in_app_iff in Hdone.
    destruct Hdone as [Hdone|[->|[]]].
    + destruct (H Hdone) as [line [Hin Hline]]. exists line.
      split; [|exact Hline]. cbn [after Sync.console].
      apply in_or_app. now left.
    + apply unit_reports_failure; assumption.
  - intros [].
  - rewrite E. cbn [fst]. apply H. exact Hr.
Qed.

(** C1, as the code has it.  [syncOrganizationRepos] never throws: every
    error of a unit of work is caught.  When the listing succeeds the
    object it returns has the members [success], [message],
    [successCount], [noPackageJsonCount] and [errorCount] and no others.
    Every listed repository is accounted for on the console, by a line
    with its full name that says that it was processed, that it has no
    manifest, or which status or error its unit of work has met; every
    such line is about a listed repository; the three counters are the
    numbers of lines of the three kinds, so that every error that is
    logged is counted in [errorCount]; and the counters together are at
    least the number of listed repositories, so that every repository
    that is not counted as processed or as without manifest is counted in
    [errorCount].  In particular every listed repository whose fetch of
    the manifest answers neither 404 nor 200 with content has an error
    line with its full name on the console.  When the listing fails the object has [success] and
    [message] only, and the message ends with the [message] of the error
    that the listing has thrown.  In neither case has the object a member
    [errors]. *)
Theorem errors_are_counted_not_listed :
  forall github JSON_parse schedule error_text orgName d time,
  exists s' result,
    Sync.syncOrganizationRepos github JSON_parse schedule error_text orgName
      (Sync.start d time)
    = (s', Normal result)
    /\ member result "errors" = None
    /\ match Sync.paginate_listForOrg github orgName with
       | Sync.Pages pages =>
           result
           = JObj [("success", JBool true);
                   ("message", JStr "Sync complete.");
                   ("successCount", JNum (Sync.successCount s'));
                   ("noPackageJsonCount", JNum (Sync.noPackageJsonCount s'));
                   ("errorCount", JNum (Sync.errorCount s'))]
           /\ (forall r, In r (List.concat pages) ->
                 accounted (Sync.gh_full_name r) (Sync.console s'))
           /\ (forall line name,
                 In line (Sync.console s') ->
                 line_about line = Some name ->
                 exists r, In r (List.concat pages)
                           /\ Sync.gh_full_name r = name)
           /\ Sync.errorCount s' = error_lines (Sync.console s')
           /\ Sync.successCount s'
              = count_lines is_processed_line (Sync.console s')
           /\ Sync.noPackageJsonCount s'
              = count_lines is_noPackageJson_line (Sync.console s')
           /\ Z.of_nat (List.length (List.concat pages))
              <= Sync.successCount s' + Sync.noPackageJsonCount s'
                 + Sync.errorCount s'
           /\ (forall r content status s0,
                 In r (List.concat pages) ->
                 snd (Sync.getPackageJsonContent github
                        (Sync.gh_owner_login r) (Sync.gh_name r) s0)
                 = Normal (content, status) ->
                 status <> 404 ->
                 (status =? 200) && Sync.string_truthy content = false ->
                 exists line,
                   In line (Sync.console s')
                   /\ is_error_line line = true
                   /\ line_about line = Some (Sync.gh_full_name r))
       | Sync.ListingFails error =>
           result
           = JObj [("success", JBool false);
                   ("message",
                    JStr ("Failed to sync organization: "
                          ++ Sync.message_of error_text error)%string)]
       end.
Proof.
  intros github JSON_parse schedule error_text orgName d time.
  destruct (organization_upsert_normal orgName (Sync.start d time))
    as [s1 [organization [Horg [_ [_ [_ [Hconsole [Hs [Ha Herr]]]]]]]]].
  destruct (Sync.paginate_listForOrg github orgName) as [pages|error]
    eqn:Hpages.
  - destruct (syncOrganizationRepos_success github JSON_parse schedule
                error_text orgName _ pages s1 organization Hpages Horg)
      as [s' [Hrun Hsync]].
    eexists. eexists. split; [exact Hsync|].
    split; [reflexivity|]. split; [reflexivity|].
    destruct (run_batches_ind github JSON_parse schedule organization
                (Z.of_nat ((List.length (List.concat pages)
                            + Sync.BATCH_SIZE - 1) / Sync.BATCH_SIZE))
                (fun done s =>
                   counters_logged s
                   /\ (forall r, In r done ->
                         accounted (Sync.gh_full_name r) (Sync.console s))
                   /\ (forall line name,
                         In line (Sync.console s) ->
                         line_about line = Some name ->
                         exists r, In r done /\ Sync.gh_full_name r = name)
                   /\ Z.of_nat (List.length done) <= counted s)) with
      (batches := chunks Sync.BATCH_SIZE (List.concat pages))
      (number := 1) (done := @nil Sync.GithubRepo) (s := s1)
      as [s2 [E2 Hfinal]].
    + intros done number total size s [[He Hsu Hab] [Hacc [Habout Hn]]].
      split; [split|split; [|split]]; cbn [fst Sync.emit modify
        Sync.console Sync.errorCount Sync.successCount
        Sync.noPackageJsonCount].
      * rewrite error_lines_app, <- He. cbn. lia.
      * rewrite count_lines_app, <- Hsu. cbn. lia.
      * rewrite count_lines_app, <- Hab. cbn. lia.
      * intros r Hr. apply accounted_app. apply Hacc. exact Hr.
      * intros line name Hin Hline. apply in_app_iff in Hin.
        destruct Hin as [Hin|[<-|[]]]; [|discriminate].
        eapply Habout; eassumption.
      * exact Hn.
    + intros done ms s [[He Hsu Hab] [Hacc [Habout Hn]]].
      split; [split|split; [|split]]; cbn [fst Sync.sleep Sync.emit modify
        Sync.console Sync.errorCount Sync.successCount
        Sync.noPackageJsonCount Sync.set_clock].
      * rewrite error_lines_app, <- He. cbn. lia.
      * rewrite count_lines_app, <- Hsu. cbn. lia.
      * rewrite count_lines_app, <- Hab. cbn. lia.
      * intros r Hr. apply accounted_app. apply Hacc. exact Hr.
      * intros line name Hin Hline. apply in_app_iff in Hin.
        destruct Hin as [Hin|[<-|[]]]; [|discriminate].
        eapply Habout; eassumption.
      * exact Hn.
    + intros done c s [[He Hsu Hab] H]. split; [split|]; assumption.
    + intros done r s [Hlogged [Hacc [Habout Hn]]].
      split; [|split; [|split]].
      * apply unit_counters_logged. exact Hlogged.
      * intros r' Hr'. apply in_app_iff in Hr'.
        destruct Hr' as [Hr'|[<-|[]]].
        -- cbn [after Sync.console]. apply accounted_app.
           apply Hacc. exact Hr'.
        -- apply unit_accounted.
      * intros line name Hin Hline.
        destruct (unit_lines_about _ _ _ _ _ _ _ Hin Hline) as [Hold| ->].
        -- destruct (Habout _ _ Hold Hline) as [r' [Hr' Hname]].
           exists r'. split; [apply in_or_app; now left | exact Hname].
        -- exists r. split; [apply in_or_app; right; now left | reflexivity].
      * rewrite unit_counts, length_app. cbn [List.length].
        destruct (outcome _); lia.
    + split; [split|split; [|split]].
      * rewrite Herr, Hconsole. reflexivity.
      * rewrite Hs, Hconsole. reflexivity.
      * rewrite Ha, Hconsole. reflexivity.
      * intros r [].
      * rewrite Hconsole. intros line name [].
      * unfold counted. rewrite Hs, Ha, Herr. cbn. lia.
    + rewrite Hrun in E2. injection E2 as <-.
      cbn [app] in Hfinal.
      pose proof (run_order_Permutation schedule (List.concat pages)) as HP.
      destruct Hfinal as [[He Hsu Hab] [Hacc [Habout Hn]]].
      split; [|split; [|split; [|split; [|split; [|split]]]]];
        try assumption.
      * intros r Hr. apply Hacc.
        apply (Permutation_in _ (Permutation_sym HP)). exact Hr.
      * intros line name Hin Hline.
        destruct (Habout _ _ Hin Hline) as [r [Hr Hname]].
        exists r. split; [|exact Hname].
        apply (Permutation_in _ HP). exact Hr.
      * rewrite (Permutation_length HP) in Hn. exact Hn.
      * intros r content status s0 Hr Hfetch H404 H200.
        rewrite getPackageJsonContent_effect in Hfetch.
        cbn [snd] in Hfetch. injection Hfetch as Hfetch.
        apply Z.eqb_neq in H404.
        pose proof (run_reports_failures github JSON_parse schedule
                      organization
                      (Z.of_nat ((List.length (List.concat pages)
                                  + Sync.BATCH_SIZE - 1) / Sync.BATCH_SIZE))
                      (chunks Sync.BATCH_SIZE (List.concat pages)) 1 s1 r)
          as Hreport.
        cbv zeta in Hreport. rewrite Hfetch, Hrun in Hreport.
        apply Hreport; [|exact H404|exact H200].
        apply (Permutation_in _ (Permutation_sym HP)). exact Hr.
  - eexists. eexists.
    split; [apply (syncOrganizationRepos_failure github JSON_parse schedule
                     error_text orgName _ error s1 organization Hpages
                     Horg)|].
    split; reflexivity.
Qed.

(** C1 as stated fails: a run in which the manifests of [b] and [c]
    cannot be had returns an object that counts the errors and has no
    [errors] member. *)
Lemma errors_list_absent :
  let result :=
    snd (Sync.syncOrganizationRepos example_github example_parse in_order
           example_text "o" (Sync.start empty_database 100)) in
  result
  = Normal (JObj [("success", JBool true);
                  ("message", JStr "Sync complete.");
                  ("successCount", JNum 1);
                  ("noPackageJsonCount", JNum 0);
                  ("errorCount", JNum 3)])
  /\ ~ (exists o errors,
           result = Normal o /\ member o "errors" = Some errors).
Proof.
  split; [vm_compute; reflexivity|].
  intros [o [errors [Ho Hm]]].
  vm_compute in Ho. injection Ho as <-. vm_compute in Hm. discriminate.
Qed.

(** ** Rows *)

Lemma next_id_above ids i : In i ids -> i < Sync.next_id ids.
Proof.
  unfold Sync.next_id. induction ids as [|j ids IH]; intros Hin.
  - destruct Hin.
  - cbn [fold_right]. destruct Hin as [->|Hin].
    + lia.
    + specialize (IH Hin). lia.
Qed.

Lemma existsb_id_In (rows : list Sync.Repository) i :
  existsb (fun r => Sync.repo_id r =? i) rows = true
  <-> In i (map Sync.repo_id rows).
Proof.
  rewrite existsb_exists, in_map_iff. split.
  - intros [r [Hin He]]. exists r. split; [lia | exact Hin].
  - intros [r [He Hin]]. exists r. split; [exact Hin | lia].
Qed.

Lemma has_row_upsert rid u c rows i :
  existsb (fun p => Sync.pj_repositoryId p =? i)
    (Sync.upsert_packageJson_rows rid u c rows)
  = (i =? rid) || existsb (fun p => Sync.pj_repositoryId p =? i) rows.
Proof.
  unfold Sync.upsert_packageJson_rows.
  destruct (existsb (fun p => Sync.pj_repositoryId p =? rid) rows) eqn:E.
  - assert (Hmap :
      existsb (fun p => Sync.pj_repositoryId p =? i)
        (map (fun p => if Sync.pj_repositoryId p =? rid
                       then Sync.write_packageJson u p else p) rows)
      = existsb (fun p => Sync.pj_repositoryId p =? i) rows).
    { clear E. induction rows as [|p rows IH]; [reflexivity|].
      cbn [map existsb]. rewrite IH. f_equal.
      destruct (Sync.pj_repositoryId p =? rid); reflexivity. }
    rewrite Hmap. destruct (Z.eqb_spec i rid) as [->|Hne].
    + rewrite E. reflexivity.
    + reflexivity.
  - rewrite existsb_app. cbn. rewrite orb_false_r.
    rewrite (Z.eqb_sym rid i). apply orb_comm.
Qed.

Lemma has_row_delete rid rows i :
  existsb (fun p => Sync.pj_repositoryId p =? i)
    (Sync.delete_packageJson_rows rid rows)
  = negb (i =? rid) && existsb (fun p => Sync.pj_repositoryId p =? i) rows.
Proof.
  unfold Sync.delete_packageJson_rows.
  induction rows as [|p rows IH]; cbn [filter existsb].
  - now rewrite andb_false_r.
  - destruct (Z.eqb_spec (Sync.pj_repositoryId p) rid) as [E|E]; cbn [negb];
      cbn [existsb]; rewrite IH;
      destruct (Z.eqb_spec i rid) as [Hi|Hi];
      destruct (Z.eqb_spec (Sync.pj_repositoryId p) i) as [Hp|Hp];
      cbn; try reflexivity; try lia.
Qed.

Lemma update_rows_ids id b rows rows' :
  Sync.update_hasPackageJson_rows id b rows = Some rows' ->
  map Sync.repo_id rows' = map Sync.repo_id rows.
Proof.
  unfold Sync.update_hasPackageJson_rows.
  destruct (existsb _ rows); [|discriminate].
  intros [= <-]. rewrite map_map. apply map_ext.
  intros x. destruct (Sync.repo_id x =? id); reflexivity.
Qed.

Lemma update_rows_In id b rows rows' r' :
  Sync.update_hasPackageJson_rows id b rows = Some rows' ->
  In r' rows' ->
  exists r, In r rows /\ Sync.repo_id r' = Sync.repo_id r
            /\ Sync.repo_hasPackageJson r'
               = (if Sync.repo_id r =? id then b
                  else Sync.repo_hasPackageJson r).
Proof.
  unfold Sync.update_hasPackageJson_rows.
  destruct (existsb _ rows); [|discriminate].
  intros [= <-] Hin. apply in_map_iff in Hin. destruct Hin as [r [<- Hin]].
  exists r. split; [exact Hin|].
  destruct (Sync.repo_id r =? id); split; reflexivity.
Qed.

(** What [upsert] does to the ids and flags of [repositories]: old rows
    keep both, and a new row has a new id and no manifest. *)
Lemma upsert_rows_In g u c rows rows' r r' :
  Sync.upsert_repository_rows g u c rows = inr (rows', r) ->
  In r' rows' ->
  (exists r0, In r0 rows /\ Sync.repo_id r' = Sync.repo_id r0
              /\ Sync.repo_hasPackageJson r'
                 = Sync.repo_hasPackageJson r0)
  \/ (~ In (Sync.repo_id r') (map Sync.repo_id rows)
      /\ Sync.repo_hasPackageJson r' = false).
Proof.
  unfold Sync.upsert_repository_rows.
  destruct (find _ rows) as [r0|].
  - destruct (Sync.unique_conflict _ _ _ _); [discriminate|].
    intros [= <- <-] Hin. apply in_map_iff in Hin.
    destruct Hin as [x [<- Hin]]. left. exists x. split; [exact Hin|].
    destruct (Sync.repo_id x =? Sync.repo_id r0); split; reflexivity.
  - destruct (Sync.unique_conflict _ _ _ _); [discriminate|].
    intros [= <- <-] Hin. apply in_app_iff in Hin.
    destruct Hin as [Hin|[<-|[]]].
    + left. exists r'. repeat split. exact Hin.
    + right. split; [|reflexivity].
      cbn [Sync.repo_id Sync.new_repo]. intros Hin.
      apply next_id_above in Hin. lia.
Qed.

Lemma upsert_rows_ids g u c rows rows' r i :
  Sync.upsert_repository_rows g u c rows = inr (rows', r) ->
  In i (map Sync.repo_id rows) -> In i (map Sync.repo_id rows').
Proof.
  unfold Sync.upsert_repository_rows.
  destruct (find _ rows) as [r0|].
  - destruct (Sync.unique_conflict _ _ _ _); [discriminate|].
    intros [= <- <-] Hin. rewrite map_map.
    erewrite map_ext; [exact Hin|].
    intros x. cbn. destruct (Sync.repo_id x =? Sync.repo_id r0); reflexivity.
  - destruct (Sync.unique_conflict _ _ _ _); [discriminate|].
    intros [= <- <-] Hin. rewrite map_app. apply in_or_app. left. exact Hin.
Qed.

Lemma find_some_In {A} (f : A -> bool) l x : find f l = Some x -> In x l.
Proof. intros H. apply find_some in H. tauto. Qed.


(** ** The invariant under the writes of a unit of work *)

Lemma consistent_tables d d' :
  Sync.repositories d' = Sync.repositories d ->
  Sync.packageJsons d' = Sync.packageJsons d ->
  consistent d -> consistent d'.
Proof.
  unfold consistent, has_manifest_invariant, foreign_keys, has_manifest_row.
  intros -> ->. tauto.
Qed.

Lemma upsert_extends g u c rows rows' r :
  Sync.upsert_repository_rows g u c rows = inr (rows', r) ->
  extends rows rows'.
Proof.
  intros H. split.
  - intros r' Hin. eapply upsert_rows_In; eassumption.
  - intros i Hin. eapply upsert_rows_ids; eassumption.
Qed.

Lemma consistent_extends d rows' :
  extends (Sync.repositories d) rows' ->
  consistent d -> consistent (Sync.set_repositories rows' d).
Proof.
  intros [Hold Hids] [Hinv Hfk]. split.
  - intros r' Hin. cbn in Hin. unfold has_manifest_row. cbn.
    destruct (Hold r' Hin) as [[r0 [Hin0 [Hid Hhas]]]|[Hfresh Hhas]].
    + rewrite Hhas, Hid. apply Hinv. exact Hin0.
    + rewrite Hhas. symmetry. apply not_true_is_false. intros Hex.
      apply existsb_exists in Hex. destruct Hex as [p [Hp He]].
      apply Hfresh. apply existsb_id_In.
      specialize (Hfk p Hp). replace (Sync.repo_id r') with
        (Sync.pj_repositoryId p) by lia. exact Hfk.
  - intros p Hp. cbn in *. apply existsb_id_In. apply Hids.
    apply existsb_id_In. apply Hfk. exact Hp.
Qed.

Lemma consistent_present d d' rid u c rows3 :
  consistent d ->
  Sync.update_hasPackageJson_rows rid true (Sync.repositories d)
  = Some rows3 ->
  Sync.repositories d' = rows3 ->
  Sync.packageJsons d'
  = Sync.upsert_packageJson_rows rid u c (Sync.packageJsons d) ->
  consistent d'.
Proof.
  intros [Hinv Hfk] Hupd Hrepos Hpjs. split.
  - intros r' Hin. rewrite Hrepos in Hin.
    destruct (update_rows_In _ _ _ _ _ Hupd Hin) as [r [Hr [Hid Hhas]]].
    unfold has_manifest_row. rewrite Hpjs, has_row_upsert, Hhas, Hid.
    destruct (Sync.repo_id r =? rid); [reflexivity|].
    cbn. apply Hinv. exact Hr.
  - intros p Hp. rewrite Hpjs in Hp. rewrite Hrepos.
    apply existsb_id_In. rewrite (update_rows_ids _ _ _ _ Hupd).
    apply existsb_id_In.
    assert (Hrid : existsb (fun r => Sync.repo_id r =? rid)
                     (Sync.repositories d) = true).
    { unfold Sync.update_hasPackageJson_rows in Hupd.
      destruct (existsb _ _); [reflexivity | discriminate]. }
    unfold Sync.upsert_packageJson_rows in Hp.
    destruct (existsb _ (Sync.packageJsons d)).
    + apply in_map_iff in Hp. destruct Hp as [p0 [<- Hp0]].
      specialize (Hfk p0 Hp0).
      destruct (Sync.pj_repositoryId p0 =? rid); exact Hfk.
    + apply in_app_iff in Hp. destruct Hp as [Hp|[<-|[]]].
      * apply Hfk. exact Hp.
      * exact Hrid.
Qed.

Lemma consistent_absent d d' rid rows3 :
  consistent d ->
  Sync.update_hasPackageJson_rows rid false (Sync.repositories d)
  = Some rows3 ->
  Sync.repositories d' = rows3 ->
  Sync.packageJsons d'
  = Sync.delete_packageJson_rows rid (Sync.packageJsons d) ->
  consistent d'.
Proof.
  intros [Hinv Hfk] Hupd Hrepos Hpjs. split.
  - intros r' Hin. rewrite Hrepos in Hin.
    destruct (update_rows_In _ _ _ _ _ Hupd Hin) as [r [Hr [Hid Hhas]]].
    unfold has_manifest_row. rewrite Hpjs, has_row_delete, Hhas, Hid.
    destruct (Sync.repo_id r =? rid); [reflexivity|].
    cbn. apply Hinv. exact Hr.
  - intros p Hp. rewrite Hpjs in Hp. rewrite Hrepos.
    apply existsb_id_In. rewrite (update_rows_ids _ _ _ _ Hupd).
    apply existsb_id_In. apply Hfk.
    unfold Sync.delete_packageJson_rows in Hp.
    apply filter_In in Hp. tauto.
Qed.

Lemma unit_of_work_consistent github JSON_parse organization r now d :
  consistent d ->
  consistent (database (unit_of_work github JSON_parse organization r now d)).
Proof.
  intros Hd. unfold unit_of_work.
  destruct (Sync.upsert_repository_rows _ _ _ _) as [c|[rows1 repository]]
    eqn:Hupsert; [exact Hd|].
  pose proof (consistent_extends d rows1 (upsert_extends _ _ _ _ _ _ Hupsert)
                Hd) as Hd1.
  destruct (_ && _).
  - destruct (JSON_parse _) as [packageJson|]; [|exact Hd].
    destruct packageJson; try exact Hd;
      (destruct (_ <=? _); [exact Hd|]);
      match goal with
      | |- context [Sync.update_hasPackageJson_rows ?i ?b ?rows] =>
          destruct (Sync.update_hasPackageJson_rows i b rows) eqn:Hupd
      end; try exact Hd;
      cbn [database];
      (eapply consistent_present; [exact Hd1 | exact Hupd | | ]; reflexivity).
  - destruct (_ =? 404).
    + destruct (_ <=? _); [exact Hd|].
      match goal with
      | |- context [Sync.update_hasPackageJson_rows ?i ?b ?rows] =>
          destruct (Sync.update_hasPackageJson_rows i b rows) eqn:Hupd
      end; [|exact Hd].
      cbn [database].
      eapply consistent_absent; [exact Hd1 | exact Hupd | | ]; reflexivity.
    + destruct (_ <=? _); [exact Hd | exact Hd1].
Qed.

(** ** The same invariant in the route *)

Lemma bind_normal_inv {S A B} (m : M S A) (k : A -> M S B) s s' b :
  bind m k s = (s', Normal b) ->
  exists a s1, m s = (s1, Normal a) /\ k a s1 = (s', Normal b).
Proof.
  unfold bind. destruct (m s) as [s1 [a|e]]; [eauto | discriminate].
Qed.

Lemma by_full_name_extends random_id organization orgName repoName details
    t1 t2 rows rows' r :
  Route.upsert_by_full_name_rows random_id organization orgName repoName
    details t1 t2 rows = inr (rows', r) ->
  extends rows rows' /\ In (Sync.repo_id r) (map Sync.repo_id rows').
Proof.
  unfold Route.upsert_by_full_name_rows.
  destruct (find _ rows) as [r0|] eqn:Hfind.
  - destruct (existsb _ rows); [discriminate|].
    intros [= <- <-]. split; [split|].
    + intros r' Hin. apply in_map_iff in Hin. destruct Hin as [x [<- Hin]].
      left. exists x. split; [exact Hin|].
      destruct (Sync.repo_id x =? Sync.repo_id r0); split; reflexivity.
    + intros i Hin. rewrite map_map. erewrite map_ext; [exact Hin|].
      intros x. cbn.
      destruct (Sync.repo_id x =? Sync.repo_id r0); reflexivity.
    + rewrite map_map. apply find_some_In in Hfind.
      apply in_map_iff. exists r0. split; [|exact Hfind].
      rewrite Z.eqb_refl. reflexivity.
  - match goal with
    | |- context [if ?b then inl "repositories_pkey" else _] =>
        destruct b eqn:Hpk
    end; [discriminate|].
    match goal with
    | |- context [if ?b then inl "repositories_github_id_key" else _] =>
        destruct b
    end; [discriminate|].
    intros [= <- <-]. split; [split|].
    + intros r' Hin. apply in_app_iff in Hin.
      destruct Hin as [Hin|[<-|[]]].
      * left. exists r'. repeat split. exact Hin.
      * right. split; [|reflexivity]. cbn [Sync.repo_id].
        intros Hin. apply existsb_id_In in Hin. congruence.
    + intros i Hin. rewrite map_app. apply in_or_app. now left.
    + rewrite map_app. apply in_or_app. right. now left.
Qed.

Lemma route_query_inv {A} tx (q : M Route.Machine A) s s' a :
  Route.query tx q s = (s', Normal a) -> q s = (s', Normal a).
Proof.
  unfold Route.query. destruct (Route.expired tx s); [discriminate|tauto].
Qed.

Lemma route_body_consistent github JSON_parse JSON_stringify random_id
    orgName repoName tx s s' message :
  consistent (Route.db s) ->
  Route.transaction_body github JSON_parse JSON_stringify random_id
    orgName repoName tx s = (s', Normal message) ->
  consistent (Route.db s').
Proof.
  intros Hd Hbody. unfold Route.transaction_body in Hbody.
  apply bind_normal_inv in Hbody.
  destruct Hbody as [organization [s1 [Horg Hbody]]].
  assert (Hd1 : consistent (Route.db s1)).
  { unfold Route.organizations_upsert in Horg.
    apply route_query_inv in Horg.
    destruct (find _ _).
    - injection Horg as <- _. exact Hd.
    - destruct (existsb _ _); [discriminate|].
      injection Horg as <- _. cbn.
      eapply consistent_tables; [| |exact Hd]; reflexivity. }
  clear Hd Horg.
  apply bind_normal_inv in Hbody.
  destruct Hbody as [details [s2 [Hdet Hbody]]].
  assert (Hd2 : consistent (Route.db s2)).
  { unfold Route.getRepositoryDetails in Hdet.
    apply bind_normal_inv in Hdet. destruct Hdet as [[] [s1' [Hel Hdet]]].
    unfold Route.elapse, modify in Hel. injection Hel as <-.
    destruct (Route.repos_get _ _ _) as [x|st].
    - unfold ret in Hdet. injection Hdet as <- _. exact Hd1.
    - destruct (Route.is_404 st); discriminate. }
  clear Hd1 Hdet s1.
  apply bind_normal_inv in Hbody. destruct Hbody as [t1 [s3' [Ht1 Hbody]]].
  apply bind_normal_inv in Hbody. destruct Hbody as [t2 [s3 [Ht2 Hbody]]].
  assert (Hd3 : consistent (Route.db s3)).
  { unfold Route.new_Date in *. injection Ht1 as <- _.
    injection Ht2 as <- _. exact Hd2. }
  clear Hd2 Ht1 Ht2 s2 s3'.
  apply bind_normal_inv in Hbody.
  destruct Hbody as [repository [s4 [Hups Hbody]]].
  unfold Route.repositories_upsert in Hups. apply route_query_inv in Hups.
  destruct (Route.upsert_by_full_name_rows _ _ _ _ _ _ _ _)
    as [c|[rows' r]] eqn:Hrows; [discriminate|].
  injection Hups as <- <-.
  destruct (by_full_name_extends _ _ _ _ _ _ _ _ _ _ Hrows) as [Hext Hin].
  pose proof (consistent_extends _ _ Hext Hd3) as Hd4.
  apply bind_normal_inv in Hbody.
  destruct Hbody as [content [s5 [Hget Hbody]]].
  assert (Hs5 : Route.db s5 = Sync.set_repositories rows' (Route.db s3)).
  { unfold Route.getPackageJsonContent in Hget.
    apply bind_normal_inv in Hget. destruct Hget as [[] [s4' [Hel Hget]]].
    unfold Route.elapse, modify in Hel. injection Hel as <-.
    destruct (Route.repos_getContent _ _ _) as [[x|]|st].
    - unfold ret in Hget. injection Hget as <- _. reflexivity.
    - discriminate.
    - destruct (Route.is_404 st); [|discriminate].
      unfold ret in Hget. injection Hget as <- _. reflexivity. }
  rewrite <- Hs5 in Hd4. clear Hget Hd3 Hext Hin Hrows Hs5.
  destruct (negb (Sync.string_truthy content)).
  - apply bind_normal_inv in Hbody. destruct Hbody as [[] [s6 [Hdel Hbody]]].
    unfold Route.package_jsons_deleteMany in Hdel.
    apply route_query_inv in Hdel.
    unfold Route.update_db, modify in Hdel.
    injection Hdel as <-.
    apply bind_normal_inv in Hbody. destruct Hbody as [[] [s7 [Hupd Hbody]]].
    unfold ret in Hbody. injection Hbody as <- _.
    unfold Route.repositories_update_has_package_json in Hupd.
    apply route_query_inv in Hupd.
    cbn [Route.db Sync.repositories Sync.set_packageJsons] in Hupd.
    destruct (Sync.update_hasPackageJson_rows _ _ _) as [rows3|] eqn:Hrows3;
      [|discriminate].
    injection Hupd as <-. cbn [Route.db].
    eapply consistent_absent; [exact Hd4 | exact Hrows3 | | ]; reflexivity.
  - apply bind_normal_inv in Hbody.
    destruct Hbody as [packageJson [s6 [Hparse Hbody]]].
    assert (s6 = s5).
    { destruct (JSON_parse _); [unfold ret in Hparse; congruence
                               | discriminate]. }
    subst s6. clear Hparse.
    apply bind_normal_inv in Hbody. destruct Hbody as [[] [s7 [Hupd Hbody]]].
    unfold Route.repositories_update_has_package_json in Hupd.
    apply route_query_inv in Hupd.
    destruct (Sync.update_hasPackageJson_rows _ _ _) as [rows3|] eqn:Hrows3;
      [|discriminate].
    injection Hupd as <-.
    apply bind_normal_inv in Hbody. destruct Hbody as [[] [s8 [Hnull Hbody]]].
    assert (s8 = {| Route.db := Sync.set_repositories rows3 (Route.db s5);
                    Route.clock := Route.clock s5 |}).
    { destruct packageJson; try discriminate; unfold ret in Hnull;
        congruence. }
    subst s8. clear Hnull.
    apply bind_normal_inv in Hbody. destruct Hbody as [t3 [s9 [Ht3 Hbody]]].
    apply bind_normal_inv in Hbody. destruct Hbody as [t4 [s10 [Ht4 Hbody]]].
    unfold Route.new_Date in Ht3, Ht4.
    injection Ht3 as <- _. injection Ht4 as <- _.
    apply bind_normal_inv in Hbody. destruct Hbody as [[] [s11 [Hpj Hbody]]].
    unfold ret in Hbody. injection Hbody as <- _.
    unfold Route.package_jsons_upsert in Hpj. apply route_query_inv in Hpj.
    unfold Route.update_db, modify in Hpj.
    injection Hpj as <-. cbn [Route.db].
    eapply consistent_present; [exact Hd4 | exact Hrows3 | | ]; reflexivity.
Qed.

Lemma route_POST_consistent github JSON_parse JSON_stringify random_id
    error_text orgName repoName s :
  consistent (Route.db s) ->
  consistent (Route.db (fst (Route.POST github JSON_parse JSON_stringify
                               random_id error_text orgName repoName s))).
Proof.
  intros Hd. unfold Route.POST.
  destruct (_ || _); [exact Hd|].
  unfold try_catch, bind, Route.transaction.
  destruct (Route.transaction_body _ _ _ _ _ _ _ s) as [s' [message|e]]
    eqn:Hbody.
  - destruct (Route.expired _ s'); cbn; [exact Hd|].
    eapply route_body_consistent; eassumption.
  - cbn. exact Hd.
Qed.

(** ** C3: the flag is true exactly when a manifest row exists *)

Lemma run_consistent github JSON_parse schedule error_text orgName d time :
  consistent d ->
  consistent
    (Sync.db (fst (Sync.syncOrganizationRepos github JSON_parse schedule
                     error_text orgName (Sync.start d time)))).
Proof.
  intros Hd.
  destruct (organization_upsert_normal orgName (Sync.start d time))
    as [s1 [organization [Horg [Hrepos [Hpjs _]]]]].
  assert (Hd1 : consistent (Sync.db s1)).
  { eapply consistent_tables; [exact Hrepos | exact Hpjs | exact Hd]. }
  destruct (Sync.paginate_listForOrg github orgName) as [pages|error]
    eqn:Hpages.
  - destruct (syncOrganizationRepos_success github JSON_parse schedule
                error_text orgName _ pages s1 organization Hpages Horg)
      as [s' [Hrun ->]].
    cbn [fst].
    destruct (run_batches_ind github JSON_parse schedule organization
                (Z.of_nat ((List.length (List.concat pages)
                            + Sync.BATCH_SIZE - 1) / Sync.BATCH_SIZE))
                (fun _ s => consistent (Sync.db s))) with
      (batches := chunks Sync.BATCH_SIZE (List.concat pages))
      (number := 1) (done := @nil Sync.GithubRepo) (s := s1)
      as [s2 [E2 Hfinal]].
    + intros _ number total size s H. exact H.
    + intros _ ms s H. exact H.
    + intros _ c s H. exact H.
    + intros _ r s H. cbn [after Sync.db].
      apply unit_of_work_consistent. exact H.
    + exact Hd1.
    + rewrite Hrun in E2. injection E2 as <-. exact Hfinal.
  - rewrite (syncOrganizationRepos_failure github JSON_parse schedule
               error_text orgName _ error s1 organization Hpages Horg).
    exact Hd1.
Qed.

(** C3.  In a store with referential integrity in which [hasPackageJson]
    is true exactly for the repositories that have a manifest row, every
    unit of work of [syncOrganizationRepos], whichever way it ends, leaves
    a store with the same two properties; so does a whole run of
    [syncOrganizationRepos], in whichever order the transactions of a
    batch are taken, and so does the handler [POST] of the
    fetch-package-json route. *)
Theorem has_manifest_invariant_preserved :
  forall github JSON_parse schedule error_text organization githubRepo
         (s : Sync.Machine) orgName route_github JSON_stringify random_id
         repoName,
    foreign_keys (Sync.db s) ->
    has_manifest_invariant (Sync.db s) ->
    let unit :=
      Sync.db (fst (Sync.process_repo github JSON_parse organization
                      githubRepo s)) in
    let run :=
      Sync.db (fst (Sync.syncOrganizationRepos github JSON_parse schedule
                      error_text orgName
                      (Sync.start (Sync.db s) (Sync.clock s)))) in
    let post :=
      Route.db (fst (Route.POST route_github JSON_parse JSON_stringify
                       random_id error_text orgName repoName
                       {| Route.db := Sync.db s;
                          Route.clock := Sync.clock s |})) in
    (has_manifest_invariant unit /\ foreign_keys unit)
    /\ (has_manifest_invariant run /\ foreign_keys run)
    /\ (has_manifest_invariant post /\ foreign_keys post).
Proof.
  intros github JSON_parse schedule error_text organization githubRepo s
    orgName route_github JSON_stringify random_id repoName Hfk Hinv
    unit run post.
  assert (Hd : consistent (Sync.db s)) by (split; assumption).
  split; [|split].
  - subst unit. rewrite process_repo_effect. cbn [fst after Sync.db].
    apply unit_of_work_consistent. exact Hd.
  - apply run_consistent. exact Hd.
  - apply (route_POST_consistent route_github JSON_parse JSON_stringify
             random_id error_text orgName repoName
             {| Route.db := Sync.db s; Route.clock := Sync.clock s |}).
    exact Hd.
Qed.

Lemma example_database_foreign_keys : foreign_keys example_database.
Proof. intros p [<-|[]]. reflexivity. Qed.

Lemma example_database_invariant : has_manifest_invariant example_database.
Proof. intros r [<-|[]]. reflexivity. Qed.

(** In a store in which [b] has a manifest: the unit of work for [a],
    whose manifest is new, and the run over [a], [b] and [c] add a
    manifest; the route, for which the manifest of [b] has disappeared
    from the remote state, removes one. *)
Lemma has_manifest_invariant_preserved_witness :
  let s := Sync.start example_database 100 in
  let unit :=
    Sync.db (fst (Sync.process_repo example_github example_parse
                    {| Sync.org_id := 1; Sync.org_name := "o" |}
                    (example_repo 1 "a") s)) in
  let run :=
    Sync.db (fst (Sync.syncOrganizationRepos example_github example_parse
                    in_order example_text "o" s)) in
  let post :=
    Route.db (fst (Route.POST example_route_github example_parse
                     (fun _ => "") 8 example_text "o" "b"
                     {| Route.db := example_database;
                        Route.clock := 100 |})) in
  (has_manifest_invariant unit /\ foreign_keys unit)
  /\ (has_manifest_invariant run /\ foreign_keys run)
  /\ (has_manifest_invariant post /\ foreign_keys post).
Proof.
  exact (has_manifest_invariant_preserved example_github example_parse
           in_order example_text
           {| Sync.org_id := 1; Sync.org_name := "o" |}
           (example_repo 1 "a") (Sync.start example_database 100)
           "o" example_route_github (fun _ => "") 8 "b"
           example_database_foreign_keys example_database_invariant).
Defined.

Example flag_follows_manifest :
  let unit :=
    Sync.db (fst (Sync.process_repo example_github example_parse
                    {| Sync.org_id := 1; Sync.org_name := "o" |}
                    (example_repo 1 "a")
                    (Sync.start example_database 100))) in
  let post :=
    Route.db (fst (Route.POST example_route_github example_parse
                     (fun _ => "") 8 example_text "o" "b"
                     {| Route.db := example_database;
                        Route.clock := 100 |})) in
  map Sync.repo_hasPackageJson (Sync.repositories unit) = [true; true]
  /\ map Sync.pj_repositoryId (Sync.packageJsons unit) = [7; 8]
  /\ map Sync.repo_hasPackageJson (Sync.repositories post) = [false]
  /\ Sync.packageJsons post = [].
Proof. vm_compute. repeat split; reflexivity. Qed.

(** ** C4: a confirmed-absent manifest *)


(** C4, against the code.  When the server answers the request for the
    manifest with 404, the client of lib/github.js, whose [doNotRetry] is
    ["429"] only, sends the request again three times, after 1, 4 and 9
    seconds, before [getPackageJsonContent] returns the status 404; by
    then the transaction, which has the default timeout of 5 seconds, is
    closed.  So the branch for an absent manifest throws at its first
    query: the unit of work completes normally, but it deletes nothing
    and leaves the whole store, the manifest rows of the repository and
    its flag [hasPackageJson] included, as it was; it adds nothing to
    [noPackageJsonCount] and one to [errorCount], and writes the error to
    the console. *)
Theorem absent_manifest_is_not_deleted :
  forall github JSON_parse organization githubRepo (s : Sync.Machine),
    Sync.repos_getContent github (Sync.gh_owner_login githubRepo)
      (Sync.gh_name githubRepo) "package.json"
    = Sync.Rejected (Some 404) ->
    let fetch :=
      Sync.getPackageJsonContent github (Sync.gh_owner_login githubRepo)
        (Sync.gh_name githubRepo) s in
    let result :=
      Sync.process_repo github JSON_parse organization githubRepo s in
    let s' := fst result in
    snd fetch = Normal (None, 404)
    /\ Sync.clock s + 14000 <= Sync.clock (fst fetch)
    /\ snd result = Normal tt
    /\ Sync.db s' = Sync.db s
    /\ Sync.noPackageJsonCount s' = Sync.noPackageJsonCount s
    /\ Sync.successCount s' = Sync.successCount s
    /\ Sync.errorCount s' = Sync.errorCount s + 1
    /\ exists e,
         Sync.console s'
         = Sync.console s
           ++ [Sync.LogCritical (Sync.gh_full_name githubRepo) e]
         /\ (e = TransactionExpired \/ exists c, e = ConstraintViolation c).
Proof.
  intros github JSON_parse organization githubRepo s Hresponse fetch result
    s'.
  assert (Hfetched : fetched github (Sync.gh_owner_login githubRepo)
                       (Sync.gh_name githubRepo) = (None, 404)).
  { unfold fetched. rewrite Hresponse. reflexivity. }
  assert (Hevents : fetch_events github (Sync.gh_owner_login githubRepo)
                      (Sync.gh_name githubRepo) = []).
  { unfold fetch_events. rewrite Hresponse. reflexivity. }
  assert (Htime : 14000 <= fetch_time github (Sync.gh_owner_login githubRepo)
                             (Sync.gh_name githubRepo)).
  { unfold fetch_time. rewrite Hresponse. apply duration_retried; lia. }
  subst fetch result s'.
  rewrite getPackageJsonContent_effect, process_repo_effect.
  cbn [fst snd Sync.clock].
  split; [rewrite Hfetched; reflexivity|].
  split; [lia|].
  split; [reflexivity|].
  unfold unit_of_work. rewrite Hfetched, Hevents. cbn [fst snd].
  change (404 =? 200) with false. cbn [andb]. change (404 =? 404) with true.
  destruct (Sync.upsert_repository_rows _ _ _ _) as [c|[rows1 repository]].
  - unfold after. cbn. repeat split; try lia.
    eexists. split; [reflexivity|]. right. eexists. reflexivity.
  - destruct (Z.leb_spec Sync.TRANSACTION_TIMEOUT
                (1 + fetch_time github (Sync.gh_owner_login githubRepo)
                       (Sync.gh_name githubRepo))) as [_|Hearly];
      [|unfold Sync.TRANSACTION_TIMEOUT in Hearly; lia].
    unfold after. cbn. repeat split; try lia.
    eexists. split; [reflexivity|]. left. reflexivity.
Qed.

(** Repository [b] of the example has a manifest row in the store and none
    in the remote state: the row and the flag stay. *)
Lemma absent_manifest_is_not_deleted_witness :
  let s := Sync.start example_database 100 in
  let fetch := Sync.getPackageJsonContent example_github "o" "b" s in
  let result :=
    Sync.process_repo example_github example_parse
      {| Sync.org_id := 1; Sync.org_name := "o" |} (example_repo 2 "b") s in
  let s' := fst result in
  snd fetch = Normal (None, 404)
  /\ Sync.clock s + 14000 <= Sync.clock (fst fetch)
  /\ snd result = Normal tt
  /\ Sync.db s' = example_database
  /\ Sync.noPackageJsonCount s' = 0
  /\ Sync.successCount s' = 0
  /\ Sync.errorCount s' = 0 + 1
  /\ exists e,
       Sync.console s' = [] ++ [Sync.LogCritical "o/b" e]
       /\ (e = TransactionExpired \/ exists c, e = ConstraintViolation c).
Proof.
  exact (absent_manifest_is_not_deleted example_github example_parse
           {| Sync.org_id := 1; Sync.org_name := "o" |}
           (example_repo 2 "b") (Sync.start example_database 100) eq_refl).
Defined.

Example absent_manifest_stays :
  let s' :=
    fst (Sync.process_repo example_github example_parse
           {| Sync.org_id := 1; Sync.org_name := "o" |}
           (example_repo 2 "b") (Sync.start example_database 100)) in
  map Sync.repo_hasPackageJson (Sync.repositories (Sync.db s')) = [true]
  /\ map Sync.pj_repositoryId (Sync.packageJsons (Sync.db s')) = [7]
  /\ Sync.console s' = [Sync.LogCritical "o/b" TransactionExpired]
  /\ Sync.clock s' = 100 + 1 + 4 * 120 + 14000.
Proof. vm_compute. repeat split; reflexivity. Qed.

(** ** C2: a fetch that fails with another status *)

(** C2, as the code has it.  When the fetch of the manifest answers
    neither 404 nor 200 with content, the unit of work completes normally
    (the batch goes on), leaves every manifest row as it was, leaves
    [hasPackageJson] of every repository row as it was, writes the error
    to the console with the full name of the repository, and adds to
    [errorCount] and nothing to the other two counters.  The repository
    row itself is not left alone when the fetch has settled before the
    transaction is closed: the transaction is then committed, so the
    table [repositories] is what the upsert made of it, with the metadata
    refreshed and [lastFetchedAt] set to the time of the attempt (or a new
    row created), and the error is counted once.  When the fetch has taken
    until after the timeout of the transaction, the commit fails: the
    table is as it was, and the error is counted twice.  When the upsert
    itself fails the table is as it was and the error is counted once. *)
Theorem failed_fetch_keeps_manifest_and_flag :
  forall github JSON_parse organization githubRepo (s : Sync.Machine)
         content status,
    let fetch :=
      Sync.getPackageJsonContent github (Sync.gh_owner_login githubRepo)
        (Sync.gh_name githubRepo) s in
    snd fetch = Normal (content, status) ->
    status <> 404 ->
    (status =? 200) && Sync.string_truthy content = false ->
    let closed :=
      Sync.TRANSACTION_TIMEOUT
      <=? 1 + (Sync.clock (fst fetch) - Sync.clock s) in
    let upsert :=
      Sync.upsert_repository_rows (Sync.gh_id githubRepo)
        (Sync.commonRepoData organization githubRepo (Sync.clock s))
        (Sync.commonRepoData organization githubRepo (Sync.clock s))
        (Sync.repositories (Sync.db s)) in
    let result :=
      Sync.process_repo github JSON_parse organization githubRepo s in
    let s' := fst result in
    snd result = Normal tt
    /\ Sync.packageJsons (Sync.db s') = Sync.packageJsons (Sync.db s)
    /\ (forall r, In r (Sync.repositories (Sync.db s)) ->
          exists r', In r' (Sync.repositories (Sync.db s'))
                     /\ Sync.repo_id r' = Sync.repo_id r
                     /\ Sync.repo_hasPackageJson r'
                        = Sync.repo_hasPackageJson r)
    /\ Sync.repositories (Sync.db s')
       = match upsert with
         | inl _ => Sync.repositories (Sync.db s)
         | inr (rows1, _) =>
             if closed then Sync.repositories (Sync.db s) else rows1
         end
    /\ Sync.errorCount s'
       = Sync.errorCount s
         + match upsert with
           | inl _ => 1
           | inr _ => if closed then 2 else 1
           end
    /\ Sync.successCount s' = Sync.successCount s
    /\ Sync.noPackageJsonCount s' = Sync.noPackageJsonCount s
    /\ ((exists st,
            In (Sync.LogErrorStatus (Sync.gh_full_name githubRepo) st)
               (Sync.console s'))
        \/ (exists e,
               In (Sync.LogCritical (Sync.gh_full_name githubRepo) e)
                  (Sync.console s'))).
Proof.
  intros github JSON_parse organization githubRepo s content status fetch
    Hfetch H404 H200 closed upsert result s'.
  subst fetch closed upsert s' result.
  rewrite getPackageJsonContent_effect in *. cbn [fst snd Sync.clock] in *.
  injection Hfetch as Hfetch.
  rewrite process_repo_effect. cbn [fst snd].
  split; [reflexivity|].
  replace (Sync.clock s
           + fetch_time github (Sync.gh_owner_login githubRepo)
               (Sync.gh_name githubRepo) - Sync.clock s)
    with (fetch_time github (Sync.gh_owner_login githubRepo)
            (Sync.gh_name githubRepo)) by lia.
  unfold unit_of_work. rewrite Hfetch. cbn [fst snd]. rewrite H200.
  apply Z.eqb_neq in H404. rewrite H404.
  destruct (Sync.upsert_repository_rows _ _ _ _) as [c|[rows1 repository]]
    eqn:Hupsert;
    [|destruct (_ <=? _)];
    cbn [after database outcome Sync.db Sync.repositories Sync.packageJsons
         Sync.set_repositories Sync.noPackageJsonCount Sync.successCount
         Sync.errorCount Sync.console is_processed is_noPackageJson
         errors_of events_of Z_of_bool].
  - repeat split; try lia.
    + intros r Hr. exists r. repeat split. exact Hr.
    + right. eexists. apply in_or_app. right. apply in_or_app. right.
      left. reflexivity.
  - repeat split; try lia.
    + intros r Hr. exists r. repeat split. exact Hr.
    + left. eexists. apply in_or_app. right. apply in_or_app. right.
      left. reflexivity.
  - repeat split; try lia.
    + intros r Hr.
      unfold Sync.upsert_repository_rows in Hupsert.
      destruct (find _ _) as [r0|].
      * destruct (Sync.unique_conflict _ _ _ _); [discriminate|].
        injection Hupsert as <- _.
        eexists. split; [apply in_map; exact Hr|].
        destruct (Sync.repo_id r =? Sync.repo_id r0); split; reflexivity.
      * destruct (Sync.unique_conflict _ _ _ _); [discriminate|].
        injection Hupsert as <- _.
        exists r. split; [apply in_or_app; now left|]. split; reflexivity.
    + left. eexists. apply in_or_app. right. apply in_or_app. right.
      left. reflexivity.
Qed.

(** The manifest of [b] is answered with 502, after three retries: the
    store stays as it was and the error is counted twice. *)
Lemma failed_fetch_keeps_manifest_and_flag_witness :
  let s := Sync.start example_database 100 in
  let fetch := Sync.getPackageJsonContent example_github_unreachable "o" "b" s in
  let closed :=
    Sync.TRANSACTION_TIMEOUT <=? 1 + (Sync.clock (fst fetch) - Sync.clock s) in
  let upsert :=
    Sync.upsert_repository_rows 2
      (Sync.commonRepoData {| Sync.org_id := 1; Sync.org_name := "o" |}
         (example_repo 2 "b") 100)
      (Sync.commonRepoData {| Sync.org_id := 1; Sync.org_name := "o" |}
         (example_repo 2 "b") 100)
      (Sync.repositories example_database) in
  let result :=
    Sync.process_repo example_github_unreachable example_parse
      {| Sync.org_id := 1; Sync.org_name := "o" |} (example_repo 2 "b") s in
  let s' := fst result in
  snd result = Normal tt
  /\ Sync.packageJsons (Sync.db s') = Sync.packageJsons (Sync.db s)
  /\ (forall r, In r (Sync.repositories (Sync.db s)) ->
        exists r', In r' (Sync.repositories (Sync.db s'))
                   /\ Sync.repo_id r' = Sync.repo_id r
                   /\ Sync.repo_hasPackageJson r'
                      = Sync.repo_hasPackageJson r)
  /\ Sync.repositories (Sync.db s')
     = match upsert with
       | inl _ => Sync.repositories example_database
       | inr (rows1, _) =>
           if closed then Sync.repositories example_database else rows1
       end
  /\ Sync.errorCount s'
     = Sync.errorCount s
       + match upsert with
         | inl _ => 1
         | inr _ => if closed then 2 else 1
         end
  /\ Sync.successCount s' = Sync.successCount s
  /\ Sync.noPackageJsonCount s' = Sync.noPackageJsonCount s
  /\ ((exists st, In (Sync.LogErrorStatus "o/b" st) (Sync.console s'))
      \/ (exists e, In (Sync.LogCritical "o/b" e) (Sync.console s'))).
Proof.
  apply (failed_fetch_keeps_manifest_and_flag example_github_unreachable
           example_parse {| Sync.org_id := 1; Sync.org_name := "o" |}
           (example_repo 2 "b") (Sync.start example_database 100)
           None 502).
  - reflexivity.
  - lia.
  - reflexivity.
Defined.

(** C2 as stated fails: [package.json] of [b] is a directory, so that the
    fetch fails, with the status 500, after one request of 120 ms; the
    transaction is committed and the repository row of [b] is rewritten:
    its [lastFetchedAt] moves from 50 to the time of the attempt. *)
Lemma failed_fetch_rewrites_repository :
  let s := Sync.start example_database 100 in
  let fetch := Sync.getPackageJsonContent example_github_directory "o" "b" s in
  let s' :=
    fst (Sync.process_repo example_github_directory example_parse
           {| Sync.org_id := 1; Sync.org_name := "o" |}
           (example_repo 2 "b") s) in
  snd fetch = Normal (None, 500)
  /\ Sync.clock (fst fetch) = Sync.clock s + 120
  /\ map Sync.repo_lastFetchedAt (Sync.repositories (Sync.db s)) = [Some 50]
  /\ map Sync.repo_lastFetchedAt (Sync.repositories (Sync.db s'))
     = [Some 100]
  /\ Sync.repositories (Sync.db s') <> Sync.repositories (Sync.db s)
  /\ Sync.errorCount s' = 1.
Proof.
  vm_compute. repeat split. discriminate.
Qed.

Example failed_fetch_after_timeout :
  let s := Sync.start example_database 100 in
  let s' :=
    fst (Sync.process_repo example_github_unreachable example_parse
           {| Sync.org_id := 1; Sync.org_name := "o" |}
           (example_repo 2 "b") s) in
  Sync.db s' = example_database
  /\ Sync.errorCount s' = 2
  /\ Sync.console s'
     = [Sync.LogFetchError "o" "b"; Sync.LogErrorStatus "o/b" 502;
        Sync.LogCritical "o/b" TransactionExpired].
Proof. vm_compute. repeat split; reflexivity. Qed.

(** ** C10: the search for manifests never fails *)

Section ContentInduction.

Import GitHubService.

Variable P : Content -> Prop.
Variable Q : Item -> Prop.
Hypothesis P_Failure : forall status, P (Failure status).
Hypothesis P_Listing : forall items, Forall Q items -> P (Listing items).
Hypothesis P_Single : forall item, Q item -> P (Single item).
Hypothesis Q_File : forall name p, Q (ItemFile name p).
Hypothesis Q_Dir : forall name p content, P content -> Q (ItemDir name p content).
Hypothesis Q_Other : forall type name p, Q (ItemOther type name p).

(** Induction over a tree of answers and the items they list. *)
Fixpoint Content_tree_ind (response : Content) : P response :=
  match response with
  | Failure status => P_Failure status
  | Listing items =>
      P_Listing items
        ((fix all (l : list Item) : Forall Q l :=
            match l with
            | [] => Forall_nil Q
            | item :: l' => Forall_cons item (Item_tree_ind item) (all l')
            end) items)
  | Single item => P_Single item (Item_tree_ind item)
  end
with Item_tree_ind (item : Item) : Q item :=
  match item with
  | ItemFile name p => Q_File name p
  | ItemDir name p content => Q_Dir name p content (Content_tree_ind content)
  | ItemOther type name p => Q_Other type name p
  end.

End ContentInduction.

Section Search.

Import GitHubService.

Lemma search_spec items :
  Forall visit_spec items ->
  forall f,
    search findAllPackageJsons items f
    = ({| packageJsons := packageJsons f ++ flat_map item_manifests items;
          console := console f ++ flat_map item_log items |}, Normal tt).
Proof.
  induction 1 as [|item items Hitem _ IH]; intros f.
  - cbn. rewrite !app_nil_r. destruct f; reflexivity.
  - cbn [search flat_map]. unfold bind. rewrite Hitem, IH. cbn.
    rewrite !app_assoc. reflexivity.
Qed.

(** The search returns the manifests of the tree and logs the listings
    that failed; it completes normally whatever the answers are. *)
Lemma findAllPackageJsons_spec response :
  forall path log,
    findAllPackageJsons path response log
    = (log ++ search_log path response, Normal (manifests response)).
Proof.
  apply (Content_tree_ind
           (fun response =>
              forall path log,
                findAllPackageJsons path response log
                = (log ++ search_log path response,
                   Normal (manifests response)))
           visit_spec).
  - intros [status|] path log.
    + cbn. unfold try_catch, throw, handler.
      destruct status as [|p|p]; try reflexivity.
      do 9 (destruct p as [p|p|]; try reflexivity).
      cbn. rewrite app_nil_r. reflexivity.
    + reflexivity.
  - intros items Hitems path log.
    cbn [findAllPackageJsons search_log manifests]. unfold try_catch.
    rewrite (search_spec items Hitems). reflexivity.
  - intros item Hitem path log.
    cbn [findAllPackageJsons search_log manifests]. unfold try_catch.
    rewrite (search_spec [item] (Forall_cons _ Hitem (Forall_nil _))).
    cbn. rewrite !app_nil_r. reflexivity.
  - intros name p f. cbn.
    destruct (name =? "package.json")%string; cbn;
      rewrite ?app_nil_r; destruct f; reflexivity.
  - intros name p content IH f. cbn.
    destruct (shouldSkipDirectory name); cbn.
    + rewrite !app_nil_r. destruct f; reflexivity.
    + rewrite IH. reflexivity.
  - intros type name p f. cbn. rewrite !app_nil_r. destruct f; reflexivity.
Qed.

End Search.

(** C10.  [findAllPackageJsons] never throws: whatever the remote API
    answers for the path and for the directories below it, the call
    completes normally with a list of paths.  When the listing of the path
    itself fails, with 404 or any other status, the list is empty; when the
    listing of a directory further down fails, that directory contributes
    nothing and the paths found in the other entries, before and after it,
    are still returned, so the result is the partial list and not an
    error. *)
Theorem findAllPackageJsons_never_throws :
  (forall path response log,
      exists log' paths,
        GitHubService.findAllPackageJsons path response log
        = (log', Normal paths))
  /\ (forall path status log,
         snd (GitHubService.findAllPackageJsons path
                (GitHubService.Failure status) log) = Normal [])
  /\ (forall path before name p status after log,
         GitHubService.shouldSkipDirectory name = false ->
         snd (GitHubService.findAllPackageJsons path
                (GitHubService.Listing
                   (before
                    ++ GitHubService.ItemDir name p
                         (GitHubService.Failure status) :: after)) log)
         = snd (GitHubService.findAllPackageJsons path
                  (GitHubService.Listing (before ++ after)) log)).
Proof.
  split; [|split].
  - intros path response log. rewrite findAllPackageJsons_spec. eauto.
  - intros path status log. rewrite findAllPackageJsons_spec. reflexivity.
  - intros path before name p status after log Hskip.
    rewrite !findAllPackageJsons_spec. cbn [snd manifests]. f_equal.
    rewrite !flat_map_app. cbn [flat_map item_manifests].
    rewrite Hskip. reflexivity.
Qed.

Lemma findAllPackageJsons_never_throws_witness :
  snd (GitHubService.findAllPackageJsons ""
         (GitHubService.Listing
            ([GitHubService.ItemFile "package.json" "package.json"]
             ++ GitHubService.ItemDir "broken" "broken"
                  (GitHubService.Failure (Some 500))
                :: [GitHubService.ItemDir "web" "web"
                      (GitHubService.Listing
                         [GitHubService.ItemFile "package.json"
                            "web/package.json"])])) [])
  = snd (GitHubService.findAllPackageJsons ""
           (GitHubService.Listing
              ([GitHubService.ItemFile "package.json" "package.json"]
               ++ [GitHubService.ItemDir "web" "web"
                     (GitHubService.Listing
                        [GitHubService.ItemFile "package.json"
                           "web/package.json"])])) []).
Proof.
  exact (proj2 (proj2 findAllPackageJsons_never_throws) ""
           [GitHubService.ItemFile "package.json" "package.json"]
           "broken" "broken" (Some 500)
           [GitHubService.ItemDir "web" "web"
              (GitHubService.Listing
                 [GitHubService.ItemFile "package.json" "web/package.json"])]
           [] eq_refl).
Defined.

Example partial_result :
  GitHubService.findAllPackageJsons "" example_tree []
  = ([GitHubService.LogSearchFailed "broken" (Some 500)],
     Normal ["package.json"; "web/package.json"]).
Proof. reflexivity. Qed.

(** ** C6: people *)

Lemma person_row_without_name projectId role p :
  Analyzer.has_name p = false -> Analyzer.person_row projectId role p = [].
Proof.
  unfold Analyzer.person_row. intros H.
  destruct (Analyzer.p_name p); [rewrite H|]; reflexivity.
Qed.

Lemma person_row_named projectId role p row :
  In row (Analyzer.person_row projectId role p) ->
  Analyzer.person_name row <> ""%string
  /\ Analyzer.p_name p = Some (Analyzer.person_name row).
Proof.
  unfold Analyzer.person_row, Analyzer.has_name.
  destruct (Analyzer.p_name p) as [name|]; [|intros []].
  destruct (String.eqb_spec name ""); cbn; [intros []|].
  intros [<-|[]]. cbn. split; [assumption | reflexivity].
Qed.

(** C6.  With [parsePersonString] as the specification describes it, the
    text "Jane Doe <jane@x.com> (https://x.com)" is parsed into the name
    "Jane Doe", the email "jane@x.com" and the URL "https://x.com", and as
    the author of a manifest it gives one AUTHOR row with these values.
    [preparePeopleData] is a total function (it raises no error); every row
    it produces has a non-empty name; an author from which no name
    resolves gives no row, and a contributor or maintainer from which no
    name resolves is dropped while the rows of the others are kept. *)
Theorem people_are_parsed_and_nameless_dropped :
  Analyzer.parsePersonString (JStr "Jane Doe <jane@x.com> (https://x.com)")
  = {| Analyzer.p_name := Some "Jane Doe";
       Analyzer.p_email := Some "jane@x.com";
       Analyzer.p_url := Some "https://x.com" |}
  /\ (forall projectId,
         Analyzer.preparePeopleData projectId
           (JObj [("author",
                   JStr "Jane Doe <jane@x.com> (https://x.com)")])
         = [{| Analyzer.person_projectId := projectId;
               Analyzer.person_name := "Jane Doe";
               Analyzer.person_email := Some "jane@x.com";
               Analyzer.person_url := Some "https://x.com";
               Analyzer.person_role := Analyzer.AUTHOR |}])
  /\ (forall projectId pkg row,
         In row (Analyzer.preparePeopleData projectId pkg) ->
         Analyzer.person_name row <> ""%string)
  /\ (forall projectId person,
         Analyzer.has_name (Analyzer.parsePersonString person) = false ->
         Analyzer.preparePeopleData projectId (JObj [("author", person)])
         = [])
  /\ (forall projectId key before person after,
         (key = "contributors" \/ key = "maintainers")%string ->
         Analyzer.has_name (Analyzer.parsePersonString person) = false ->
         Analyzer.preparePeopleData projectId
           (JObj [(key, JArr (before ++ person :: after))])
         = Analyzer.preparePeopleData projectId
             (JObj [(key, JArr (before ++ after))])).
Proof.
  split; [reflexivity|].
  split; [intros projectId; reflexivity|].
  split; [|split].
  - intros projectId pkg row Hin. unfold Analyzer.preparePeopleData in Hin.
    apply in_app_iff in Hin. destruct Hin as [Hin|Hin].
    + destruct (truthy _); [|destruct Hin].
      apply person_row_named in Hin. tauto.
    + apply in_app_iff in Hin.
      destruct Hin as [Hin|Hin]; apply in_flat_map in Hin;
        destruct Hin as [p [_ Hin]]; apply person_row_named in Hin; tauto.
  - intros projectId person Hname. unfold Analyzer.preparePeopleData.
    cbn [member assoc String.eqb Ascii.eqb Bool.eqb].
    cbn [Analyzer.array_items flat_map app].
    rewrite app_nil_r.
    destruct (truthy (Some person)) eqn:Ht; [|reflexivity].
    unfold or_else. rewrite Ht.
    apply person_row_without_name. exact Hname.
  - intros projectId key before person after Hkey Hname.
    unfold Analyzer.preparePeopleData.
    destruct Hkey as [-> | ->]; cbn [member assoc]; cbn;
      rewrite !flat_map_app; cbn [flat_map];
      rewrite (person_row_without_name _ _ _ Hname); reflexivity.
Qed.

Lemma people_are_parsed_and_nameless_dropped_witness :
  (In {| Analyzer.person_projectId := 7;
         Analyzer.person_name := "Bob";
         Analyzer.person_email := None;
         Analyzer.person_url := None;
         Analyzer.person_role := Analyzer.CONTRIBUTOR |}
      (Analyzer.preparePeopleData 7
         (JObj [("contributors", JArr [JStr "Bob"])]))
   -> "Bob"%string <> ""%string)
  /\ Analyzer.preparePeopleData 7 (JObj [("author", JStr "<jane@x.com>")])
     = []
  /\ Analyzer.preparePeopleData 7
       (JObj [("contributors",
               JArr ([JStr "Bob"] ++ JStr " (https://x.com) " :: [JNull]))])
     = Analyzer.preparePeopleData 7
         (JObj [("contributors", JArr ([JStr "Bob"] ++ [JNull]))]).
Proof.
  destruct people_are_parsed_and_nameless_dropped
    as [_ [_ [Hnamed [Hauthor Hothers]]]].
  split; [|split].
  - exact (Hnamed 7 (JObj [("contributors", JArr [JStr "Bob"])]) _).
  - exact (Hauthor 7 (JStr "<jane@x.com>") eq_refl).
  - exact (Hothers 7 "contributors"%string [JStr "Bob"]
             (JStr " (https://x.com) ") [JNull] (or_introl eq_refl) eq_refl).
Defined.

(** ** C7: replacement of the child rows *)

(** [saveDependencies] replaces: afterwards the rows of the project are
    exactly those prepared from the manifest, and the rows of the other
    projects are as before. *)
Lemma saveDependencies_replaces projectId pkg s :
  let s' := fst (Analyzer.saveDependencies projectId pkg s) in
  snd (Analyzer.saveDependencies projectId pkg s) = Normal tt
  /\ Analyzer.projectDependencies (Analyzer.db s')
     = filter (fun r => negb (Analyzer.dep_projectId r =? projectId))
         (Analyzer.projectDependencies (Analyzer.db s))
       ++ Analyzer.prepareDependenciesData projectId pkg.
Proof.
  unfold Analyzer.saveDependencies, bind,
    Analyzer.projectDependency_deleteMany,
    Analyzer.projectDependency_createMany, Analyzer.update_db, modify.
  generalize (Analyzer.prepareDependenciesData projectId pkg).
  intros [|r l]; cbn; rewrite ?app_nil_r; split; reflexivity.
Qed.

Example saveDependencies_drops_x sha256_hex :
  let first :=
    fst (Analyzer.processBatch sha256_hex [(manifest_v1, example_gitInfo)]
           {| Analyzer.db := empty_projects; Analyzer.clock := 0 |}) in
  let second :=
    fst (Analyzer.saveDependencies 1 manifest_v2 first) in
  dependency_names (Analyzer.db first) = ["x"]%string
  /\ dependency_names (Analyzer.db second) = ["y"]%string.
Proof. split; reflexivity. Qed.

(** C7 at the failing input.  [processBatch] is given a batch in which the
    same package occurs twice, first as version 1 (with dependency [x]),
    then as version 2 (which has dropped [x]).  Both entries resolve to
    project 1; the loop deletes the rows of project 1 twice, before
    anything is inserted, and the rows of both versions are then inserted
    together.  The row of [x] is still there, although the manifest
    analysed last gives the row of [y] only. *)
Theorem processBatch_merges_repeated_project :
  forall sha256_hex,
    let s' :=
      fst (Analyzer.processBatch sha256_hex
             [(manifest_v1, example_gitInfo); (manifest_v2, example_gitInfo)]
             {| Analyzer.db := empty_projects; Analyzer.clock := 0 |}) in
    map Analyzer.project_id (Analyzer.projects (Analyzer.db s')) = [1]
    /\ map Analyzer.dep_projectId
         (Analyzer.projectDependencies (Analyzer.db s')) = [1; 1]
    /\ dependency_names (Analyzer.db s') = ["x"; "y"]%string
    /\ map Analyzer.dep_packageName
         (Analyzer.prepareDependenciesData 1 manifest_v2) = ["y"]%string.
Proof.
  intros sha256_hex. cbv zeta. repeat split; reflexivity.
Qed.

(** ** C8: rows that are already what the upsert writes *)







(** ** The unique indexes under the writes *)








(** ** The unit of work by class *)















(** ** C5: batches of ten, one after the other, with pauses between *)











(** Fifteen repositories, each with a manifest that is fetched in 120 ms:
    two batches, of ten and of five, and one pause between them; each
    batch takes 123 ms, whatever its size, so that the run is over after
    123 + 2000 + 123 ms. *)
Example fifteen_repositories :
  let repo (i : Z) :=
    {| Sync.gh_id := i; Sync.gh_name := ("r" ++ decimal i)%string;
       Sync.gh_full_name := ("o/r" ++ decimal i)%string;
       Sync.gh_html_url := ""; Sync.gh_default_branch := None;
       Sync.gh_description := None; Sync.gh_owner_login := "o" |} in
  let allRepos := map repo [1;2;3;4;5;6;7;8;9;10;11;12;13;14;15] in
  let github :=
    {| Sync.paginate_listForOrg := fun _ => Sync.Pages [allRepos];
       Sync.repos_getContent := fun _ _ _ => Sync.Resolved (Some "{}") 200;
       Sync.repos_getContent_ms := fun _ _ _ => 120%N |} in
  let final :=
    fst (Sync.syncOrganizationRepos github example_parse in_order
           example_text "o" (Sync.start empty_database 0)) in
  map (@List.length _) (chunks Sync.BATCH_SIZE allRepos) = [10; 5]%nat
  /\ filter (fun e => match e with
                      | Sync.LogBatch _ _ _ | Sync.Sleep _ => true
                      | _ => false
                      end) (Sync.console final)
     = [Sync.LogBatch 1 2 10; Sync.Sleep 2000; Sync.LogBatch 2 2 5]
  /\ map Sync.repo_lastFetchedAt (Sync.repositories (Sync.db final))
     = repeat (Some 0) 10 ++ repeat (Some 2123) 5
  /\ Sync.clock final = 123 + 2000 + 123
  /\ Sync.successCount final = 15.
Proof. vm_compute. repeat split; reflexivity. Qed.

(** ** Counting by class *)











(** ** Free full names *)




(** ** C8: two runs *)
















Example first_and_second_run :
  let first :=
    Sync.syncOrganizationRepos example_github example_parse in_order
      example_text "o" (Sync.start example_database 100) in
  let second :=
    Sync.syncOrganizationRepos example_github example_parse in_order
      example_text "o" (Sync.start (Sync.db (fst first)) 20000) in
  map Sync.repo_lastFetchedAt (Sync.repositories (Sync.db (fst first)))
  = [Some 50; Some 100]
  /\ map Sync.repo_lastFetchedAt (Sync.repositories (Sync.db (fst second)))
     = [Some 50; Some 20000]
  /\ map Sync.repo_id (Sync.repositories (Sync.db (fst second)))
     = map Sync.repo_id (Sync.repositories (Sync.db (fst first)))
  /\ snd first
     = Normal (JObj [("success", JBool true);
                     ("message", JStr "Sync complete.");
                     ("successCount", JNum 1);
                     ("noPackageJsonCount", JNum 0);
                     ("errorCount", JNum 3)]).
Proof. vm_compute. repeat split. Qed.
